(** * Trader analytics of [scripts/analyze_traders.py]

    A shallow embedding of the five analyzers ([estimate_pnl],
    [analyze_timing], [analyze_position_changes], [analyze_market_impact],
    [classify_traders]) and the properties of them that the specification
    states.

    Conventions of the embedding:
    - Python numbers (ints and floats) are exact rationals [Q]; numeric
      facts are stated up to [==].  [round(x, n)] rounds half to even.
    - A trade is a JSON object: every key may be absent, so every field is
      an [option]; [t['k']] on an absent key raises [KeyError], and
      [t.get('is_redemption')] is the truth value of the key (absent is
      false).
    - [/] raises [ZeroDivisionError] on a zero divisor.
    - A [dict] (and a [defaultdict]) is an association list in insertion
      order, which is the order [.items()] iterates in.
    - [sorted] is a stable sort; [reverse=True] keeps the original order of
      equal keys. *)

From Stdlib Require Import QArith ZArith List String Bool Arith Lia Lqa.
From Stdlib Require Import Qround Qabs Qminmax Permutation Sorted.
Import ListNotations.
Local Open Scope Q_scope.

(** ** Exceptions and the result monad *)

Inductive exn : Type :=
| KeyError (key : string)
| ZeroDivisionError.

Inductive result (A : Type) : Type :=
| Ok (a : A)
| Raise (e : exn).
Arguments Ok {A} a.
Arguments Raise {A} e.

Definition bind {A B} (c : result A) (k : A -> result B) : result B :=
  match c with
  | Ok a => k a
  | Raise e => Raise e
  end.

Notation "x <- c ;; k" := (bind c (fun x => k))
  (at level 61, c at next level, right associativity).

(** [for x in xs: acc = body(acc, x)], stopping at the first exception. *)
Fixpoint foldM {A S} (body : S -> A -> result S) (xs : list A) (acc : S)
  : result S :=
  match xs with
  | [] => Ok acc
  | x :: xs' => acc' <- body acc x ;; foldM body xs' acc'
  end.

(** A list built by [results.append(...)] in a loop (or a comprehension). *)
Fixpoint mapM {A B} (f : A -> result B) (xs : list A) : result (list B) :=
  match xs with
  | [] => Ok []
  | x :: xs' => y <- f x ;; ys <- mapM f xs' ;; Ok (y :: ys)
  end.

(** ** Numbers *)

Definition Qlt_bool (x y : Q) : bool := negb (Qle_bool y x).

(** Python's true division. *)
Definition pydiv (a b : Q) : result Q :=
  if Qeq_bool b 0 then Raise ZeroDivisionError else Ok (a / b).

Definition round_half_even (q : Q) : Z :=
  let f := Qfloor q in
  let r := q - inject_Z f in
  if Qlt_bool r (1 # 2) then f
  else if Qlt_bool (1 # 2) r then (f + 1)%Z
  else if Z.even f then f else (f + 1)%Z.

(** [round(q, ndigits)] *)
Definition pyround (q : Q) (ndigits : nat) : Q :=
  let scale := inject_Z (10 ^ Z.of_nat ndigits) in
  Qred (inject_Z (round_half_even (q * scale)) / scale).

Definition pymax (a b : Q) : Q := if Qlt_bool a b then b else a.

(** ** Trade records *)

Record Trade : Type := mkTrade {
  user : option string;
  amount : option Q;
  outcome : option string;
  prob_before : option Q;
  prob_after : option Q;
  timestamp : option Z;
  date : option string;
  is_redemption : bool
}.

(** [t[key]] *)
Definition getitem {A} (field : option A) (key : string) : result A :=
  match field with
  | Some v => Ok v
  | None => Raise (KeyError key)
  end.

(** ** Dictionaries in insertion order *)

Definition dict (V : Type) : Type := list (string * V).

Fixpoint dict_get {V} (d : dict V) (k : string) : option V :=
  match d with
  | [] => None
  | (k', v) :: d' => if String.eqb k' k then Some v else dict_get d' k
  end.

Fixpoint dict_set {V} (d : dict V) (k : string) (v : V) : dict V :=
  match d with
  | [] => [(k, v)]
  | (k', v') :: d' =>
      if String.eqb k' k then (k', v) :: d' else (k', v') :: dict_set d' k v
  end.

(** [d[k]] of a [defaultdict] whose factory returns [dflt]. *)
Definition dd_get {V} (dflt : V) (d : dict V) (k : string) : V :=
  match dict_get d k with
  | Some v => v
  | None => dflt
  end.

(** The statements [d[k][field] op= ...] of one loop iteration on a
    [defaultdict]: the entry of [k] is created from [dflt] when absent and
    then changed by [f]. *)
Definition dd_update {V} (dflt : V) (d : dict V) (k : string) (f : V -> V)
  : dict V :=
  dict_set d k (f (dd_get dflt d k)).

Definition keys {V} (d : dict V) : list string := map fst d.
Definition values {V} (d : dict V) : list V := map snd d.

(** ** Stable sorting *)

Fixpoint insert_by {A} (leb : A -> A -> bool) (x : A) (l : list A) : list A :=
  match l with
  | [] => [x]
  | y :: l' => if leb x y then x :: l else y :: insert_by leb x l'
  end.

(** The element at the head is placed before every element it does not
    have to follow: equal elements keep their order. *)
Definition sort_by {A} (leb : A -> A -> bool) (l : list A) : list A :=
  fold_right (insert_by leb) [] l.

(** [sorted(l, key=key)] *)
Definition sorted_asc {A} (key : A -> Q) (l : list A) : list A :=
  sort_by (fun x y => Qle_bool (key x) (key y)) l.

(** [sorted(l, key=key, reverse=True)] *)
Definition sorted_desc {A} (key : A -> Q) (l : list A) : list A :=
  sort_by (fun x y => Qle_bool (key y) (key x)) l.

(** [sorted(trades, key=lambda x: x['timestamp'])]: the keys of all
    elements are computed first. *)
Definition sorted_by_timestamp (trades : list Trade) : result (list Trade) :=
  ks <- mapM (fun t => getitem (timestamp t) "timestamp") trades ;;
  Ok (map snd (sort_by (fun x y => Z.leb (fst x) (fst y)) (combine ks trades))).

(** ** Position Reconstructor: [estimate_pnl] *)

Module Pos.
Record t : Type := mk {
  yes_shares : Q;
  no_shares : Q;
  yes_cost : Q;
  no_cost : Q;
  trades : list Trade
}.
Definition default : t := mk 0 0 0 0 [].
End Pos.

Module PnlRow.
Record t : Type := mk {
  user : string;
  yes_cost : Q;
  no_cost : Q;
  total_cost : Q;
  yes_value : Q;
  no_value : Q;
  estimated_pnl : Q;
  roi_pct : Q;
  trade_count : nat;
  position : string
}.
End PnlRow.

Definition add_yes (shares amount : Q) (p : Pos.t) : Pos.t :=
  Pos.mk (Pos.yes_shares p + shares) (Pos.no_shares p)
         (Pos.yes_cost p + amount) (Pos.no_cost p) (Pos.trades p).

Definition add_no (shares amount : Q) (p : Pos.t) : Pos.t :=
  Pos.mk (Pos.yes_shares p) (Pos.no_shares p + shares)
         (Pos.yes_cost p) (Pos.no_cost p + amount) (Pos.trades p).

Definition append_trade (t : Trade) (p : Pos.t) : Pos.t :=
  Pos.mk (Pos.yes_shares p) (Pos.no_shares p)
         (Pos.yes_cost p) (Pos.no_cost p) (Pos.trades p ++ [t]).

(** The body of the first loop of [estimate_pnl]. *)
Definition pnl_step (trader_positions : dict Pos.t) (t : Trade)
  : result (dict Pos.t) :=
  if is_redemption t then Ok trader_positions
  else
    u <- getitem (user t) "user" ;;
    amt <- getitem (amount t) "amount" ;;
    pb <- getitem (prob_before t) "prob_before" ;;
    prob <- pydiv pb 100 ;;
    oc <- getitem (outcome t) "outcome" ;;
    upd <- (if String.eqb oc "YES" then
              shares <- (if Qlt_bool 0 prob then pydiv amt prob else Ok 0) ;;
              Ok (add_yes shares amt)
            else
              shares <- (if Qlt_bool prob 1 then pydiv amt (1 - prob)
                         else Ok 0) ;;
              Ok (add_no shares amt)) ;;
    Ok (dd_update Pos.default trader_positions u
          (fun p => append_trade t (upd p))).

(** The body of the second loop of [estimate_pnl]. *)
Definition pnl_row (current_prob : Q) (entry : string * Pos.t)
  : result PnlRow.t :=
  let '(u, pos) := entry in
  let yes_value := Pos.yes_shares pos * current_prob in
  let yes_pnl := yes_value - Pos.yes_cost pos in
  let no_value := Pos.no_shares pos * (1 - current_prob) in
  let no_pnl := no_value - Pos.no_cost pos in
  let total_pnl := yes_pnl + no_pnl in
  let total_cost := Pos.yes_cost pos + Pos.no_cost pos in
  roi <- (if Qlt_bool 0 total_cost then
            q <- pydiv total_pnl total_cost ;; Ok (q * 100)
          else Ok 0) ;;
  Ok (PnlRow.mk u
        (pyround (Pos.yes_cost pos) 2)
        (pyround (Pos.no_cost pos) 2)
        (pyround total_cost 2)
        (pyround yes_value 2)
        (pyround no_value 2)
        (pyround total_pnl 2)
        (pyround roi 1)
        (List.length (Pos.trades pos))
        (if Qlt_bool (Pos.no_cost pos) (Pos.yes_cost pos)
         then "LONG"%string else "SHORT"%string)).

Definition pnl_positions (trades : list Trade) : result (dict Pos.t) :=
  foldM pnl_step trades [].

Definition estimate_pnl (trades : list Trade) (current_prob : Q)
  : result (list PnlRow.t) :=
  trader_positions <- pnl_positions trades ;;
  results <- mapM (pnl_row current_prob) trader_positions ;;
  Ok (sorted_desc PnlRow.estimated_pnl results).

(** ** Timing Analyzer: [analyze_timing] *)

Module Timing.
(** [first_trade_idx] starts at [float('inf')], which is [None] here. *)
Record t : Type := mk {
  first_trade_idx : option nat;
  last_trade_idx : nat;
  early_trades : nat;
  mid_trades : nat;
  late_trades : nat;
  total : nat
}.
Definition default : t := mk None 0 0 0 0 0.
End Timing.

Module TimingRow.
(** [first_trade_pct] is [None] for [inf]. *)
Record t : Type := mk {
  user : string;
  timing_type : string;
  first_trade_pct : option Q;
  early_trades : nat;
  mid_trades : nat;
  late_trades : nat
}.
End TimingRow.

Definition min_inf (a : option nat) (b : nat) : option nat :=
  match a with
  | Some a' => Some (Nat.min a' b)
  | None => Some b
  end.

Definition timing_update (q1_cutoff q3_cutoff idx : nat) (d : Timing.t)
  : Timing.t :=
  let total := S (Timing.total d) in
  let first := min_inf (Timing.first_trade_idx d) idx in
  let last := Nat.max (Timing.last_trade_idx d) idx in
  if idx <? q1_cutoff then
    Timing.mk first last (S (Timing.early_trades d)) (Timing.mid_trades d)
              (Timing.late_trades d) total
  else if idx <? q3_cutoff then
    Timing.mk first last (Timing.early_trades d) (S (Timing.mid_trades d))
              (Timing.late_trades d) total
  else
    Timing.mk first last (Timing.early_trades d) (Timing.mid_trades d)
              (S (Timing.late_trades d)) total.

(** The body of the loop over [enumerate(sorted_trades)]. *)
Definition timing_step (q1_cutoff q3_cutoff : nat) (trader_timing : dict Timing.t)
  (it : nat * Trade) : result (dict Timing.t) :=
  let '(idx, t) := it in
  if is_redemption t then Ok trader_timing
  else
    u <- getitem (user t) "user" ;;
    Ok (dd_update Timing.default trader_timing u
          (timing_update q1_cutoff q3_cutoff idx)).

Definition timing_type_of (early late : nat) : string :=
  if late <? early then "EARLY"
  else if early <? late then "LATE" else "SPREAD".

Definition timing_row (total_trades : nat) (entry : string * Timing.t)
  : result TimingRow.t :=
  let '(u, data) := entry in
  pct <- match Timing.first_trade_idx data with
         | Some i =>
             q <- pydiv (inject_Z (Z.of_nat i)) (inject_Z (Z.of_nat total_trades)) ;;
             Ok (Some (pyround (q * 100) 1))
         | None =>
             if (total_trades =? 0)%nat then Raise ZeroDivisionError
             else Ok None
         end ;;
  Ok (TimingRow.mk u
        (timing_type_of (Timing.early_trades data) (Timing.late_trades data))
        pct
        (Timing.early_trades data)
        (Timing.mid_trades data)
        (Timing.late_trades data)).

Definition enumerate {A} (l : list A) : list (nat * A) :=
  combine (seq 0 (List.length l)) l.

(** [if not trades: return {}] is the empty result.  The cutoff
    [q2_cutoff] of the source is never used. *)
Definition analyze_timing (trades : list Trade) : result (list TimingRow.t) :=
  match trades with
  | [] => Ok []
  | _ =>
      sorted_trades <- sorted_by_timestamp trades ;;
      let total_trades := List.length sorted_trades in
      let q1_cutoff := (total_trades / 4)%nat in
      let q3_cutoff := ((total_trades * 3) / 4)%nat in
      trader_timing <- foldM (timing_step q1_cutoff q3_cutoff)
                             (enumerate sorted_trades) [] ;;
      mapM (timing_row total_trades) trader_timing
  end.

(** ** Position-Flip Detector: [analyze_position_changes] *)

Module Hist.
Record t : Type := mk {
  outcome : string;
  amount : Q;
  date : string;
  prob : Q
}.
End Hist.

Module FlipRow.
Record t : Type := mk {
  user : string;
  trade_count : nat;
  flips : nat;
  is_flipper : bool;
  avg_yes_entry_prob : Q;
  avg_no_entry_prob : Q;
  first_position : string;
  final_position : string
}.
End FlipRow.

(** The body of the first loop of [analyze_position_changes]. *)
Definition history_step (trader_history : dict (list Hist.t)) (t : Trade)
  : result (dict (list Hist.t)) :=
  if is_redemption t then Ok trader_history
  else
    u <- getitem (user t) "user" ;;
    oc <- getitem (outcome t) "outcome" ;;
    amt <- getitem (amount t) "amount" ;;
    d <- getitem (date t) "date" ;;
    pb <- getitem (prob_before t) "prob_before" ;;
    Ok (dd_update [] trader_history u (fun h => h ++ [Hist.mk oc amt d pb])).

(** One iteration of [for trade in history[1:]] on [(flips, last_direction)]. *)
Definition flip_step (st : nat * string) (trade : Hist.t) : nat * string :=
  let '(flips, last_direction) := st in
  if negb (String.eqb (Hist.outcome trade) last_direction)
  then (S flips, Hist.outcome trade)
  else (flips, last_direction).

Definition count_flips (first : Hist.t) (rest : list Hist.t) : nat :=
  fst (fold_left flip_step rest (0%nat, Hist.outcome first)).

Definition Qsum (l : list Q) : Q := fold_left Qplus l 0.

Definition side_volume (side : string) (history : list Hist.t) : Q :=
  Qsum (map Hist.amount
          (filter (fun t => String.eqb (Hist.outcome t) side) history)).

Definition side_weighted (side : string) (history : list Hist.t) : Q :=
  Qsum (map (fun t => Hist.prob t * Hist.amount t)
          (filter (fun t => String.eqb (Hist.outcome t) side) history)).

Definition avg_entry (side : string) (history : list Hist.t) : result Q :=
  if Qlt_bool 0 (side_volume side history)
  then pydiv (side_weighted side history) (side_volume side history)
  else Ok 0.

(** The body of the second loop; [None] is the [continue] of a history
    shorter than 2. *)
Definition flip_row (entry : string * list Hist.t)
  : result (option FlipRow.t) :=
  let '(u, history) := entry in
  match history with
  | first :: (_ :: _) as rest =>
      let flips := count_flips first rest in
      avg_yes_entry <- avg_entry "YES" history ;;
      avg_no_entry <- avg_entry "NO" history ;;
      Ok (Some (FlipRow.mk u (List.length history) flips (2 <=? flips)%nat
                  (pyround avg_yes_entry 1) (pyround avg_no_entry 1)
                  (Hist.outcome first)
                  (Hist.outcome (last rest first))))
  | _ => Ok None
  end.

Fixpoint somes {A} (l : list (option A)) : list A :=
  match l with
  | [] => []
  | Some a :: l' => a :: somes l'
  | None :: l' => somes l'
  end.

Definition trader_histories (trades : list Trade)
  : result (dict (list Hist.t)) :=
  sorted_trades <- sorted_by_timestamp trades ;;
  foldM history_step sorted_trades [].

Definition analyze_position_changes (trades : list Trade)
  : result (list FlipRow.t) :=
  trader_history <- trader_histories trades ;;
  rows <- mapM flip_row trader_history ;;
  Ok (sorted_desc (fun r => inject_Z (Z.of_nat (FlipRow.flips r)))
        (somes rows)).

(** ** Market-Impact Analyzer: [analyze_market_impact] *)

Module Impact.
Record t : Type := mk {
  total_price_impact : Q;
  trades : nat;
  biggest_move : Q
}.
Definition default : t := mk 0 0 0.
End Impact.

Module ImpactRow.
Record t : Type := mk {
  user : string;
  total_impact_pct : Q;
  avg_impact_pct : Q;
  biggest_move_pct : Q;
  trade_count : nat
}.
End ImpactRow.

Definition impact_update (impact : Q) (d : Impact.t) : Impact.t :=
  Impact.mk (Impact.total_price_impact d + impact)
            (S (Impact.trades d))
            (pymax (Impact.biggest_move d) impact).

Definition impact_step (trader_impact : dict Impact.t) (t : Trade)
  : result (dict Impact.t) :=
  if is_redemption t then Ok trader_impact
  else
    pa <- getitem (prob_after t) "prob_after" ;;
    pb <- getitem (prob_before t) "prob_before" ;;
    let impact := Qabs (pa - pb) in
    u <- getitem (user t) "user" ;;
    Ok (dd_update Impact.default trader_impact u (impact_update impact)).

Definition impact_row (entry : string * Impact.t) : result ImpactRow.t :=
  let '(u, data) := entry in
  avg_impact <- (if (0 <? Impact.trades data)%nat
                 then pydiv (Impact.total_price_impact data)
                            (inject_Z (Z.of_nat (Impact.trades data)))
                 else Ok 0) ;;
  Ok (ImpactRow.mk u
        (pyround (Impact.total_price_impact data) 2)
        (pyround avg_impact 2)
        (pyround (Impact.biggest_move data) 2)
        (Impact.trades data)).

Definition analyze_market_impact (trades : list Trade)
  : result (list ImpactRow.t) :=
  trader_impact <- foldM impact_step trades [] ;;
  results <- mapM impact_row trader_impact ;;
  Ok (sorted_desc ImpactRow.total_impact_pct results).

(** ** Trader Classifier: [classify_traders] *)

Module Stats.
Record t : Type := mk {
  volume : Q;
  trades : nat;
  yes_pct : Q
}.
Definition default : t := mk 0 0 0.
End Stats.

Module ClassRow.
Record t : Type := mk {
  user : string;
  types : list string;
  volume : Q;
  trades : nat;
  yes_pct : Q;
  estimated_pnl : Q;
  roi_pct : Q
}.
End ClassRow.

(** [{p['user']: p for p in pnl_data}] *)
Definition pnl_lookup_of (pnl_data : list PnlRow.t) : dict PnlRow.t :=
  fold_left (fun d p => dict_set d (PnlRow.user p) p) pnl_data [].

(** [pnl.get(key, dflt)] where [pnl] is [pnl_lookup.get(user, {})]. *)
Definition pnl_get {A} (pnl : option PnlRow.t) (field : PnlRow.t -> A)
  (dflt : A) : A :=
  match pnl with
  | Some p => field p
  | None => dflt
  end.

Definition stats_update (amt : Q) (s : Stats.t) : Stats.t :=
  Stats.mk (Stats.volume s + amt) (S (Stats.trades s)) (Stats.yes_pct s).

Definition stats_step (trader_stats : dict Stats.t) (t : Trade)
  : result (dict Stats.t) :=
  if is_redemption t then Ok trader_stats
  else
    u <- getitem (user t) "user" ;;
    amt <- getitem (amount t) "amount" ;;
    Ok (dd_update Stats.default trader_stats u (stats_update amt)).

(** The body of [for user in trader_stats]. *)
Definition yes_pct_of (pnl_lookup : dict PnlRow.t) (u : string) : result Q :=
  let pnl := dict_get pnl_lookup u in
  let yes_cost := pnl_get pnl PnlRow.yes_cost 0 in
  let total := pnl_get pnl PnlRow.total_cost 1 in
  if Qlt_bool 0 total then q <- pydiv yes_cost total ;; Ok (q * 100)
  else Ok 50.

Definition set_yes_pct (pnl_lookup : dict PnlRow.t) (entry : string * Stats.t)
  : result (string * Stats.t) :=
  let '(u, s) := entry in
  pct <- yes_pct_of pnl_lookup u ;;
  Ok (u, Stats.mk (Stats.volume s) (Stats.trades s) pct).

(** [sorted(volumes, reverse=True)[min(10, len(volumes)-1)] if volumes else 0] *)
Definition whale_threshold_of (volumes : list Q) : Q :=
  match volumes with
  | [] => 0
  | _ => nth (Nat.min 10 (List.length volumes - 1))
             (sorted_desc (fun v => v) volumes) 0
  end.

(** The label rules, in the order of the source. *)
Definition trader_types (whale_threshold volume : Q) (trades : nat)
  (yes_pct roi_pct : Q) : list string :=
  let types := [] in
  let types := if Qle_bool whale_threshold volume
               then types ++ ["WHALE"%string] else types in
  let types := if (20 <=? trades)%nat
               then types ++ ["ACTIVE"%string] else types in
  let types := if Qle_bool 80 yes_pct then types ++ ["BULL"%string]
               else if Qle_bool yes_pct 20 then types ++ ["BEAR"%string]
               else types in
  let types := if Qlt_bool 50 roi_pct then types ++ ["WINNER"%string]
               else if Qlt_bool roi_pct (-30) then types ++ ["LOSER"%string]
               else types in
  match types with
  | [] => ["RETAIL"%string]
  | _ => types
  end.

Definition class_row (pnl_lookup : dict PnlRow.t) (whale_threshold : Q)
  (entry : string * Stats.t) : ClassRow.t :=
  let '(u, stats) := entry in
  let pnl := dict_get pnl_lookup u in
  ClassRow.mk u
    (trader_types whale_threshold (Stats.volume stats) (Stats.trades stats)
       (Stats.yes_pct stats) (pnl_get pnl PnlRow.roi_pct 0))
    (pyround (Stats.volume stats) 2)
    (Stats.trades stats)
    (pyround (Stats.yes_pct stats) 1)
    (pnl_get pnl PnlRow.estimated_pnl 0)
    (pnl_get pnl PnlRow.roi_pct 0).

Definition trader_stats_of (trades : list Trade) (pnl_data : list PnlRow.t)
  : result (dict Stats.t) :=
  trader_stats <- foldM stats_step trades [] ;;
  mapM (set_yes_pct (pnl_lookup_of pnl_data)) trader_stats.

Definition classify_traders (trades : list Trade) (pnl_data : list PnlRow.t)
  : result (list ClassRow.t) :=
  trader_stats <- trader_stats_of trades pnl_data ;;
  let volumes := map Stats.volume (values trader_stats) in
  let whale_threshold := whale_threshold_of volumes in
  let results := map (class_row (pnl_lookup_of pnl_data) whale_threshold)
                     trader_stats in
  Ok (sorted_desc ClassRow.volume results).

(** The analyses of [main], in its order. *)
Definition run_analyses (trades : list Trade) (current_prob : Q) :=
  pnl <- estimate_pnl trades current_prob ;;
  timing <- analyze_timing trades ;;
  impact <- analyze_market_impact trades ;;
  positions <- analyze_position_changes trades ;;
  classifications <- classify_traders trades pnl ;;
  Ok (pnl, timing, impact, positions, classifications).

(** ** Sample trades *)

Definition buy (u : string) (amt : Q) (oc : string) (pb pa : Q) (ts : Z)
  : Trade :=
  mkTrade (Some u) (Some amt) (Some oc) (Some pb) (Some pa) (Some ts)
          (Some "2024-01-01"%string) false.

Definition redeem (u : string) (ts : Z) : Trade :=
  mkTrade (Some u) (Some 10) (Some "YES"%string) (Some 50) (Some 50) (Some ts)
          (Some "2024-01-01"%string) true.


(** * What the loops compute *)

(** ** Grouping loops

    Every first loop of an analyzer has the same shape: an element is
    skipped, or the accumulator of one key is changed.  [group_by] is that
    loop without its exceptions. *)

Section Grouping.
Context {A V : Type}.
Variable dflt : V.
Variable key : A -> option string.
Variable upd : A -> V -> V.

Definition group_step (d : dict V) (x : A) : dict V :=
  match key x with
  | Some k => dd_update dflt d k (upd x)
  | None => d
  end.

Definition group_by (l : list A) (d : dict V) : dict V :=
  fold_left group_step l d.

Definition has_key (k : string) (x : A) : bool :=
  match key x with
  | Some k' => String.eqb k' k
  | None => false
  end.

(** The accumulator of [k]: the updates of the elements of [k], in order. *)
Definition fold_key (k : string) (l : list A) (v : V) : V :=
  fold_left (fun v x => upd x v) (filter (has_key k) l) v.
End Grouping.

(** ** Reading a trade *)

Definition present {A} (field : option A) : bool :=
  match field with
  | Some _ => true
  | None => false
  end.

Definition field_or {A} (dflt : A) (field : option A) : A :=
  match field with
  | Some v => v
  | None => dflt
  end.

(** The trader a trade counts for: none for a redemption. *)
Definition trader_key (t : Trade) : option string :=
  if is_redemption t then None else user t.

(** [t] is a non-redemption trade of [u]. *)
Definition trade_of (u : string) (t : Trade) : bool :=
  has_key trader_key u t.

Definition amount_of (t : Trade) : Q := field_or 0 (amount t).

(** The pre-trade probability on the [0,1] scale. *)
Definition prob_of (t : Trade) : Q := field_or 0 (prob_before t) / 100.

Definition is_yes (t : Trade) : bool :=
  String.eqb (field_or EmptyString (outcome t)) "YES".

(** Shares bought by a trade, at its pre-trade probability. *)
Definition shares_of (t : Trade) : Q :=
  if is_yes t then
    if Qlt_bool 0 (prob_of t) then amount_of t / prob_of t else 0
  else
    if Qlt_bool (prob_of t) 1 then amount_of t / (1 - prob_of t) else 0.

Definition traders (trades : list Trade) (u : string) : Prop :=
  exists t, In t trades /\ trade_of u t = true.

(** ** Position Reconstructor *)

(** The fields [estimate_pnl] reads of a trade it does not skip. *)
Definition pnl_wf (t : Trade) : bool :=
  is_redemption t ||
  (present (user t) && present (amount t) && present (prob_before t)
   && present (outcome t)).

Definition pnl_upd (t : Trade) (p : Pos.t) : Pos.t :=
  append_trade t
    (if is_yes t then add_yes (shares_of t) (amount_of t) p
     else add_no (shares_of t) (amount_of t) p).

Definition trades_of (u : string) (trades : list Trade) : list Trade :=
  filter (trade_of u) trades.

Definition yes_trades_of (u : string) (trades : list Trade) : list Trade :=
  filter is_yes (trades_of u trades).

Definition no_trades_of (u : string) (trades : list Trade) : list Trade :=
  filter (fun t => negb (is_yes t)) (trades_of u trades).

(** The position of the specification: sums over the trader's trades. *)
Definition position_of (u : string) (trades : list Trade) : Pos.t :=
  Pos.mk (Qsum (map shares_of (yes_trades_of u trades)))
         (Qsum (map shares_of (no_trades_of u trades)))
         (Qsum (map amount_of (yes_trades_of u trades)))
         (Qsum (map amount_of (no_trades_of u trades)))
         (trades_of u trades).

Definition yes_value_of (pos : Pos.t) (reference_probability : Q) : Q :=
  Pos.yes_shares pos * reference_probability.

Definition no_value_of (pos : Pos.t) (reference_probability : Q) : Q :=
  Pos.no_shares pos * (1 - reference_probability).

Definition total_cost_of (pos : Pos.t) : Q :=
  Pos.yes_cost pos + Pos.no_cost pos.

Definition estimated_pnl_of (pos : Pos.t) (reference_probability : Q) : Q :=
  (yes_value_of pos reference_probability - Pos.yes_cost pos)
  + (no_value_of pos reference_probability - Pos.no_cost pos).

Definition roi_pct_of (pos : Pos.t) (reference_probability : Q) : Q :=
  if Qlt_bool 0 (total_cost_of pos)
  then estimated_pnl_of pos reference_probability / total_cost_of pos * 100
  else 0.

(** The row of one trader, without the exception of its division. *)
Definition pnl_row_of (reference_probability : Q) (entry : string * Pos.t)
  : PnlRow.t :=
  let '(u, pos) := entry in
  PnlRow.mk u
    (pyround (Pos.yes_cost pos) 2)
    (pyround (Pos.no_cost pos) 2)
    (pyround (total_cost_of pos) 2)
    (pyround (yes_value_of pos reference_probability) 2)
    (pyround (no_value_of pos reference_probability) 2)
    (pyround (estimated_pnl_of pos reference_probability) 2)
    (pyround (roi_pct_of pos reference_probability) 1)
    (List.length (Pos.trades pos))
    (if Qlt_bool (Pos.no_cost pos) (Pos.yes_cost pos)
     then "LONG"%string else "SHORT"%string).

(** ** Trader Classifier *)

(** The fields [classify_traders] reads of a trade it does not skip. *)
Definition stats_wf (t : Trade) : bool :=
  is_redemption t || (present (user t) && present (amount t)).

Definition stats_upd (t : Trade) (s : Stats.t) : Stats.t :=
  stats_update (amount_of t) s.

(** A trader's total volume and number of trades. *)
Definition volume_of (u : string) (trades : list Trade) : Q :=
  Qsum (map amount_of (trades_of u trades)).

Definition trade_count_of (u : string) (trades : list Trade) : nat :=
  List.length (trades_of u trades).

(** [yes_pct_of] without the exception of its division. *)
Definition yes_pct_val (pnl_lookup : dict PnlRow.t) (u : string) : Q :=
  let pnl := dict_get pnl_lookup u in
  let yes_cost := pnl_get pnl PnlRow.yes_cost 0 in
  let total := pnl_get pnl PnlRow.total_cost 1 in
  if Qlt_bool 0 total then yes_cost / total * 100 else 50.

Definition with_yes_pct (pnl_lookup : dict PnlRow.t) (entry : string * Stats.t)
  : string * Stats.t :=
  let '(u, s) := entry in
  (u, Stats.mk (Stats.volume s) (Stats.trades s) (yes_pct_val pnl_lookup u)).

Definition has_label (label : string) (types : list string) : bool :=
  existsb (String.eqb label) types.

(** ** Timing Analyzer *)

Definition timestamp_of (t : Trade) : Z := field_or 0%Z (timestamp t).

(** [sorted(trades, key=lambda x: x['timestamp'])] when no key is absent. *)
Definition sort_by_timestamp (trades : list Trade) : list Trade :=
  sort_by (fun x y => Z.leb (timestamp_of x) (timestamp_of y)) trades.

(** The fields [analyze_timing] reads: the timestamp of every trade, the
    user of those it does not skip. *)
Definition timing_wf (t : Trade) : bool :=
  present (timestamp t) && (is_redemption t || present (user t)).

(** The rank indices of the trades counted for [u]. *)
Definition trader_indices (u : string) (sorted_trades : list Trade) : list nat :=
  map fst (filter (fun it => trade_of u (snd it)) (enumerate sorted_trades)).

Definition count_if (p : nat -> bool) (l : list nat) : nat :=
  List.length (filter p l).

Definition first_trade_pct_of (total_trades : nat) (first : option nat)
  : option Q :=
  match first with
  | Some i =>
      Some (pyround (inject_Z (Z.of_nat i) / inject_Z (Z.of_nat total_trades)
                     * 100) 1)
  | None => None
  end.

Definition timing_row_of (total_trades : nat) (entry : string * Timing.t)
  : TimingRow.t :=
  let '(u, data) := entry in
  TimingRow.mk u
    (timing_type_of (Timing.early_trades data) (Timing.late_trades data))
    (first_trade_pct_of total_trades (Timing.first_trade_idx data))
    (Timing.early_trades data)
    (Timing.mid_trades data)
    (Timing.late_trades data).

(** The dictionary of the loop of [analyze_timing] over the sorted trades. *)
Definition timing_dict (sorted_trades : list Trade) : dict Timing.t :=
  let total_trades := List.length sorted_trades in
  group_by Timing.default (fun it => trader_key (snd it))
    (fun it => timing_update (total_trades / 4) (total_trades * 3 / 4) (fst it))
    (enumerate sorted_trades) [].

(** The accumulator of trader [u] after that loop. *)
Definition timing_data (u : string) (sorted_trades : list Trade) : Timing.t :=
  let total_trades := List.length sorted_trades in
  fold_key (fun it => trader_key (snd it))
    (fun it => timing_update (total_trades / 4) (total_trades * 3 / 4) (fst it))
    u (enumerate sorted_trades) Timing.default.

(** Twelve trades: alice makes the first three, bob the last three. *)
Definition twelve_trades : list Trade :=
  [buy "alice" 10 "YES" 50 51 100; buy "alice" 10 "YES" 51 52 101;
   buy "alice" 10 "YES" 52 53 102; buy "carol" 10 "NO" 53 52 103;
   buy "carol" 10 "NO" 52 51 104; buy "carol" 10 "NO" 51 50 105;
   buy "carol" 10 "YES" 50 51 106; buy "carol" 10 "YES" 51 52 107;
   buy "carol" 10 "YES" 52 53 108; buy "bob" 10 "NO" 53 52 109;
   buy "bob" 10 "NO" 52 51 110; buy "bob" 10 "NO" 51 50 111].

(** Twelve trades, given out of order: dave makes the first and the last. *)
Definition twelve_trades_spread : list Trade :=
  [buy "dave" 10 "YES" 53 54 211; buy "carol" 10 "YES" 51 52 201;
   buy "carol" 10 "YES" 52 53 202; buy "carol" 10 "NO" 53 52 203;
   buy "carol" 10 "NO" 52 51 204; buy "carol" 10 "NO" 51 50 205;
   buy "carol" 10 "YES" 50 51 206; buy "carol" 10 "YES" 51 52 207;
   buy "carol" 10 "YES" 52 53 208; buy "carol" 10 "NO" 53 52 209;
   buy "carol" 10 "NO" 52 53 210; buy "dave" 10 "YES" 50 51 200].

(** ** Position-Flip Detector *)

(** The fields [analyze_position_changes] reads: the timestamp of every
    trade, and five more of those it does not skip. *)
Definition flips_wf (t : Trade) : bool :=
  present (timestamp t) &&
  (is_redemption t ||
   (present (user t) && present (outcome t) && present (amount t)
    && present (date t) && present (prob_before t))).

Definition outcome_of (t : Trade) : string := field_or EmptyString (outcome t).

Definition hist_entry (t : Trade) : Hist.t :=
  Hist.mk (outcome_of t) (amount_of t) (field_or EmptyString (date t))
          (field_or 0 (prob_before t)).

Definition history_upd (t : Trade) (h : list Hist.t) : list Hist.t :=
  h ++ [hist_entry t].

(** The flip count in the words of the specification: walk the outcomes
    after the first; a trade whose outcome differs from [last_direction]
    counts one flip and becomes the new [last_direction]; another trade
    changes nothing. *)
Fixpoint walk_flips (last_direction : string) (outcomes : list string) : nat :=
  match outcomes with
  | [] => 0
  | o :: rest =>
      if String.eqb o last_direction then walk_flips last_direction rest
      else S (walk_flips o rest)
  end.

Definition flips_of (outcomes : list string) : nat :=
  match outcomes with
  | [] => 0
  | first :: rest => walk_flips first rest
  end.

Definition avg_entry_val (side : string) (history : list Hist.t) : Q :=
  if Qlt_bool 0 (side_volume side history)
  then side_weighted side history / side_volume side history
  else 0.

Definition flip_row_of (entry : string * list Hist.t) : option FlipRow.t :=
  let '(u, history) := entry in
  match history with
  | first :: (_ :: _) as rest =>
      let flips := count_flips first rest in
      Some (FlipRow.mk u (List.length history) flips (2 <=? flips)%nat
              (pyround (avg_entry_val "YES" history) 1)
              (pyround (avg_entry_val "NO" history) 1)
              (Hist.outcome first)
              (Hist.outcome (last rest first)))
  | _ => None
  end.

(** Alice alternates YES, NO, YES, NO; bob stays on YES; carol trades
    once and redeems. *)
Definition flip_trades : list Trade :=
  [buy "alice" 10 "YES" 50 52 1; buy "bob" 10 "YES" 52 53 2;
   buy "alice" 10 "NO" 53 51 3; buy "carol" 5 "NO" 51 50 4;
   buy "bob" 10 "YES" 50 52 5; buy "alice" 10 "YES" 52 54 6;
   redeem "carol" 7; buy "alice" 10 "NO" 54 52 8;
   buy "bob" 10 "YES" 52 53 9].

(** ** Market-Impact Analyzer *)

(** The fields [analyze_market_impact] reads of a trade it does not skip. *)
Definition impact_wf (t : Trade) : bool :=
  is_redemption t ||
  (present (prob_after t) && present (prob_before t) && present (user t)).

(** The price move of a trade, on the scale of the stored fields. *)
Definition impact_of (t : Trade) : Q :=
  Qabs (field_or 0 (prob_after t) - field_or 0 (prob_before t)).

Definition impact_upd (t : Trade) (d : Impact.t) : Impact.t :=
  impact_update (impact_of t) d.




Definition impact_row_of (entry : string * Impact.t) : ImpactRow.t :=
  let '(u, data) := entry in
  ImpactRow.mk u
    (pyround (Impact.total_price_impact data) 2)
    (pyround (if (0 <? Impact.trades data)%nat
              then Impact.total_price_impact data
                   / inject_Z (Z.of_nat (Impact.trades data))
              else 0) 2)
    (pyround (Impact.biggest_move data) 2)
    (Impact.trades data).

(** The market-impact scenario with the probabilities on the 0-100 scale
    of the input, and with the same probabilities stored on the [0,1]
    scale. *)
Definition impact_trades_pct : list Trade :=
  [buy "alice" 10 "YES" 40 45 1; buy "alice" 10 "NO" 45 30 2].


(** ** Records with a missing field *)

(** A trade of bob without the key [outcome], and one without [user]. *)
Definition no_outcome : Trade :=
  mkTrade (Some "bob"%string) (Some 10) None (Some 50) (Some 51) (Some 2%Z)
          (Some "2024-01-02"%string) false.

Definition no_user : Trade :=
  mkTrade None (Some 10) (Some "NO"%string) (Some 50) (Some 49) (Some 3%Z)
          (Some "2024-01-03"%string) false.

(** A trader whose only trade has amount 0. *)
Definition zero_cost_trades : list Trade := [buy "alice" 0 "YES" 40 40 1].

(** ** Redemptions *)

(** The collection with all [is_redemption] trades removed. *)
Definition non_redemption (trades : list Trade) : list Trade :=
  filter (fun t => negb (is_redemption t)) trades.

(** Four redemptions, then four trades of alice. *)
Definition redemption_trades : list Trade :=
  [redeem "bob" 0; redeem "bob" 1; redeem "bob" 2; redeem "bob" 3;
   buy "alice" 10 "YES" 50 51 4; buy "alice" 10 "YES" 51 52 5;
   buy "alice" 10 "YES" 52 53 6; buy "alice" 10 "YES" 53 54 7].


(** ** A market with a retail trader

    Eleven traders with one trade of 1000 each, and zoe with five trades
    of 10, half of her cost on YES; her row of the P&L data has an ROI of
    10 percent. *)
Definition big_traders : list string :=
  ["t01"; "t02"; "t03"; "t04"; "t05"; "t06"; "t07"; "t08"; "t09"; "t10";
   "t11"]%string.

Definition retail_trades : list Trade :=
  map (fun u => buy u 1000 "YES" 50 55 1) big_traders
  ++ [buy "zoe" 10 "YES" 50 51 2; buy "zoe" 10 "NO" 51 50 3;
      buy "zoe" 10 "YES" 50 51 4; buy "zoe" 10 "NO" 51 50 5;
      buy "zoe" 10 "YES" 50 51 6].

Definition zoe_pnl : PnlRow.t :=
  PnlRow.mk "zoe" 25 25 50 30 25 5 10 5 "SHORT".

(** * Further definitions *)

(** ** The order of the rows *)

(** The distinct elements of a list, in the order of their first
    occurrence. *)
Fixpoint first_seen (l : list string) : list string :=
  match l with
  | [] => []
  | x :: l' => x :: filter (fun y => negb (String.eqb x y)) (first_seen l')
  end.

(** The traders of a collection, in the order of their first
    non-redemption trade. *)
Definition trader_order (trades : list Trade) : list string :=
  first_seen (somes (map trader_key trades)).

(** ** Totals *)





(** ** Flips *)

(** The number of consecutive pairs of different outcomes. *)
Fixpoint adjacent_changes (outcomes : list string) : nat :=
  match outcomes with
  | a :: (b :: _) as rest =>
      ((if String.eqb a b then 0 else 1) + adjacent_changes rest)%nat
  | _ => 0%nat
  end.




(** ** Labels *)

(** The labels of the classifier, in the order in which it appends them. *)
Definition all_labels : list string :=
  ["WHALE"; "ACTIVE"; "BULL"; "BEAR"; "WINNER"; "LOSER"; "RETAIL"]%string.

Definition is_whale (r : ClassRow.t) : bool :=
  has_label "WHALE" (ClassRow.types r).

(** ** The report: [main]

    [main] without its printing: the document read by [load_data] and the
    parsed arguments go in, the value given to [json.dumps] comes out. *)

Module Summary.
Record t : Type := mk {
  market_title : option string;
  current_probability : option Q
}.
End Summary.

Module Data.
Record t : Type := mk {
  trades : option (list Trade);
  summary : option Summary.t
}.
End Data.

(** The values of [--output]. *)
Inductive output_choice : Type :=
| OutputAll
| OutputPnl
| OutputTiming
| OutputImpact
| OutputClassify.

Module Args.
Record t : Type := mk {
  current_prob : option Q;
  output : output_choice;
  top : Z
}.
End Args.

Module ReportSummary.
Record t : Type := mk {
  market : string;
  current_prob : Q;
  total_traders : nat;
  total_trades : nat
}.
End ReportSummary.

Module Report.
Record t : Type := mk {
  summary : ReportSummary.t;
  pnl_leaderboard : list PnlRow.t;
  biggest_losers : list PnlRow.t;
  market_movers : list ImpactRow.t;
  position_flippers : list FlipRow.t;
  trader_classifications : list ClassRow.t
}.
End Report.

Inductive Output : Type :=
| OutAll (report : Report.t)
| OutPnl (rows : list PnlRow.t)
| OutTiming (rows : list TimingRow.t)
| OutImpact (rows : list ImpactRow.t)
| OutClassify (rows : list ClassRow.t).

(** What stops [main]: an exception of the analyses or of a lookup, or
    the slice of the dictionary that [analyze_timing] returns for no
    trades ([TypeError], a [KeyError] since Python 3.12). *)
Inductive failure : Type :=
| Raised (e : exn)
| SliceOfDict.

Inductive main_result (A : Type) : Type :=
| Returned (a : A)
| Aborted (f : failure).
Arguments Returned {A} a.
Arguments Aborted {A} f.

(** [l[:n]] *)
Definition slice_to {A} (n : Z) (l : list A) : list A :=
  if (0 <=? n)%Z then firstn (Z.to_nat n) l
  else firstn (Z.to_nat (Z.of_nat (List.length l) + n)) l.

(** The statements of [main] up to the analyses. *)
Definition main_inputs (data : Data.t) (args : Args.t)
  : result (list Trade * Q * string) :=
  trades <- getitem (Data.trades data) "trades" ;;
  current_prob <-
    match Args.current_prob args with
    | Some p => Ok p
    | None =>
        s <- getitem (Data.summary data) "summary" ;;
        pydiv (field_or 50 (Summary.current_probability s)) 100
    end ;;
  s <- getitem (Data.summary data) "summary" ;;
  title <- getitem (Summary.market_title s) "market_title" ;;
  Ok (trades, current_prob, title).

Definition main (data : Data.t) (args : Args.t) : main_result Output :=
  match (inputs <- main_inputs data args ;;
         let '(trades, current_prob, title) := inputs in
         analyses <- run_analyses trades current_prob ;;
         Ok (inputs, analyses)) with
  | Raise e => Aborted (Raised e)
  | Ok (trades, current_prob, title,
        (pnl, timing, impact, positions, classifications)) =>
      let top := Args.top args in
      match Args.output args with
      | OutputAll =>
          Returned (OutAll (Report.mk
            (ReportSummary.mk title current_prob (List.length pnl)
               (List.length (non_redemption trades)))
            (slice_to top pnl)
            (slice_to top (sorted_asc PnlRow.estimated_pnl pnl))
            (slice_to top impact)
            (slice_to top (filter FlipRow.is_flipper positions))
            (slice_to top classifications)))
      | OutputPnl => Returned (OutPnl (slice_to top pnl))
      | OutputTiming =>
          match trades with
          | [] => Aborted SliceOfDict
          | _ => Returned (OutTiming (slice_to top timing))
          end
      | OutputImpact => Returned (OutImpact (slice_to top impact))
      | OutputClassify => Returned (OutClassify (slice_to top classifications))
      end
  end.

(** A document with a title and the given trades. *)
Definition market (title : string) (trades : list Trade) : Data.t :=
  Data.mk (Some trades) (Some (Summary.mk (Some title) (Some 50))).

(** The fields the five analyses read of a trade. *)
Definition report_wf (t : Trade) : bool :=
  pnl_wf t && timing_wf t && impact_wf t && flips_wf t.

(** A redemption without the key [timestamp], which only the two sorting
    analyzers read of it. *)
Definition redeem_no_timestamp : Trade :=
  mkTrade (Some "bob"%string) (Some 10) (Some "YES"%string) (Some 50)
          (Some 50) None (Some "2024-01-04"%string) true.

(** The reference probability [main] uses: the override, else the
    [current_probability] of the summary (50 when absent) over 100. *)
Definition reference_probability (args : Args.t) (s : Summary.t) : Q :=
  match Args.current_prob args with
  | Some p => p
  | None => field_or 50 (Summary.current_probability s) / 100
  end.

(** * The siblings in [scripts/generate_viz.py]

    The visualization script has its own [estimate_pnl] and its own
    label rule, [classify_trader], and computes its own whale threshold in
    [generate_html]. *)

Module VizPos.
Record t : Type := mk {
  yes_shares : Q;
  no_shares : Q;
  yes_cost : Q;
  no_cost : Q
}.
Definition default : t := mk 0 0 0 0.
End VizPos.

Module VizRow.
Record t : Type := mk {
  pnl : Q;
  roi : Q;
  cost : Q
}.
End VizRow.

Definition viz_add_yes (shares amount : Q) (p : VizPos.t) : VizPos.t :=
  VizPos.mk (VizPos.yes_shares p + shares) (VizPos.no_shares p)
            (VizPos.yes_cost p + amount) (VizPos.no_cost p).

Definition viz_add_no (shares amount : Q) (p : VizPos.t) : VizPos.t :=
  VizPos.mk (VizPos.yes_shares p) (VizPos.no_shares p + shares)
            (VizPos.yes_cost p) (VizPos.no_cost p + amount).

(** The body of the first loop of [generate_viz.estimate_pnl]. *)
Definition viz_pnl_step (trader_positions : dict VizPos.t) (t : Trade)
  : result (dict VizPos.t) :=
  if is_redemption t then Ok trader_positions
  else
    u <- getitem (user t) "user" ;;
    amt <- getitem (amount t) "amount" ;;
    pb <- getitem (prob_before t) "prob_before" ;;
    prob <- pydiv pb 100 ;;
    oc <- getitem (outcome t) "outcome" ;;
    upd <- (if String.eqb oc "YES" then
              shares <- (if Qlt_bool 0 prob then pydiv amt prob else Ok 0) ;;
              Ok (viz_add_yes shares amt)
            else
              shares <- (if Qlt_bool prob 1 then pydiv amt (1 - prob)
                         else Ok 0) ;;
              Ok (viz_add_no shares amt)) ;;
    Ok (dd_update VizPos.default trader_positions u upd).

(** The body of its second loop: [results[user] = {...}]. *)
Definition viz_pnl_result (current_prob : Q) (results : dict VizRow.t)
  (entry : string * VizPos.t) : result (dict VizRow.t) :=
  let '(u, pos) := entry in
  let yes_value := VizPos.yes_shares pos * current_prob in
  let no_value := VizPos.no_shares pos * (1 - current_prob) in
  let total_cost := VizPos.yes_cost pos + VizPos.no_cost pos in
  let total_pnl :=
    (yes_value - VizPos.yes_cost pos) + (no_value - VizPos.no_cost pos) in
  roi <- (if Qlt_bool 0 total_cost then
            q <- pydiv total_pnl total_cost ;; Ok (q * 100)
          else Ok 0) ;;
  Ok (dict_set results u
        (VizRow.mk (pyround total_pnl 0) (pyround roi 1)
                   (pyround total_cost 0))).

Definition viz_estimate_pnl (trades : list Trade) (current_prob : Q)
  : result (dict VizRow.t) :=
  trader_positions <- foldM viz_pnl_step trades [] ;;
  foldM (viz_pnl_result current_prob) trader_positions [].

(** [classify_trader(volume, trades, yes_pct, roi, whale_threshold)] *)
Definition viz_classify_trader (volume : Q) (trades : nat) (yes_pct roi : Q)
  (whale_threshold : Q) : list string :=
  let types := [] in
  let types := if Qle_bool whale_threshold volume
               then types ++ ["WHALE"%string] else types in
  let types := if (15 <=? trades)%nat
               then types ++ ["ACTIVE"%string] else types in
  let types := if Qle_bool 80 yes_pct then types ++ ["BULL"%string]
               else if Qle_bool yes_pct 20 then types ++ ["BEAR"%string]
               else types in
  let types := if Qlt_bool 50 roi then types ++ ["WINNER"%string]
               else if Qlt_bool roi (-30) then types ++ ["LOSER"%string]
               else types in
  match types with
  | [] => ["RETAIL"%string]
  | _ => types
  end.

(** [sorted(volumes, reverse=True)[min(9, len(volumes)-1)] if volumes else 0]
    of [generate_html]. *)
Definition viz_whale_threshold_of (volumes : list Q) : Q :=
  match volumes with
  | [] => 0
  | _ => nth (Nat.min 9 (List.length volumes - 1))
             (sorted_desc (fun v => v) volumes) 0
  end.

Definition viz_pos_upd (t : Trade) (p : VizPos.t) : VizPos.t :=
  if is_yes t then viz_add_yes (shares_of t) (amount_of t) p
  else viz_add_no (shares_of t) (amount_of t) p.



(** The [analyze_market_impact] of the visualization. *)
Module VizImpact.
Record t : Type := mk {
  total : Q;
  biggest : Q
}.
Definition default : t := mk 0 0.
End VizImpact.






(** * Properties *)

(** ** The result monad *)

Lemma bind_Ok {A B} (c : result A) (k : A -> result B) (b : B) :
  bind c k = Ok b <-> exists a, c = Ok a /\ k a = Ok b.
Proof.
  destruct c as [a|e]; simpl; split.
  - intros H. now exists a.
  - now intros [a' [[= ->] H]].
  - discriminate.
  - now intros [a' [[=] _]].
Qed.

Lemma bind_Raise {A B} (c : result A) (k : A -> result B) (e : exn) :
  bind c k = Raise e <->
  c = Raise e \/ exists a, c = Ok a /\ k a = Raise e.
Proof.
  destruct c as [a|e']; simpl; split.
  - intros H. right. now exists a.
  - intros [[=]|[a' [[= ->] H]]]. exact H.
  - intros [= ->]. now left.
  - intros [[= ->]|[a' [[=] _]]]. reflexivity.
Qed.

Lemma foldM_app {A S} (body : S -> A -> result S) (l1 l2 : list A) (acc : S) :
  foldM body (l1 ++ l2) acc = (acc' <- foldM body l1 acc ;; foldM body l2 acc').
Proof.
  revert acc. induction l1 as [|x l1 IH]; intros acc; simpl.
  - reflexivity.
  - destruct (body acc x) as [acc'|e]; simpl; [apply IH | reflexivity].
Qed.

Lemma mapM_Ok_map {A B} (f : A -> result B) (g : A -> B) (l : list A) :
  (forall x, In x l -> f x = Ok (g x)) -> mapM f l = Ok (map g l).
Proof.
  induction l as [|x l IH]; intros H; simpl.
  - reflexivity.
  - rewrite (H x (or_introl eq_refl)). simpl.
    rewrite IH by (intros y Hy; apply H; now right). reflexivity.
Qed.

Lemma mapM_Ok_Forall2 {A B} (f : A -> result B) (l : list A) (l' : list B) :
  mapM f l = Ok l' -> Forall2 (fun x y => f x = Ok y) l l'.
Proof.
  revert l'. induction l as [|x l IH]; intros l'; simpl.
  - intros [= <-]. constructor.
  - intros H. apply bind_Ok in H. destruct H as [y [Hy H]].
    apply bind_Ok in H. destruct H as [ys [Hys [= <-]]].
    constructor; [exact Hy | now apply IH].
Qed.

Lemma mapM_total {A B} (f : A -> result B) (l : list A) :
  (forall x, In x l -> exists y, f x = Ok y) -> exists l', mapM f l = Ok l'.
Proof.
  induction l as [|x l IH]; intros H; simpl.
  - now exists [].
  - destruct (H x (or_introl eq_refl)) as [y Hy].
    destruct IH as [l' Hl']; [intros z Hz; apply H; now right|].
    exists (y :: l'). now rewrite Hy, Hl'.
Qed.

(** A loop raises only what its body raises. *)
Lemma foldM_Raise {A S} (body : S -> A -> result S) (l : list A) (acc : S)
  (e : exn) :
  foldM body l acc = Raise e ->
  exists acc' x, In x l /\ body acc' x = Raise e.
Proof.
  revert acc. induction l as [|x l IH]; intros acc; simpl.
  - discriminate.
  - intros H. apply bind_Raise in H. destruct H as [H|[acc' [_ H]]].
    + exists acc, x. auto.
    + destruct (IH _ H) as [a [y [Hy Hb]]]. exists a, y. auto.
Qed.

Lemma mapM_Raise {A B} (f : A -> result B) (l : list A) (e : exn) :
  mapM f l = Raise e -> exists x, In x l /\ f x = Raise e.
Proof.
  induction l as [|x l IH]; simpl.
  - discriminate.
  - intros H. apply bind_Raise in H. destruct H as [H|[y [_ H]]].
    + exists x. auto.
    + apply bind_Raise in H. destruct H as [H|[ys [_ H]]]; [|discriminate].
      destruct (IH H) as [z [Hz Hf]]. exists z. auto.
Qed.

(** ** Comparisons and division *)

Lemma Qlt_bool_iff (x y : Q) : Qlt_bool x y = true <-> x < y.
Proof.
  unfold Qlt_bool. rewrite negb_true_iff. split.
  - intros H. apply Qnot_le_lt. intros Hle.
    apply Qle_bool_iff in Hle. congruence.
  - intros H. destruct (Qle_bool y x) eqn:E; [|reflexivity].
    apply Qle_bool_iff in E. exfalso. apply (Qlt_not_le _ _ H E).
Qed.

Lemma Qlt_bool_false_iff (x y : Q) : Qlt_bool x y = false <-> y <= x.
Proof.
  unfold Qlt_bool. rewrite negb_false_iff. apply Qle_bool_iff.
Qed.

Lemma pydiv_nonzero (a b : Q) : ~ b == 0 -> pydiv a b = Ok (a / b).
Proof.
  intros H. unfold pydiv. destruct (Qeq_bool b 0) eqn:E; [|reflexivity].
  apply Qeq_bool_iff in E. contradiction.
Qed.

Lemma pydiv_100 (a : Q) : pydiv a 100 = Ok (a / 100).
Proof. reflexivity. Qed.

(** ** Dictionaries *)

Section DictFacts.
Context {V : Type}.
Implicit Types (d : dict V) (k : string) (v : V).

Lemma dict_get_set_same d k v : dict_get (dict_set d k v) k = Some v.
Proof.
  induction d as [|[k' v'] d IH]; simpl.
  - now rewrite String.eqb_refl.
  - destruct (String.eqb k' k) eqn:E; simpl; rewrite E; auto.
Qed.

Lemma dict_get_set_other d k k' v :
  k <> k' -> dict_get (dict_set d k v) k' = dict_get d k'.
Proof.
  intros Hne. induction d as [|[k0 v0] d IH]; simpl.
  - apply String.eqb_neq in Hne. now rewrite Hne.
  - destruct (String.eqb k0 k) eqn:E; simpl.
    + apply String.eqb_eq in E. subst k0.
      apply String.eqb_neq in Hne. now rewrite Hne.
    + now rewrite IH.
Qed.

Lemma dict_get_In d k v : dict_get d k = Some v -> In (k, v) d.
Proof.
  induction d as [|[k' v'] d IH]; simpl; [discriminate|].
  destruct (String.eqb k' k) eqn:E.
  - apply String.eqb_eq in E. intros [= ->]. left. now subst.
  - intros H. right. auto.
Qed.

Lemma dict_get_None d k : dict_get d k = None <-> ~ In k (keys d).
Proof.
  induction d as [|[k' v'] d IH]; simpl.
  - tauto.
  - destruct (String.eqb k' k) eqn:E.
    + apply String.eqb_eq in E. split; [discriminate|]. intros H.
      exfalso. apply H. now left.
    + apply String.eqb_neq in E. rewrite IH. tauto.
Qed.

Lemma In_dict_get d k v :
  NoDup (keys d) -> In (k, v) d -> dict_get d k = Some v.
Proof.
  induction d as [|[k' v'] d IH]; simpl; [tauto|].
  intros Hnd [[= -> ->]|Hin].
  - now rewrite String.eqb_refl.
  - inversion Hnd as [|? ? Hnotin Hnd']; subst.
    destruct (String.eqb k' k) eqn:E.
    + apply String.eqb_eq in E. subst k'. exfalso. apply Hnotin.
      change k with (fst (k, v)). now apply in_map.
    + auto.
Qed.

Lemma keys_dict_set d k v :
  keys (dict_set d k v) =
  if in_dec string_dec k (keys d) then keys d else keys d ++ [k].
Proof.
  induction d as [|[k' v'] d IH]; simpl.
  - reflexivity.
  - destruct (String.eqb k' k) eqn:E.
    + apply String.eqb_eq in E. subst k'. simpl.
      destruct (string_dec k k); [|congruence].
      reflexivity.
    + apply String.eqb_neq in E. simpl. rewrite IH.
      destruct (string_dec k' k); [congruence|].
      destruct (in_dec string_dec k (keys d)); reflexivity.
Qed.

Lemma In_keys_dict_set d k v k' :
  In k' (keys (dict_set d k v)) <-> k' = k \/ In k' (keys d).
Proof.
  rewrite keys_dict_set. destruct (in_dec string_dec k (keys d)) as [Hin|Hn].
  - split; [tauto|]. intros [->|H]; assumption.
  - rewrite in_app_iff. simpl. intuition congruence.
Qed.

Lemma NoDup_keys_dict_set d k v :
  NoDup (keys d) -> NoDup (keys (dict_set d k v)).
Proof.
  intros Hnd. rewrite keys_dict_set.
  destruct (in_dec string_dec k (keys d)) as [Hin|Hn]; [exact Hnd|].
  apply NoDup_app; [exact Hnd | repeat constructor; simpl; tauto |].
  intros x Hx [<-|[]]. contradiction.
Qed.

Variable dflt : V.

Lemma dd_get_update_same d k (f : V -> V) :
  dd_get dflt (dd_update dflt d k f) k = f (dd_get dflt d k).
Proof. unfold dd_update, dd_get at 1. now rewrite dict_get_set_same. Qed.

Lemma dd_get_update_other d k k' (f : V -> V) :
  k <> k' -> dd_get dflt (dd_update dflt d k f) k' = dd_get dflt d k'.
Proof.
  intros H. unfold dd_update, dd_get at 1.
  now rewrite dict_get_set_other.
Qed.
End DictFacts.

(** ** Grouping loops *)

Section GroupingFacts.
Context {A V : Type}.
Variable dflt : V.
Variable key : A -> option string.
Variable upd : A -> V -> V.

Lemma dd_get_group_by (l : list A) (d : dict V) (k : string) :
  dd_get dflt (group_by dflt key upd l d) k =
  fold_key key upd k l (dd_get dflt d k).
Proof.
  revert d. induction l as [|x l IH]; intros d.
  - reflexivity.
  - unfold group_by, fold_key in *. simpl. rewrite IH.
    unfold group_step, has_key. destruct (key x) as [k'|]; [|reflexivity].
    destruct (String.eqb k' k) eqn:E.
    + apply String.eqb_eq in E. subst k'. simpl.
      now rewrite dd_get_update_same.
    + apply String.eqb_neq in E. now rewrite dd_get_update_other.
Qed.

Lemma In_keys_group_by (l : list A) (d : dict V) (k : string) :
  In k (keys (group_by dflt key upd l d)) <->
  In k (keys d) \/ exists x, In x l /\ key x = Some k.
Proof.
  revert d. induction l as [|x l IH]; intros d.
  - simpl. split; [tauto|]. intros [H|[x [[] _]]]. exact H.
  - unfold group_by in *. simpl. rewrite IH. unfold group_step.
    destruct (key x) as [k'|] eqn:E.
    + unfold dd_update. rewrite In_keys_dict_set. split.
      * intros [[->|H]|[y [Hy Hk]]].
        -- right. exists x. auto.
        -- now left.
        -- right. exists y. auto.
      * intros [H|[y [[<-|Hy] Hk]]].
        -- left. now right.
        -- left. left. congruence.
        -- right. exists y. auto.
    + split.
      * intros [H|[y [Hy Hk]]]; [now left|]. right. exists y. auto.
      * intros [H|[y [[<-|Hy] Hk]]]; [now left|congruence|].
        right. exists y. auto.
Qed.

Lemma NoDup_keys_group_by (l : list A) (d : dict V) :
  NoDup (keys d) -> NoDup (keys (group_by dflt key upd l d)).
Proof.
  revert d. induction l as [|x l IH]; intros d Hd.
  - exact Hd.
  - unfold group_by in *. simpl. apply IH. unfold group_step.
    destruct (key x); [|exact Hd].
    now apply NoDup_keys_dict_set.
Qed.

(** The entries of the dictionary built from the empty one. *)
Lemma In_group_by (l : list A) (k : string) (v : V) :
  In (k, v) (group_by dflt key upd l []) <->
  (exists x, In x l /\ key x = Some k) /\ v = fold_key key upd k l dflt.
Proof.
  assert (Hnd : NoDup (keys (group_by dflt key upd l []))).
  { apply NoDup_keys_group_by. constructor. }
  assert (Hk : In k (keys (group_by dflt key upd l [])) <->
               exists x, In x l /\ key x = Some k).
  { rewrite In_keys_group_by. simpl. tauto. }
  assert (Hg := dd_get_group_by l [] k).
  unfold dd_get in Hg. simpl in Hg.
  split.
  - intros Hin. split.
    + apply Hk. change k with (fst (k, v)). now apply in_map.
    + rewrite <- Hg. now rewrite (In_dict_get _ _ _ Hnd Hin).
  - intros [Hex ->]. apply Hk in Hex.
    destruct (dict_get (group_by dflt key upd l []) k) as [v|] eqn:E.
    + rewrite <- Hg. now apply dict_get_In.
    + apply dict_get_None in E. contradiction.
Qed.

(** A loop whose body is a grouping step on the elements it accepts. *)
Lemma foldM_group_by (body : dict V -> A -> result (dict V))
  (l : list A) (d : dict V) :
  (forall x d', In x l -> body d' x = Ok (group_step dflt key upd d' x)) ->
  foldM body l d = Ok (group_by dflt key upd l d).
Proof.
  revert d. induction l as [|x l IH]; intros d H.
  - reflexivity.
  - simpl. rewrite (H x d (or_introl eq_refl)). simpl.
    apply IH. intros y d' Hy. apply H. now right.
Qed.
End GroupingFacts.

(** ** Stable sorting *)

Section SortFacts.
Context {A : Type}.
Variable leb : A -> A -> bool.

Lemma insert_by_perm (x : A) (l : list A) :
  Permutation (insert_by leb x l) (x :: l).
Proof.
  induction l as [|y l IH]; simpl.
  - reflexivity.
  - destruct (leb x y); [reflexivity|].
    rewrite IH. apply perm_swap.
Qed.

Lemma sort_by_perm (l : list A) : Permutation (sort_by leb l) l.
Proof.
  induction l as [|x l IH]; simpl.
  - reflexivity.
  - unfold sort_by in *. simpl. rewrite insert_by_perm. now constructor.
Qed.

Lemma In_sort_by (x : A) (l : list A) : In x (sort_by leb l) <-> In x l.
Proof.
  split; apply Permutation_in;
    [apply sort_by_perm | apply Permutation_sym, sort_by_perm].
Qed.

Lemma length_sort_by (l : list A) : List.length (sort_by leb l) = List.length l.
Proof. apply Permutation_length, sort_by_perm. Qed.
End SortFacts.

Lemma In_sorted_desc {A} (key : A -> Q) (x : A) (l : list A) :
  In x (sorted_desc key l) <-> In x l.
Proof. apply In_sort_by. Qed.

(** ** Position Reconstructor *)

Lemma pnl_step_wf (d : dict Pos.t) (t : Trade) :
  pnl_wf t = true ->
  pnl_step d t = Ok (group_step Pos.default trader_key pnl_upd d t).
Proof.
  unfold pnl_wf, pnl_step, group_step, trader_key, pnl_upd.
  destruct (is_redemption t) eqn:Er; [reflexivity|]. simpl.
  destruct (user t) as [u|] eqn:Eu; [|discriminate].
  destruct (amount t) as [amt|] eqn:Ea; [|discriminate].
  destruct (prob_before t) as [pb|] eqn:Ep; [|discriminate].
  destruct (outcome t) as [oc|] eqn:Eo; [|discriminate].
  intros _. simpl.
  unfold shares_of, is_yes, prob_of, amount_of. rewrite Eo, Ep, Ea. simpl.
  destruct (String.eqb oc "YES").
  - destruct (Qlt_bool 0 (pb / 100)) eqn:E; simpl; [|reflexivity].
    apply Qlt_bool_iff in E. rewrite pydiv_nonzero; [reflexivity|].
    intros H. rewrite H in E. now apply Qlt_irrefl in E.
  - destruct (Qlt_bool (pb / 100) 1) eqn:E; simpl; [|reflexivity].
    apply Qlt_bool_iff in E. rewrite pydiv_nonzero; [reflexivity|].
    intros H. lra.
Qed.

Lemma pnl_positions_wf (trades : list Trade) :
  forallb pnl_wf trades = true ->
  pnl_positions trades =
  Ok (group_by Pos.default trader_key pnl_upd trades []).
Proof.
  intros H. apply foldM_group_by. intros t d Ht.
  apply pnl_step_wf. rewrite forallb_forall in H. now apply H.
Qed.

Lemma fold_pnl_upd (l : list Trade) (p : Pos.t) :
  fold_left (fun v x => pnl_upd x v) l p =
  Pos.mk (fold_left Qplus (map shares_of (filter is_yes l)) (Pos.yes_shares p))
         (fold_left Qplus (map shares_of (filter (fun t => negb (is_yes t)) l))
                    (Pos.no_shares p))
         (fold_left Qplus (map amount_of (filter is_yes l)) (Pos.yes_cost p))
         (fold_left Qplus (map amount_of (filter (fun t => negb (is_yes t)) l))
                    (Pos.no_cost p))
         (Pos.trades p ++ l).
Proof.
  revert p. induction l as [|t l IH]; intros p; simpl.
  - rewrite app_nil_r. now destruct p.
  - rewrite IH. unfold pnl_upd at 1 2 3 4 5.
    destruct (is_yes t); simpl; now rewrite <- app_assoc.
Qed.

(** The accumulated position of a trader is the position of the
    specification. *)
Lemma fold_key_pnl (u : string) (trades : list Trade) :
  fold_key trader_key pnl_upd u trades Pos.default = position_of u trades.
Proof. unfold fold_key. now rewrite fold_pnl_upd. Qed.

Lemma pnl_row_Ok (cp : Q) (entry : string * Pos.t) :
  pnl_row cp entry = Ok (pnl_row_of cp entry).
Proof.
  destruct entry as [u pos].
  unfold pnl_row, pnl_row_of, roi_pct_of, estimated_pnl_of, yes_value_of,
    no_value_of, total_cost_of.
  destruct (Qlt_bool 0 (Pos.yes_cost pos + Pos.no_cost pos)) eqn:E.
  - apply Qlt_bool_iff in E. rewrite pydiv_nonzero; [reflexivity|].
    intros H. rewrite H in E. now apply Qlt_irrefl in E.
  - reflexivity.
Qed.

Lemma has_key_true {A} (key : A -> option string) (k : string) (x : A) :
  has_key key k x = true <-> key x = Some k.
Proof.
  unfold has_key. destruct (key x) as [k'|].
  - rewrite String.eqb_eq. split; congruence.
  - split; discriminate.
Qed.

Lemma traders_key (trades : list Trade) (u : string) :
  traders trades u <-> exists t, In t trades /\ trader_key t = Some u.
Proof.
  unfold traders, trade_of. split; intros [t [Hin H]]; exists t;
    (split; [exact Hin | now apply has_key_true]).
Qed.

Lemma estimate_pnl_wf (trades : list Trade) (cp : Q) :
  forallb pnl_wf trades = true ->
  estimate_pnl trades cp =
  Ok (sorted_desc PnlRow.estimated_pnl
        (map (pnl_row_of cp)
             (group_by Pos.default trader_key pnl_upd trades []))).
Proof.
  intros H. unfold estimate_pnl. rewrite (pnl_positions_wf _ H). simpl.
  rewrite (mapM_Ok_map _ (pnl_row_of cp)); [reflexivity|].
  intros e _. apply pnl_row_Ok.
Qed.

Lemma pnl_entries (trades : list Trade) (u : string) (pos : Pos.t) :
  In (u, pos) (group_by Pos.default trader_key pnl_upd trades []) <->
  traders trades u /\ pos = position_of u trades.
Proof. now rewrite In_group_by, traders_key, fold_key_pnl. Qed.

Lemma pnl_row_of_user (cp : Q) (entry : string * Pos.t) :
  PnlRow.user (pnl_row_of cp entry) = fst entry.
Proof. now destruct entry. Qed.

(** The rows of [estimate_pnl]: one per trader, computed from the position
    of the specification. *)
Lemma estimate_pnl_rows (trades : list Trade) (cp : Q) :
  forallb pnl_wf trades = true ->
  exists rows,
    estimate_pnl trades cp = Ok rows /\
    NoDup (map PnlRow.user rows) /\
    forall r, In r rows <->
      traders trades (PnlRow.user r) /\
      r = pnl_row_of cp (PnlRow.user r, position_of (PnlRow.user r) trades).
Proof.
  intros Hwf. eexists. split; [now apply estimate_pnl_wf|]. split.
  - eapply Permutation_NoDup.
    + apply Permutation_map, Permutation_sym, sort_by_perm.
    + rewrite map_map.
      rewrite (map_ext _ fst) by (intros e; apply pnl_row_of_user).
      apply (NoDup_keys_group_by Pos.default trader_key pnl_upd trades []).
      constructor.
  - intros r. rewrite In_sorted_desc, in_map_iff. split.
    + intros [[u pos] [<- Hin]]. simpl. apply pnl_entries in Hin.
      destruct Hin as [Ht ->]. auto.
    + intros [Ht Hr]. eexists. split; [symmetry; exact Hr|].
      now apply pnl_entries.
Qed.



(** *** Positions only grow *)

Lemma fold_Qplus_le (l : list Q) (a : Q) :
  Forall (fun x => 0 <= x) l -> a <= fold_left Qplus l a.
Proof.
  revert a. induction l as [|x l IH]; intros a Hl; simpl.
  - apply Qle_refl.
  - inversion Hl as [|? ? Hx Hl']; subst.
    apply Qle_trans with (a + x); [lra | now apply IH].
Qed.

Lemma Qsum_prefix_le (l1 l2 : list Q) :
  Forall (fun x => 0 <= x) l1 -> Forall (fun x => 0 <= x) l2 ->
  0 <= Qsum l1 <= Qsum (l1 ++ l2).
Proof.
  intros H1 H2. unfold Qsum. split.
  - now apply fold_Qplus_le.
  - rewrite fold_left_app. now apply fold_Qplus_le.
Qed.

Lemma shares_of_nonneg (t : Trade) : 0 <= amount_of t -> 0 <= shares_of t.
Proof.
  intros Ha. unfold shares_of.
  destruct (is_yes t).
  - destruct (Qlt_bool 0 (prob_of t)) eqn:E; [|apply Qle_refl].
    apply Qlt_bool_iff in E. apply Qle_shift_div_l; [exact E | lra].
  - destruct (Qlt_bool (prob_of t) 1) eqn:E; [|apply Qle_refl].
    apply Qlt_bool_iff in E. apply Qle_shift_div_l; lra.
Qed.

Lemma amount_of_nonneg (trades : list Trade) (t : Trade) :
  (forall t a, In t trades -> amount t = Some a -> 0 <= a) ->
  In t trades -> 0 <= amount_of t.
Proof.
  intros H Hin. unfold amount_of.
  destruct (amount t) as [a|] eqn:E; simpl; [eauto | apply Qle_refl].
Qed.

Lemma Forall_map_filter {A} (f : A -> Q) (p : A -> bool) (l : list A) :
  (forall x, In x l -> 0 <= f x) ->
  Forall (fun x => 0 <= x) (map f (filter p l)).
Proof.
  intros H. apply Forall_forall. intros y Hy.
  apply in_map_iff in Hy. destruct Hy as [x [<- Hx]].
  apply filter_In in Hx. now apply H.
Qed.

Lemma side_sum_prefix_le (f : Trade -> Q) (p : Trade -> bool) (u : string)
  (l1 l2 : list Trade) :
  (forall t, In t (l1 ++ l2) -> 0 <= f t) ->
  0 <= Qsum (map f (filter p (trades_of u l1))) <=
  Qsum (map f (filter p (trades_of u (l1 ++ l2)))).
Proof.
  intros H. unfold trades_of. rewrite !filter_app, map_app.
  apply Qsum_prefix_le; apply Forall_map_filter; intros t Ht;
    apply filter_In in Ht; apply H, in_or_app; tauto.
Qed.

(** C9. In a trade collection whose amounts are all non-negative, every
    trader's [yes_shares], [no_shares], [yes_cost] and [no_cost] are
    non-negative after any prefix of the trades has been folded in, and
    none of them is smaller after any longer prefix: no later trade, of
    the same or the opposite side, decrements them.  (A trader who has
    not traded yet has the all-zero default position.) *)
Theorem positions_nonneg_monotone (folded later : list Trade)
  (Hwf : forallb pnl_wf (folded ++ later) = true)
  (Hamount : forall t a, In t (folded ++ later) -> amount t = Some a -> 0 <= a) :
  exists before after,
    pnl_positions folded = Ok before /\
    pnl_positions (folded ++ later) = Ok after /\
    forall u,
      let p := dd_get Pos.default before u in
      let p' := dd_get Pos.default after u in
      0 <= Pos.yes_shares p <= Pos.yes_shares p' /\
      0 <= Pos.no_shares p <= Pos.no_shares p' /\
      0 <= Pos.yes_cost p <= Pos.yes_cost p' /\
      0 <= Pos.no_cost p <= Pos.no_cost p'.
Proof.
  assert (Hwf1 : forallb pnl_wf folded = true).
  { rewrite forallb_app in Hwf. now apply andb_true_iff in Hwf. }
  do 2 eexists. split; [now apply pnl_positions_wf|].
  split; [now apply pnl_positions_wf|].
  intros u. cbv zeta. rewrite !dd_get_group_by.
  change (dd_get Pos.default [] u) with Pos.default.
  rewrite !fold_key_pnl. unfold position_of, yes_trades_of, no_trades_of.
  cbn [Pos.yes_shares Pos.no_shares Pos.yes_cost Pos.no_cost].
  assert (Ha : forall t, In t (folded ++ later) -> 0 <= amount_of t).
  { intros t Ht. now apply (amount_of_nonneg (folded ++ later)). }
  assert (Hs : forall t, In t (folded ++ later) -> 0 <= shares_of t).
  { intros t Ht. apply shares_of_nonneg. auto. }
  split; [|split; [|split]]; apply side_sum_prefix_le; assumption.
Qed.

Lemma positions_nonneg_monotone_witness :
  exists before after,
    pnl_positions [buy "alice" 100 "YES" 25 30 0] = Ok before /\
    pnl_positions ([buy "alice" 100 "YES" 25 30 0]
                   ++ [buy "alice" 40 "NO" 30 25 1]) = Ok after /\
    Pos.yes_cost (dd_get Pos.default before "alice") <=
    Pos.yes_cost (dd_get Pos.default after "alice").
Proof.
  assert (Hamount : forall t a,
             In t ([buy "alice" 100 "YES" 25 30 0]
                   ++ [buy "alice" 40 "NO" 30 25 1]) ->
             amount t = Some a -> 0 <= a).
  { intros t a [<-|[<-|[]]] [= <-]; discriminate. }
  destruct (positions_nonneg_monotone
              [buy "alice" 100 "YES" 25 30 0] [buy "alice" 40 "NO" 30 25 1]
              eq_refl Hamount) as [before [after [H1 [H2 H]]]].
  exists before, after. split; [exact H1|]. split; [exact H2|].
  apply (H "alice"%string).
Defined.

(** ** Trader Classifier *)

Lemma stats_step_wf (d : dict Stats.t) (t : Trade) :
  stats_wf t = true ->
  stats_step d t = Ok (group_step Stats.default trader_key stats_upd d t).
Proof.
  unfold stats_wf, stats_step, group_step, trader_key, stats_upd, amount_of.
  destruct (is_redemption t); [reflexivity|]. simpl.
  destruct (user t) as [u|]; [|discriminate].
  destruct (amount t) as [amt|]; [|discriminate].
  reflexivity.
Qed.

Lemma set_yes_pct_Ok (pnl_lookup : dict PnlRow.t) (entry : string * Stats.t) :
  set_yes_pct pnl_lookup entry = Ok (with_yes_pct pnl_lookup entry).
Proof.
  destruct entry as [u s]. unfold set_yes_pct, with_yes_pct, yes_pct_of,
    yes_pct_val.
  destruct (Qlt_bool 0 _) eqn:E; [|reflexivity].
  apply Qlt_bool_iff in E. rewrite pydiv_nonzero; [reflexivity|].
  intros H. rewrite H in E. now apply Qlt_irrefl in E.
Qed.

Lemma trader_stats_of_wf (trades : list Trade) (pnl_data : list PnlRow.t) :
  forallb stats_wf trades = true ->
  trader_stats_of trades pnl_data =
  Ok (map (with_yes_pct (pnl_lookup_of pnl_data))
          (group_by Stats.default trader_key stats_upd trades [])).
Proof.
  intros H. unfold trader_stats_of.
  rewrite (foldM_group_by Stats.default trader_key stats_upd).
  - simpl. apply mapM_Ok_map. intros e _. apply set_yes_pct_Ok.
  - intros t d Ht. apply stats_step_wf. rewrite forallb_forall in H. auto.
Qed.

Lemma fold_stats_upd (l : list Trade) (s : Stats.t) :
  fold_left (fun v x => stats_upd x v) l s =
  Stats.mk (fold_left Qplus (map amount_of l) (Stats.volume s))
           (List.length l + Stats.trades s) (Stats.yes_pct s).
Proof.
  revert s. induction l as [|t l IH]; intros s; simpl.
  - now destruct s.
  - rewrite IH. simpl. f_equal. lia.
Qed.

(** The entries of [trader_stats] after both loops. *)
Lemma stats_entries (trades : list Trade) (pnl_data : list PnlRow.t)
  (u : string) (s : Stats.t) :
  In (u, s) (map (with_yes_pct (pnl_lookup_of pnl_data))
               (group_by Stats.default trader_key stats_upd trades [])) <->
  traders trades u /\
  s = Stats.mk (volume_of u trades) (trade_count_of u trades)
               (yes_pct_val (pnl_lookup_of pnl_data) u).
Proof.
  rewrite in_map_iff. split.
  - intros [[u' s'] [E Hin]]. simpl in E. injection E as -> <-.
    apply In_group_by in Hin. destruct Hin as [Hex ->].
    split; [now apply traders_key|].
    unfold fold_key. rewrite fold_stats_upd. simpl.
    unfold volume_of, trade_count_of, trades_of, trade_of, Qsum.
    now rewrite Nat.add_0_r.
  - intros [Ht ->].
    exists (u, Stats.mk (volume_of u trades) (trade_count_of u trades) 0).
    split; [reflexivity|]. apply In_group_by. split; [now apply traders_key|].
    unfold fold_key. rewrite fold_stats_upd. simpl.
    unfold volume_of, trade_count_of, trades_of, trade_of, Qsum.
    now rewrite Nat.add_0_r.
Qed.

Lemma keys_with_yes_pct (pnl_lookup : dict PnlRow.t) (d : dict Stats.t) :
  keys (map (with_yes_pct pnl_lookup) d) = keys d.
Proof.
  unfold keys. rewrite map_map. apply map_ext. now intros [u s].
Qed.

Lemma has_label_In (label : string) (types : list string) :
  has_label label types = true <-> In label types.
Proof.
  unfold has_label. rewrite existsb_exists. split.
  - intros [x [Hx E]]. apply String.eqb_eq in E. now subst.
  - intros H. exists label. split; [exact H | apply String.eqb_refl].
Qed.

(** The label rules, one by one. *)
Lemma trader_types_labels (th v : Q) (n : nat) (y roi : Q) :
  let ts := trader_types th v n y roi in
  has_label "WHALE" ts = Qle_bool th v /\
  has_label "ACTIVE" ts = (20 <=? n)%nat /\
  has_label "BULL" ts = Qle_bool 80 y /\
  has_label "BEAR" ts = negb (Qle_bool 80 y) && Qle_bool y 20 /\
  has_label "WINNER" ts = Qlt_bool 50 roi /\
  has_label "LOSER" ts = negb (Qlt_bool 50 roi) && Qlt_bool roi (-30) /\
  has_label "RETAIL" ts =
    negb (has_label "WHALE" ts || has_label "ACTIVE" ts
          || has_label "BULL" ts || has_label "BEAR" ts
          || has_label "WINNER" ts || has_label "LOSER" ts) /\
  (has_label "RETAIL" ts = true -> ts = ["RETAIL"%string]).
Proof.
  unfold trader_types.
  destruct (Qle_bool th v), (20 <=? n)%nat, (Qle_bool 80 y), (Qle_bool y 20),
    (Qlt_bool 50 roi), (Qlt_bool roi (-30));
    cbv; repeat split; intros; congruence.
Qed.

Lemma trader_types_rules (th v : Q) (n : nat) (y roi : Q) :
  let ts := trader_types th v n y roi in
  (In "WHALE"%string ts <-> th <= v) /\
  (In "ACTIVE"%string ts <-> (20 <= n)%nat) /\
  (In "BULL"%string ts <-> 80 <= y) /\
  (In "BEAR"%string ts <-> y <= 20) /\
  ~ (In "BULL"%string ts /\ In "BEAR"%string ts) /\
  (In "WINNER"%string ts <-> 50 < roi) /\
  (In "LOSER"%string ts <-> roi < -30) /\
  ~ (In "WINNER"%string ts /\ In "LOSER"%string ts) /\
  (In "RETAIL"%string ts <->
   ~ In "WHALE"%string ts /\ ~ In "ACTIVE"%string ts /\
   ~ In "BULL"%string ts /\ ~ In "BEAR"%string ts /\
   ~ In "WINNER"%string ts /\ ~ In "LOSER"%string ts) /\
  (In "RETAIL"%string ts -> ts = ["RETAIL"%string]).
Proof.
  intros ts.
  destruct (trader_types_labels th v n y roi)
    as [Hw [Ha [Hbu [Hbe [Hwi [Hlo [Hre Hre1]]]]]]].
  fold ts in Hw, Ha, Hbu, Hbe, Hwi, Hlo, Hre, Hre1.
  assert (Ebu : In "BULL"%string ts <-> 80 <= y).
  { now rewrite <- has_label_In, Hbu, Qle_bool_iff. }
  assert (Ebe : In "BEAR"%string ts <-> y <= 20).
  { rewrite <- has_label_In, Hbe, andb_true_iff, negb_true_iff,
      Qle_bool_iff. split; [tauto|]. intros H. split; [|exact H].
    destruct (Qle_bool 80 y) eqn:E; [|reflexivity].
    apply Qle_bool_iff in E. lra. }
  assert (Ewi : In "WINNER"%string ts <-> 50 < roi).
  { now rewrite <- has_label_In, Hwi, Qlt_bool_iff. }
  assert (Elo : In "LOSER"%string ts <-> roi < -30).
  { rewrite <- has_label_In, Hlo, andb_true_iff, negb_true_iff,
      Qlt_bool_iff, Qlt_bool_false_iff. split; [tauto|]. intros H. lra. }
  refine (conj _ (conj _ (conj Ebu (conj Ebe (conj _
           (conj Ewi (conj Elo (conj _ (conj _ _))))))))).
  - now rewrite <- has_label_In, Hw, Qle_bool_iff.
  - now rewrite <- has_label_In, Ha, Nat.leb_le.
  - rewrite Ebu, Ebe. lra.
  - rewrite Ewi, Elo. lra.
  - rewrite <- !has_label_In, Hre, negb_true_iff, !orb_false_iff.
    rewrite <- !not_true_iff_false. tauto.
  - rewrite <- has_label_In. exact Hre1.
Qed.

Lemma classify_traders_wf (trades : list Trade) (pnl_data : list PnlRow.t) :
  forallb stats_wf trades = true ->
  exists stats,
    trader_stats_of trades pnl_data = Ok stats /\
    NoDup (keys stats) /\
    (forall u s, In (u, s) stats <->
       traders trades u /\
       s = Stats.mk (volume_of u trades) (trade_count_of u trades)
                    (yes_pct_val (pnl_lookup_of pnl_data) u)) /\
    classify_traders trades pnl_data =
    Ok (sorted_desc ClassRow.volume
          (map (class_row (pnl_lookup_of pnl_data)
                  (whale_threshold_of (map Stats.volume (values stats))))
               stats)).
Proof.
  intros Hwf. eexists. split; [now apply trader_stats_of_wf|].
  split; [|split].
  - rewrite keys_with_yes_pct. apply NoDup_keys_group_by. constructor.
  - intros u s. apply stats_entries.
  - unfold classify_traders. now rewrite trader_stats_of_wf.
Qed.



(** *** Sorted lists and the whale threshold *)

Section SortedFacts.
Context {A : Type}.
Variable leb : A -> A -> bool.
Hypothesis leb_total : forall x y, leb x y = true \/ leb y x = true.
Hypothesis leb_trans :
  forall x y z, leb x y = true -> leb y z = true -> leb x z = true.

Lemma insert_by_sorted (x : A) (l : list A) :
  StronglySorted (fun a b => leb a b = true) l ->
  StronglySorted (fun a b => leb a b = true) (insert_by leb x l).
Proof.
  induction l as [|y l IH]; intros Hs; simpl.
  - repeat constructor.
  - inversion Hs as [|? ? Hl Hy]; subst.
    destruct (leb x y) eqn:E.
    + constructor; [exact Hs|]. constructor; [exact E|].
      eapply Forall_impl; [|exact Hy]. intros z Hz. simpl in *. eauto.
    + constructor; [now apply IH|].
      apply Forall_forall. intros z Hz.
      apply (Permutation_in _ (insert_by_perm leb x l)) in Hz.
      destruct Hz as [<-|Hz].
      * destruct (leb_total x y) as [H|H]; [congruence | exact H].
      * rewrite Forall_forall in Hy. now apply Hy.
Qed.

Lemma sort_by_sorted (l : list A) :
  StronglySorted (fun a b => leb a b = true) (sort_by leb l).
Proof.
  induction l as [|x l IH]; simpl.
  - constructor.
  - now apply insert_by_sorted.
Qed.

End SortedFacts.

Section SortFilter.
Context {A : Type}.
Variable leb : A -> A -> bool.
Hypothesis leb_total : forall x y, leb x y = true \/ leb y x = true.
Hypothesis leb_trans :
  forall x y z, leb x y = true -> leb y z = true -> leb x z = true.
Variable p : A -> bool.

Lemma insert_by_least (x : A) (l : list A) :
  Forall (fun z => leb x z = true) l -> insert_by leb x l = x :: l.
Proof.
  intros H. destruct l as [|y l]; [reflexivity|].
  inversion H as [|? ? Hy _]; subst. simpl. now rewrite Hy.
Qed.

Lemma filter_insert_by (x : A) (l : list A) :
  StronglySorted (fun a b => leb a b = true) l ->
  filter p (insert_by leb x l) =
  if p x then insert_by leb x (filter p l) else filter p l.
Proof.
  induction l as [|y l IH]; intros Hs; simpl.
  - now destruct (p x).
  - inversion Hs as [|? ? Hl Hy]; subst.
    destruct (leb x y) eqn:E; simpl.
    + destruct (p x) eqn:Ex; [|reflexivity].
      symmetry. apply (insert_by_least x (filter p (y :: l))).
      apply Forall_forall. intros z Hz. apply filter_In in Hz.
      destruct Hz as [[<-|Hz] _]; [exact E|].
      rewrite Forall_forall in Hy. eauto.
    + rewrite (IH Hl). destruct (p y) eqn:Ey, (p x) eqn:Ex; simpl;
        rewrite ?E; reflexivity.
Qed.

(** A stable sort commutes with a filter. *)
Lemma sort_by_filter (l : list A) :
  sort_by leb (filter p l) = filter p (sort_by leb l).
Proof.
  induction l as [|x l IH]; simpl; [reflexivity|].
  change (sort_by leb (x :: l)) with (insert_by leb x (sort_by leb l)).
  rewrite filter_insert_by by now apply sort_by_sorted.
  destruct (p x); simpl; [|exact IH].
  change (sort_by leb (x :: filter p l))
    with (insert_by leb x (sort_by leb (filter p l))).
  now rewrite IH.
Qed.
End SortFilter.




(** ** Sorting by timestamp *)

Lemma insert_by_map {A B} (f : A -> B) (leb : A -> A -> bool)
  (leb' : B -> B -> bool) (x : A) (l : list A) :
  (forall a b, leb' (f a) (f b) = leb a b) ->
  insert_by leb' (f x) (map f l) = map f (insert_by leb x l).
Proof.
  intros H. induction l as [|y l IH]; simpl.
  - reflexivity.
  - rewrite H. destruct (leb x y); simpl; [reflexivity | now rewrite IH].
Qed.

Lemma sort_by_map {A B} (f : A -> B) (leb : A -> A -> bool)
  (leb' : B -> B -> bool) (l : list A) :
  (forall a b, leb' (f a) (f b) = leb a b) ->
  sort_by leb' (map f l) = map f (sort_by leb l).
Proof.
  intros H. induction l as [|x l IH]; simpl.
  - reflexivity.
  - unfold sort_by in *. simpl. rewrite IH. now apply insert_by_map.
Qed.

Lemma combine_map_self {A B} (f : A -> B) (l : list A) :
  combine (map f l) l = map (fun x => (f x, x)) l.
Proof. induction l as [|x l IH]; simpl; [reflexivity | now rewrite IH]. Qed.

Lemma sorted_by_timestamp_wf (trades : list Trade) :
  forallb (fun t => present (timestamp t)) trades = true ->
  sorted_by_timestamp trades = Ok (sort_by_timestamp trades).
Proof.
  intros H. unfold sorted_by_timestamp.
  rewrite (mapM_Ok_map _ timestamp_of).
  - simpl. rewrite combine_map_self.
    rewrite (sort_by_map (fun t => (timestamp_of t, t))
               (fun x y => Z.leb (timestamp_of x) (timestamp_of y)))
      by reflexivity.
    rewrite map_map. simpl. now rewrite map_id.
  - intros t Ht. rewrite forallb_forall in H. specialize (H t Ht).
    unfold timestamp_of. now destruct (timestamp t).
Qed.

Lemma sort_by_timestamp_perm (trades : list Trade) :
  Permutation (sort_by_timestamp trades) trades.
Proof. apply sort_by_perm. Qed.

Lemma StronglySorted_weaken {A} (R R' : A -> A -> Prop) (l : list A) :
  (forall x y, R x y -> R' x y) -> StronglySorted R l -> StronglySorted R' l.
Proof.
  intros H Hs. induction Hs as [|x l Hs IH Hx]; constructor.
  - exact IH.
  - eapply Forall_impl; [|exact Hx]. intros y. apply H.
Qed.

Lemma sort_by_timestamp_sorted (trades : list Trade) :
  StronglySorted (fun x y => (timestamp_of x <= timestamp_of y)%Z)
    (sort_by_timestamp trades).
Proof.
  eapply StronglySorted_weaken;
    [|apply sort_by_sorted
        with (leb := fun x y => Z.leb (timestamp_of x) (timestamp_of y))].
  - intros x y H. now apply Z.leb_le.
  - intros x y. rewrite !Z.leb_le. lia.
  - intros x y z. rewrite !Z.leb_le. lia.
Qed.

(** Sorting all trades and keeping a trader's is sorting the trader's. *)
Lemma trades_of_sorted (u : string) (trades : list Trade) :
  trades_of u (sort_by_timestamp trades) =
  sort_by_timestamp (trades_of u trades).
Proof.
  symmetry. apply sort_by_filter.
  - intros x y. rewrite !Z.leb_le. lia.
  - intros x y z. rewrite !Z.leb_le. lia.
Qed.

(** ** Timing Analyzer *)

Lemma timing_step_wf (q1 q3 : nat) (d : dict Timing.t) (it : nat * Trade) :
  is_redemption (snd it) || present (user (snd it)) = true ->
  timing_step q1 q3 d it =
  Ok (group_step Timing.default (fun it => trader_key (snd it))
        (fun it => timing_update q1 q3 (fst it)) d it).
Proof.
  destruct it as [idx t]. unfold timing_step, group_step, trader_key. simpl.
  destruct (is_redemption t); [reflexivity|]. simpl.
  destruct (user t); [reflexivity | discriminate].
Qed.

Lemma timing_row_Ok (total_trades : nat) (entry : string * Timing.t) :
  total_trades <> 0%nat ->
  timing_row total_trades entry = Ok (timing_row_of total_trades entry).
Proof.
  intros Hne. destruct entry as [u data].
  unfold timing_row, timing_row_of, first_trade_pct_of.
  destruct (Timing.first_trade_idx data) as [i|].
  - rewrite pydiv_nonzero; [reflexivity|].
    unfold Qeq. simpl. lia.
  - apply Nat.eqb_neq in Hne. now rewrite Hne.
Qed.

Lemma timing_wf_timestamps (trades : list Trade) :
  forallb timing_wf trades = true ->
  forallb (fun t => present (timestamp t)) trades = true.
Proof.
  rewrite !forallb_forall. intros H t Ht. specialize (H t Ht).
  unfold timing_wf in H. now apply andb_true_iff in H.
Qed.

Lemma analyze_timing_wf (trades : list Trade) :
  trades <> [] ->
  forallb timing_wf trades = true ->
  analyze_timing trades =
  Ok (map (timing_row_of (List.length trades))
          (timing_dict (sort_by_timestamp trades))).
Proof.
  intros Hne Hwf. unfold analyze_timing.
  destruct trades as [|t0 trades']; [congruence|].
  remember (t0 :: trades') as trades eqn:Et.
  rewrite (sorted_by_timestamp_wf _ (timing_wf_timestamps _ Hwf)). simpl.
  rewrite (foldM_group_by Timing.default (fun it => trader_key (snd it))
             (fun it => timing_update
                          (List.length (sort_by_timestamp trades) / 4)
                          (List.length (sort_by_timestamp trades) * 3 / 4)
                          (fst it))).
  - simpl. fold (timing_dict (sort_by_timestamp trades)).
    rewrite (mapM_Ok_map _
               (timing_row_of (List.length (sort_by_timestamp trades)))).
    + unfold sort_by_timestamp at 1. now rewrite length_sort_by.
    + intros e _. apply timing_row_Ok.
      unfold sort_by_timestamp. rewrite length_sort_by. subst. discriminate.
  - intros [idx t] d Hin. apply timing_step_wf. simpl.
    apply in_combine_r in Hin.
    apply (Permutation_in _ (sort_by_timestamp_perm trades)) in Hin.
    rewrite forallb_forall in Hwf. specialize (Hwf t Hin).
    unfold timing_wf in Hwf. now apply andb_true_iff in Hwf.
Qed.

Lemma fold_timing_update (q1 q3 : nat) (l : list (nat * Trade)) (d : Timing.t) :
  let d' := fold_left (fun v it => timing_update q1 q3 (fst it) v) l d in
  Timing.early_trades d' =
    (Timing.early_trades d + count_if (fun i => i <? q1) (map fst l))%nat /\
  Timing.mid_trades d' =
    (Timing.mid_trades d
     + count_if (fun i => (q1 <=? i) && (i <? q3)) (map fst l))%nat /\
  Timing.late_trades d' =
    (Timing.late_trades d
     + count_if (fun i => (q1 <=? i) && (q3 <=? i)) (map fst l))%nat /\
  Timing.total d' = (Timing.total d + List.length l)%nat.
Proof.
  revert d. induction l as [|[idx t] l IH]; intros d; cbv zeta.
  - unfold count_if. simpl. repeat split; lia.
  - simpl fold_left. specialize (IH (timing_update q1 q3 idx d)).
    cbv zeta in IH. destruct IH as [He [Hm [Hl Ht]]].
    rewrite He, Hm, Hl, Ht. unfold count_if, timing_update. simpl.
    destruct (idx <? q1) eqn:E1; destruct (idx <? q3) eqn:E3;
      destruct (q1 <=? idx) eqn:E1'; destruct (q3 <=? idx) eqn:E3';
      simpl;
      rewrite ?Nat.ltb_lt, ?Nat.ltb_ge, ?Nat.leb_le, ?Nat.leb_gt in *;
      try lia; repeat split; lia.
Qed.

Lemma map_snd_combine_seq {A} (l : list A) (s : nat) :
  map snd (combine (seq s (List.length l)) l) = l.
Proof.
  revert s. induction l as [|x l IH]; intros s; simpl.
  - reflexivity.
  - now rewrite IH.
Qed.

Lemma In_enumerate {A} (l : list A) (x : A) :
  In x l <-> exists it, In it (enumerate l) /\ snd it = x.
Proof.
  unfold enumerate. rewrite <- (map_snd_combine_seq l 0) at 1.
  rewrite in_map_iff. split; intros [it [H1 H2]]; exists it; auto.
Qed.

Lemma timing_traders (trades : list Trade) (u : string) :
  traders trades u <->
  exists it, In it (enumerate (sort_by_timestamp trades)) /\
             trader_key (snd it) = Some u.
Proof.
  rewrite traders_key. split.
  - intros [t [Hin Hk]].
    apply (Permutation_in _ (Permutation_sym (sort_by_timestamp_perm trades)))
      in Hin.
    apply In_enumerate in Hin. destruct Hin as [it [Hit <-]]. eauto.
  - intros [it [Hit Hk]]. exists (snd it). split; [|exact Hk].
    apply (Permutation_in _ (sort_by_timestamp_perm trades)).
    apply In_enumerate. eauto.
Qed.

Lemma timing_row_of_user (total : nat) (entry : string * Timing.t) :
  TimingRow.user (timing_row_of total entry) = fst entry.
Proof. now destruct entry. Qed.

Lemma quartile_cutoffs_le (total : nat) : (total / 4 <= total * 3 / 4)%nat.
Proof. apply Nat.Div0.div_le_mono. lia. Qed.

(** The counters of a trader, from the rank indices of the trader's trades. *)
Lemma timing_counters (sorted_trades : list Trade) (total : nat) (u : string) :
  total = List.length sorted_trades ->
  let q1 := (total / 4)%nat in
  let q3 := (total * 3 / 4)%nat in
  let idxs := trader_indices u sorted_trades in
  let data := timing_data u sorted_trades in
  Timing.early_trades data = count_if (fun i => i <? q1) idxs /\
  Timing.mid_trades data = count_if (fun i => (q1 <=? i) && (i <? q3)) idxs /\
  Timing.late_trades data = count_if (fun i => q3 <=? i) idxs.
Proof.
  intros ->. cbv zeta. unfold timing_data, fold_key.
  destruct (fold_timing_update (List.length sorted_trades / 4)
              (List.length sorted_trades * 3 / 4)
              (filter (has_key (fun it => trader_key (snd it)) u)
                      (enumerate sorted_trades)) Timing.default)
    as [He [Hm [Hl _]]].
  rewrite He, Hm, Hl.
  cbn [Timing.early_trades Timing.mid_trades Timing.late_trades
       Timing.default Nat.add].
  unfold trader_indices, trade_of.
  split; [reflexivity|]. split; [reflexivity|].
  unfold count_if. f_equal. apply filter_ext. intros i.
  destruct (List.length sorted_trades * 3 / 4 <=? i) eqn:E;
    [|apply andb_false_r].
  apply Nat.leb_le in E. rewrite andb_true_r. apply Nat.leb_le.
  pose proof (quartile_cutoffs_le (List.length sorted_trades)). lia.
Qed.

Lemma timing_type_of_rules (early late : nat) :
  ((late < early)%nat -> timing_type_of early late = "EARLY"%string) /\
  ((early < late)%nat -> timing_type_of early late = "LATE"%string) /\
  (early = late -> timing_type_of early late = "SPREAD"%string).
Proof.
  unfold timing_type_of.
  destruct (late <? early) eqn:E1; destruct (early <? late) eqn:E2;
    rewrite ?Nat.ltb_lt, ?Nat.ltb_ge in *; repeat split; intros; try lia;
    reflexivity.
Qed.

Lemma timing_rows (trades : list Trade) :
  trades <> [] ->
  forallb timing_wf trades = true ->
  exists rows,
    analyze_timing trades = Ok rows /\
    NoDup (map TimingRow.user rows) /\
    forall r, In r rows <->
      traders trades (TimingRow.user r) /\
      r = timing_row_of (List.length trades)
            (TimingRow.user r,
             timing_data (TimingRow.user r) (sort_by_timestamp trades)).
Proof.
  intros Hne Hwf. eexists. split; [now apply analyze_timing_wf|]. split.
  - rewrite map_map.
    rewrite (map_ext _ fst) by (intros e; apply timing_row_of_user).
    apply NoDup_keys_group_by. constructor.
  - intros r. rewrite in_map_iff. split.
    + intros [[u data] [<- Hin]]. simpl.
      apply In_group_by in Hin. destruct Hin as [Hex ->]. split.
      * now apply timing_traders.
      * reflexivity.
    + intros [Hu Hr]. eexists. split; [symmetry; exact Hr|].
      apply In_group_by. split; [now apply timing_traders | reflexivity].
Qed.

(** C2. For every non-empty trade collection of [total] trades, with
    [q1 = total // 4] and [q3 = (total * 3) // 4], [analyze_timing] counts
    for each trader the trades whose rank index in the timestamp-sorted
    collection is [< q1] as early and those whose index is [>= q3] as late,
    and classifies the trader EARLY if [early > late], LATE if
    [late > early], SPREAD otherwise.  For [total = 12], [q1 = 3] and
    [q3 = 9]; a trader with trades at the indices 0, 1, 2 is EARLY, one with
    the indices 9, 10, 11 is LATE, one with the indices 0 and 11 is
    SPREAD. *)
Theorem timing_quartile_classification (trades : list Trade)
  (Hne : trades <> [])
  (Hwf : forallb timing_wf trades = true) :
  let total := List.length trades in
  let q1 := (total / 4)%nat in
  let q3 := (total * 3 / 4)%nat in
  exists sorted_trades rows,
    sorted_by_timestamp trades = Ok sorted_trades /\
    Permutation sorted_trades trades /\
    StronglySorted (fun x y => (timestamp_of x <= timestamp_of y)%Z)
      sorted_trades /\
    analyze_timing trades = Ok rows /\
    NoDup (map TimingRow.user rows) /\
    (forall u, traders trades u <->
               exists r, In r rows /\ TimingRow.user r = u) /\
    (total = 12%nat -> q1 = 3%nat /\ q3 = 9%nat) /\
    forall r, In r rows ->
      let idxs := trader_indices (TimingRow.user r) sorted_trades in
      let early := count_if (fun i => i <? q1) idxs in
      let late := count_if (fun i => q3 <=? i) idxs in
      TimingRow.early_trades r = early /\
      TimingRow.late_trades r = late /\
      TimingRow.mid_trades r =
        count_if (fun i => (q1 <=? i) && (i <? q3)) idxs /\
      ((late < early)%nat -> TimingRow.timing_type r = "EARLY"%string) /\
      ((early < late)%nat -> TimingRow.timing_type r = "LATE"%string) /\
      (early = late -> TimingRow.timing_type r = "SPREAD"%string) /\
      (total = 12%nat ->
       (idxs = [0; 1; 2]%nat -> TimingRow.timing_type r = "EARLY"%string) /\
       (idxs = [9; 10; 11]%nat -> TimingRow.timing_type r = "LATE"%string) /\
       (idxs = [0; 11]%nat -> TimingRow.timing_type r = "SPREAD"%string)).
Proof.
  cbv zeta.
  destruct (timing_rows trades Hne Hwf) as [rows [Hrows [Hnd Hin]]].
  exists (sort_by_timestamp trades), rows.
  split; [apply sorted_by_timestamp_wf, timing_wf_timestamps, Hwf|].
  split; [apply sort_by_timestamp_perm|].
  split; [apply sort_by_timestamp_sorted|].
  split; [exact Hrows|]. split; [exact Hnd|]. split; [|split].
  - intros u. split.
    + intros Hu.
      exists (timing_row_of (List.length trades)
                (u, timing_data u (sort_by_timestamp trades))).
      split; [|reflexivity]. apply Hin. simpl. auto.
    + intros [r [Hr <-]]. now apply Hin.
  - intros ->. split; reflexivity.
  - intros r Hr. apply Hin in Hr. destruct Hr as [_ Hr].
    remember (TimingRow.user r) as u eqn:Eu. clear Eu. subst r.
    cbn [timing_row_of TimingRow.early_trades TimingRow.late_trades
         TimingRow.mid_trades TimingRow.timing_type].
    destruct (timing_counters (sort_by_timestamp trades)
                (List.length trades) u) as [He [Hm Hl]].
    { unfold sort_by_timestamp. now rewrite length_sort_by. }
    rewrite He, Hm, Hl.
    destruct (timing_type_of_rules
                (count_if (fun i => i <? List.length trades / 4)
                   (trader_indices u (sort_by_timestamp trades)))
                (count_if (fun i => List.length trades * 3 / 4 <=? i)
                   (trader_indices u (sort_by_timestamp trades))))
      as [R1 [R2 R3]].
    repeat (split; [assumption || reflexivity|]).
    intros H12. rewrite H12 in *. repeat split; intros Hidx;
      rewrite Hidx in *; [apply R1 | apply R2 | apply R3];
      vm_compute; lia.
Qed.

Lemma timing_quartile_classification_witness :
  exists rows,
    analyze_timing twelve_trades = Ok rows /\
    (forall r, In r rows -> TimingRow.user r = "alice"%string ->
               TimingRow.timing_type r = "EARLY"%string) /\
    (forall r, In r rows -> TimingRow.user r = "bob"%string ->
               TimingRow.timing_type r = "LATE"%string).
Proof.
  assert (Hne : twelve_trades <> []) by discriminate.
  destruct (timing_quartile_classification twelve_trades Hne eq_refl)
    as [sorted [rows [Hs [_ [_ [Hrows [_ [_ [_ Hr]]]]]]]]].
  vm_compute in Hs. injection Hs as <-.
  exists rows. split; [exact Hrows|].
  split; intros r Hin Hu;
    destruct (Hr r Hin) as [_ [_ [_ [_ [_ [_ H12]]]]]];
    destruct (H12 eq_refl) as [HE [HL _]];
    [apply HE | apply HL]; rewrite Hu; reflexivity.
Defined.

(** The two scenarios of the quartile split, run. *)
Lemma timing_twelve_trades_run :
  analyze_timing twelve_trades =
  Ok [TimingRow.mk "alice" "EARLY" (Some 0) 3 0 0;
      TimingRow.mk "carol" "SPREAD" (Some 25) 0 6 0;
      TimingRow.mk "bob" "LATE" (Some 75) 0 0 3] /\
  analyze_timing twelve_trades_spread =
  Ok [TimingRow.mk "dave" "SPREAD" (Some 0) 1 0 1;
      TimingRow.mk "carol" "SPREAD" (Some 8.3) 2 6 2].
Proof. split; vm_compute; reflexivity. Qed.

(** ** Position-Flip Detector *)

Lemma history_step_wf (d : dict (list Hist.t)) (t : Trade) :
  is_redemption t ||
  (present (user t) && present (outcome t) && present (amount t)
   && present (date t) && present (prob_before t)) = true ->
  history_step d t = Ok (group_step [] trader_key history_upd d t).
Proof.
  unfold history_step, group_step, trader_key, history_upd, hist_entry,
    outcome_of, amount_of.
  destruct (is_redemption t); [reflexivity|]. simpl.
  destruct (user t); [|discriminate].
  destruct (outcome t); [|discriminate].
  destruct (amount t); [|discriminate].
  destruct (date t); [|discriminate].
  destruct (prob_before t); [|discriminate].
  reflexivity.
Qed.

Lemma flips_wf_timestamps (trades : list Trade) :
  forallb flips_wf trades = true ->
  forallb (fun t => present (timestamp t)) trades = true.
Proof.
  rewrite !forallb_forall. intros H t Ht. specialize (H t Ht).
  unfold flips_wf in H. now apply andb_true_iff in H.
Qed.

Lemma trader_histories_wf (trades : list Trade) :
  forallb flips_wf trades = true ->
  trader_histories trades =
  Ok (group_by [] trader_key history_upd (sort_by_timestamp trades) []).
Proof.
  intros Hwf. unfold trader_histories.
  rewrite (sorted_by_timestamp_wf _ (flips_wf_timestamps _ Hwf)). simpl.
  apply foldM_group_by. intros t d Hin. apply history_step_wf.
  apply (Permutation_in _ (sort_by_timestamp_perm trades)) in Hin.
  rewrite forallb_forall in Hwf. specialize (Hwf t Hin).
  unfold flips_wf in Hwf. now apply andb_true_iff in Hwf.
Qed.

Lemma fold_history_upd (l : list Trade) (h : list Hist.t) :
  fold_left (fun v x => history_upd x v) l h = h ++ map hist_entry l.
Proof.
  revert h. induction l as [|t l IH]; intros h; simpl.
  - now rewrite app_nil_r.
  - rewrite IH. unfold history_upd. now rewrite <- app_assoc.
Qed.

(** A trader's history: the trader's trades in the sorted order. *)
Lemma fold_key_history (u : string) (sorted_trades : list Trade) :
  fold_key trader_key history_upd u sorted_trades [] =
  map hist_entry (trades_of u sorted_trades).
Proof. unfold fold_key. now rewrite fold_history_upd. Qed.

Lemma avg_entry_Ok (side : string) (history : list Hist.t) :
  avg_entry side history = Ok (avg_entry_val side history).
Proof.
  unfold avg_entry, avg_entry_val.
  destruct (Qlt_bool 0 (side_volume side history)) eqn:E; [|reflexivity].
  apply Qlt_bool_iff in E. apply pydiv_nonzero.
  intros H. rewrite H in E. now apply Qlt_irrefl in E.
Qed.

Lemma flip_row_Ok (entry : string * list Hist.t) :
  flip_row entry = Ok (flip_row_of entry).
Proof.
  destruct entry as [u [|first [|second rest]]]; try reflexivity.
  unfold flip_row, flip_row_of. now rewrite !avg_entry_Ok.
Qed.

(** The loop over [history[1:]] is the walk of the specification. *)
Lemma fold_flip_step (rest : list Hist.t) (flips : nat) (last_direction : string) :
  fst (fold_left flip_step rest (flips, last_direction)) =
  (flips + walk_flips last_direction (map Hist.outcome rest))%nat.
Proof.
  revert flips last_direction.
  induction rest as [|trade rest IH]; intros flips last_direction; simpl.
  - lia.
  - destruct (String.eqb (Hist.outcome trade) last_direction); simpl;
      rewrite IH; lia.
Qed.

Lemma count_flips_walk (first : Hist.t) (rest : list Hist.t) :
  count_flips first rest = flips_of (map Hist.outcome (first :: rest)).
Proof. unfold count_flips. now rewrite fold_flip_step. Qed.

Lemma In_somes {A} (x : A) (l : list (option A)) :
  In x (somes l) <-> In (Some x) l.
Proof.
  induction l as [|[y|] l IH]; simpl.
  - tauto.
  - rewrite IH. split; intros [H|H]; auto; left; congruence.
  - rewrite IH. split; [auto|]. intros [H|H]; [discriminate | exact H].
Qed.

Lemma NoDup_somes_map {V R} (f : string * V -> option R) (user_of : R -> string)
  (d : dict V) :
  (forall e r, f e = Some r -> user_of r = fst e) ->
  NoDup (keys d) -> NoDup (map user_of (somes (map f d))).
Proof.
  intros Hf. induction d as [|e d IH]; intros Hnd; simpl.
  - constructor.
  - inversion Hnd as [|? ? Hnotin Hnd']; subst.
    destruct (f e) as [r|] eqn:E; simpl; [|now apply IH].
    constructor; [|now apply IH].
    intros Hin. apply in_map_iff in Hin. destruct Hin as [r' [Hu Hr']].
    apply In_somes, in_map_iff in Hr'. destruct Hr' as [e' [He' Hin']].
    apply Hnotin. rewrite <- (Hf _ _ E), <- Hu, (Hf _ _ He').
    now apply in_map.
Qed.

Lemma Permutation_filter {A} (p : A -> bool) (l l' : list A) :
  Permutation l l' -> Permutation (filter p l) (filter p l').
Proof.
  induction 1 as [|x l l' H IH|x y l|l l' l'' H1 IH1 H2 IH2]; simpl.
  - constructor.
  - destruct (p x); [now constructor | exact IH].
  - destruct (p x), (p y); try reflexivity. constructor.
  - now transitivity (filter p l').
Qed.

Lemma flip_row_of_Some (u : string) (history : list Hist.t) (r : FlipRow.t) :
  flip_row_of (u, history) = Some r ->
  (2 <= List.length history)%nat /\
  FlipRow.user r = u /\
  FlipRow.trade_count r = List.length history /\
  FlipRow.flips r = flips_of (map Hist.outcome history) /\
  FlipRow.is_flipper r = (2 <=? FlipRow.flips r)%nat.
Proof.
  destruct history as [|first [|second rest]]; try discriminate.
  unfold flip_row_of. rewrite count_flips_walk. intros [= <-].
  simpl. repeat split. lia.
Qed.

Lemma flip_row_of_long (u : string) (history : list Hist.t) :
  (2 <= List.length history)%nat ->
  exists r, flip_row_of (u, history) = Some r.
Proof.
  destruct history as [|first [|second rest]]; simpl; try lia.
  intros _. eexists. reflexivity.
Qed.

Lemma history_entries (sorted_trades : list Trade) (u : string)
  (h : list Hist.t) :
  In (u, h) (group_by [] trader_key history_upd sorted_trades []) <->
  traders sorted_trades u /\ h = map hist_entry (trades_of u sorted_trades).
Proof. now rewrite In_group_by, traders_key, fold_key_history. Qed.

Lemma trades_of_nonempty (trades : list Trade) (u : string) :
  (0 < List.length (trades_of u trades))%nat -> traders trades u.
Proof.
  unfold trades_of, traders. destruct (filter (trade_of u) trades) as [|t l] eqn:E.
  - simpl. lia.
  - intros _. exists t. apply filter_In. rewrite E. now left.
Qed.

Lemma analyze_position_changes_wf (trades : list Trade) :
  forallb flips_wf trades = true ->
  analyze_position_changes trades =
  Ok (sorted_desc (fun r => inject_Z (Z.of_nat (FlipRow.flips r)))
        (somes (map flip_row_of
                  (group_by [] trader_key history_upd
                     (sort_by_timestamp trades) [])))).
Proof.
  intros Hwf. unfold analyze_position_changes.
  rewrite (trader_histories_wf _ Hwf). simpl.
  rewrite (mapM_Ok_map _ flip_row_of); [reflexivity|].
  intros e _. apply flip_row_Ok.
Qed.

(** C3. [analyze_position_changes] returns a row exactly for the traders
    with at least 2 non-redemption trades.  The row's [flips] is the count
    of the walk over the trader's timestamp-sorted trades that starts with
    [last_direction] at the first outcome and, at each later trade, counts
    a flip and updates [last_direction] exactly when the outcome differs
    from it; [is_flipper] is true exactly when [flips >= 2].  The outcomes
    YES, NO, YES, NO give 3 flips and a flipper, the outcomes YES, YES, YES
    give 0 flips and no flipper. *)
Theorem flip_detection (trades : list Trade)
  (Hwf : forallb flips_wf trades = true) :
  exists sorted_trades rows,
    sorted_by_timestamp trades = Ok sorted_trades /\
    Permutation sorted_trades trades /\
    StronglySorted (fun x y => (timestamp_of x <= timestamp_of y)%Z)
      sorted_trades /\
    analyze_position_changes trades = Ok rows /\
    NoDup (map FlipRow.user rows) /\
    (forall u, (exists r, In r rows /\ FlipRow.user r = u) <->
               (2 <= List.length (trades_of u trades))%nat) /\
    (forall u, trades_of u sorted_trades
               = sort_by_timestamp (trades_of u trades)) /\
    (forall r, In r rows ->
       let outcomes :=
         map outcome_of (trades_of (FlipRow.user r) sorted_trades) in
       FlipRow.trade_count r = List.length outcomes /\
       FlipRow.flips r = flips_of outcomes /\
       (FlipRow.is_flipper r = true <-> (2 <= FlipRow.flips r)%nat) /\
       (outcomes = ["YES"; "NO"; "YES"; "NO"]%string ->
        FlipRow.flips r = 3%nat /\ FlipRow.is_flipper r = true) /\
       (outcomes = ["YES"; "YES"; "YES"]%string ->
        FlipRow.flips r = 0%nat /\ FlipRow.is_flipper r = false)) /\
    (forall flips last_direction trade,
       Hist.outcome trade <> last_direction ->
       flip_step (flips, last_direction) trade
       = (S flips, Hist.outcome trade)) /\
    (forall flips last_direction trade,
       Hist.outcome trade = last_direction ->
       flip_step (flips, last_direction) trade = (flips, last_direction)).
Proof.
  exists (sort_by_timestamp trades). eexists.
  split; [apply sorted_by_timestamp_wf, flips_wf_timestamps, Hwf|].
  split; [apply sort_by_timestamp_perm|].
  split; [apply sort_by_timestamp_sorted|].
  split; [now apply analyze_position_changes_wf|].
  assert (Hlen : forall u,
             List.length (trades_of u (sort_by_timestamp trades)) =
             List.length (trades_of u trades)).
  { intros u. apply Permutation_length, Permutation_filter,
      sort_by_timestamp_perm. }
  assert (Hrow : forall r,
    In r (sorted_desc (fun r => inject_Z (Z.of_nat (FlipRow.flips r)))
            (somes (map flip_row_of
                      (group_by [] trader_key history_upd
                         (sort_by_timestamp trades) [])))) <->
    exists u, traders (sort_by_timestamp trades) u /\
      flip_row_of (u, map hist_entry (trades_of u (sort_by_timestamp trades)))
      = Some r).
  { intros r. rewrite In_sorted_desc, In_somes, in_map_iff. split.
    - intros [[u h] [Hf Hin]]. apply history_entries in Hin.
      destruct Hin as [Hu ->]. exists u. auto.
    - intros [u [Hu Hf]]. eexists. split; [exact Hf|].
      now apply history_entries. }
  split; [|split; [|split; [intros u; apply trades_of_sorted
                            |split; [|split]]]].
  - apply Permutation_NoDup
      with (l := map FlipRow.user
                   (somes (map flip_row_of
                             (group_by [] trader_key history_upd
                                (sort_by_timestamp trades) [])))).
    + apply Permutation_map, Permutation_sym, sort_by_perm.
    + apply NoDup_somes_map.
      * intros [u h] r Hf. apply flip_row_of_Some in Hf. simpl. tauto.
      * apply NoDup_keys_group_by. constructor.
  - intros u. split.
    + intros [r [Hr <-]]. apply Hrow in Hr. destruct Hr as [u [_ Hf]].
      apply flip_row_of_Some in Hf. destruct Hf as [H2 [-> _]].
      rewrite length_map, Hlen in H2. exact H2.
    + intros H2. rewrite <- Hlen in H2.
      destruct (flip_row_of_long u
                  (map hist_entry (trades_of u (sort_by_timestamp trades))))
        as [r Hf]; [now rewrite length_map|].
      exists r. split.
      * apply Hrow. exists u. split; [|exact Hf].
        apply trades_of_nonempty. lia.
      * apply flip_row_of_Some in Hf. tauto.
  - intros r Hr. apply Hrow in Hr. destruct Hr as [u [_ Hf]].
    apply flip_row_of_Some in Hf.
    destruct Hf as [_ [-> [Hc [Hfl Hfp]]]]. cbv zeta.
    rewrite map_map in Hfl.
    change (map (fun x => Hist.outcome (hist_entry x))
              (trades_of u (sort_by_timestamp trades)))
      with (map outcome_of (trades_of u (sort_by_timestamp trades))) in Hfl.
    rewrite length_map in *.
    split; [exact Hc|]. split; [exact Hfl|]. split; [|split].
    + rewrite Hfp. apply Nat.leb_le.
    + intros Ho. rewrite Hfp, Hfl, Ho. split; reflexivity.
    + intros Ho. rewrite Hfp, Hfl, Ho. split; reflexivity.
  - intros flips last_direction trade Hne. unfold flip_step.
    apply String.eqb_neq in Hne. now rewrite Hne.
  - intros flips last_direction trade He. unfold flip_step.
    apply String.eqb_eq in He. now rewrite He.
Qed.

Lemma flip_detection_witness :
  exists rows,
    analyze_position_changes flip_trades = Ok rows /\
    (forall r, In r rows -> FlipRow.user r = "alice"%string ->
               FlipRow.flips r = 3%nat /\ FlipRow.is_flipper r = true) /\
    (forall r, In r rows -> FlipRow.user r = "bob"%string ->
               FlipRow.flips r = 0%nat /\ FlipRow.is_flipper r = false) /\
    ~ (exists r, In r rows /\ FlipRow.user r = "carol"%string).
Proof.
  destruct (flip_detection flip_trades eq_refl)
    as [sorted [rows [Hs [_ [_ [Hrows [_ [Hpresent [_ [Hr _]]]]]]]]]].
  vm_compute in Hs. injection Hs as <-.
  exists rows. split; [exact Hrows|]. split; [|split].
  - intros r Hin Hu. destruct (Hr r Hin) as [_ [_ [_ [H4 _]]]].
    apply H4. rewrite Hu. reflexivity.
  - intros r Hin Hu. destruct (Hr r Hin) as [_ [_ [_ [_ H3]]]].
    apply H3. rewrite Hu. reflexivity.
  - intros H. apply Hpresent in H. vm_compute in H. lia.
Defined.

(** The flip scenarios, run. *)
Lemma flip_trades_run :
  analyze_position_changes flip_trades =
  Ok [FlipRow.mk "alice" 4 3 true 51 (107 # 2) "YES" "NO";
      FlipRow.mk "bob" 3 0 false (513 # 10) 0 "YES" "YES"].
Proof. vm_compute. reflexivity. Qed.

(** ** Market-Impact Analyzer *)

Lemma impact_step_wf (d : dict Impact.t) (t : Trade) :
  impact_wf t = true ->
  impact_step d t = Ok (group_step Impact.default trader_key impact_upd d t).
Proof.
  unfold impact_wf, impact_step, group_step, trader_key, impact_upd, impact_of.
  destruct (is_redemption t); [reflexivity|]. simpl.
  destruct (prob_after t); [|discriminate].
  destruct (prob_before t); [|discriminate].
  destruct (user t); [|discriminate].
  reflexivity.
Qed.

Lemma impact_row_Ok (entry : string * Impact.t) :
  impact_row entry = Ok (impact_row_of entry).
Proof.
  destruct entry as [u data]. unfold impact_row, impact_row_of.
  destruct (0 <? Impact.trades data)%nat eqn:E; [|reflexivity].
  apply Nat.ltb_lt in E. rewrite pydiv_nonzero; [reflexivity|].
  unfold Qeq. simpl. lia.
Qed.


Lemma analyze_market_impact_wf (trades : list Trade) :
  forallb impact_wf trades = true ->
  analyze_market_impact trades =
  Ok (sorted_desc ImpactRow.total_impact_pct
        (map impact_row_of
             (group_by Impact.default trader_key impact_upd trades []))).
Proof.
  intros Hwf. unfold analyze_market_impact.
  rewrite (foldM_group_by Impact.default trader_key impact_upd).
  - simpl. rewrite (mapM_Ok_map _ impact_row_of); [reflexivity|].
    intros e _. apply impact_row_Ok.
  - intros t d Ht. apply impact_step_wf. rewrite forallb_forall in Hwf. auto.
Qed.








(** ** Missing fields and exceptions *)

Lemma forallb_false_exists {A} (p : A -> bool) (l : list A) :
  forallb p l = false <-> exists x, In x l /\ p x = false.
Proof.
  induction l as [|y l IH]; simpl.
  - split; [discriminate | intros [x [[] _]]].
  - rewrite andb_false_iff, IH. split.
    + intros [H|[x [Hx Hp]]]; [exists y | exists x]; auto.
    + intros [x [[<-|Hx] Hp]]; [now left | right; exists x; auto].
Qed.

(** A loop over elements that are accepted or raise [KeyError] raises
    [KeyError] as soon as one element is not accepted. *)
Lemma foldM_KeyError {A S} (body : S -> A -> result S) (wf : A -> bool)
  (l : list A) (acc : S) :
  (forall acc x, wf x = true -> exists acc', body acc x = Ok acc') ->
  (forall acc x, wf x = false -> exists k, body acc x = Raise (KeyError k)) ->
  (exists x, In x l /\ wf x = false) ->
  exists k, foldM body l acc = Raise (KeyError k).
Proof.
  intros Hok Hko. revert acc.
  induction l as [|y l IH]; intros acc [x [Hx Hwf]]; [destruct Hx|].
  simpl. destruct (wf y) eqn:E.
  - destruct (Hok acc y E) as [acc' ->]. simpl. apply IH.
    destruct Hx as [<-|Hx]; [congruence|]. exists x. auto.
  - destruct (Hko acc y E) as [k ->]. now exists k.
Qed.

Lemma mapM_timestamp_KeyError (trades : list Trade) :
  forallb (fun t => present (timestamp t)) trades = false ->
  sorted_by_timestamp trades = Raise (KeyError "timestamp").
Proof.
  intros H. unfold sorted_by_timestamp.
  assert (E : mapM (fun t => getitem (timestamp t) "timestamp") trades
              = Raise (KeyError "timestamp")).
  { induction trades as [|t l IH]; simpl in *; [discriminate|].
    destruct (timestamp t); simpl in *; [|reflexivity].
    now rewrite IH. }
  now rewrite E.
Qed.

Lemma pnl_step_not_wf (d : dict Pos.t) (t : Trade) :
  pnl_wf t = false -> exists k, pnl_step d t = Raise (KeyError k).
Proof.
  unfold pnl_wf, pnl_step.
  destruct (is_redemption t); [discriminate|].
  destruct (user t), (amount t), (prob_before t), (outcome t); simpl;
    try discriminate; intros _; eexists; reflexivity.
Qed.

Lemma impact_step_not_wf (d : dict Impact.t) (t : Trade) :
  impact_wf t = false -> exists k, impact_step d t = Raise (KeyError k).
Proof.
  unfold impact_wf, impact_step.
  destruct (is_redemption t); [discriminate|].
  destruct (prob_after t), (prob_before t), (user t); simpl;
    try discriminate; intros _; eexists; reflexivity.
Qed.

Lemma stats_step_not_wf (d : dict Stats.t) (t : Trade) :
  stats_wf t = false -> exists k, stats_step d t = Raise (KeyError k).
Proof.
  unfold stats_wf, stats_step.
  destruct (is_redemption t); [discriminate|].
  destruct (user t), (amount t); simpl;
    try discriminate; intros _; eexists; reflexivity.
Qed.

Lemma history_step_not_wf (d : dict (list Hist.t)) (t : Trade) :
  is_redemption t ||
  (present (user t) && present (outcome t) && present (amount t)
   && present (date t) && present (prob_before t)) = false ->
  exists k, history_step d t = Raise (KeyError k).
Proof.
  unfold history_step.
  destruct (is_redemption t); [discriminate|].
  destruct (user t), (outcome t), (amount t), (date t), (prob_before t);
    simpl; try discriminate; intros _; eexists; reflexivity.
Qed.

Lemma timing_step_not_wf (q1 q3 : nat) (d : dict Timing.t) (it : nat * Trade) :
  is_redemption (snd it) || present (user (snd it)) = false ->
  exists k, timing_step q1 q3 d it = Raise (KeyError k).
Proof.
  destruct it as [idx t]. unfold timing_step. simpl.
  destruct (is_redemption t); [discriminate|].
  destruct (user t); simpl; try discriminate; intros _; eexists; reflexivity.
Qed.

(** Each analyzer returns, or raises [KeyError]; it returns exactly when
    every trade carries the fields the analyzer reads of it. *)
Lemma estimate_pnl_returns (trades : list Trade) (cp : Q) :
  (forallb pnl_wf trades = true /\
   exists rows, estimate_pnl trades cp = Ok rows) \/
  (forallb pnl_wf trades = false /\
   exists k, estimate_pnl trades cp = Raise (KeyError k)).
Proof.
  destruct (forallb pnl_wf trades) eqn:E.
  - left. split; [reflexivity|]. eexists. now apply estimate_pnl_wf.
  - right. split; [reflexivity|].
    destruct (foldM_KeyError pnl_step pnl_wf trades []) as [k Hk].
    + intros d t Ht. eexists. now apply pnl_step_wf.
    + intros d t. apply pnl_step_not_wf.
    + now apply forallb_false_exists.
    + exists k. unfold estimate_pnl, pnl_positions. now rewrite Hk.
Qed.

Lemma analyze_market_impact_returns (trades : list Trade) :
  (forallb impact_wf trades = true /\
   exists rows, analyze_market_impact trades = Ok rows) \/
  (forallb impact_wf trades = false /\
   exists k, analyze_market_impact trades = Raise (KeyError k)).
Proof.
  destruct (forallb impact_wf trades) eqn:E.
  - left. split; [reflexivity|]. eexists. now apply analyze_market_impact_wf.
  - right. split; [reflexivity|].
    destruct (foldM_KeyError impact_step impact_wf trades []) as [k Hk].
    + intros d t Ht. eexists. now apply impact_step_wf.
    + intros d t. apply impact_step_not_wf.
    + now apply forallb_false_exists.
    + exists k. unfold analyze_market_impact. now rewrite Hk.
Qed.

Lemma classify_traders_returns (trades : list Trade) (pnl_data : list PnlRow.t) :
  (forallb stats_wf trades = true /\
   exists rows, classify_traders trades pnl_data = Ok rows) \/
  (forallb stats_wf trades = false /\
   exists k, classify_traders trades pnl_data = Raise (KeyError k)).
Proof.
  destruct (forallb stats_wf trades) eqn:E.
  - left. split; [reflexivity|].
    destruct (classify_traders_wf trades pnl_data E) as [s [_ [_ [_ H]]]].
    eexists. exact H.
  - right. split; [reflexivity|].
    destruct (foldM_KeyError stats_step stats_wf trades []) as [k Hk].
    + intros d t Ht. eexists. now apply stats_step_wf.
    + intros d t. apply stats_step_not_wf.
    + now apply forallb_false_exists.
    + exists k. unfold classify_traders, trader_stats_of. now rewrite Hk.
Qed.

Lemma unread_field_exists (trades : list Trade) (wf wf' : Trade -> bool) :
  (forall t, wf t = present (timestamp t) && wf' t) ->
  forallb wf trades = false ->
  forallb (fun t => present (timestamp t)) trades = true ->
  exists t, In t (sort_by_timestamp trades) /\ wf' t = false.
Proof.
  intros Hwf E Ets. apply forallb_false_exists in E.
  destruct E as [t [Hin Ht]]. exists t. split.
  - apply (Permutation_in _ (Permutation_sym (sort_by_timestamp_perm trades))).
    exact Hin.
  - rewrite forallb_forall in Ets. rewrite Hwf, (Ets t Hin) in Ht. exact Ht.
Qed.

Lemma analyze_timing_returns (trades : list Trade) :
  (forallb timing_wf trades = true /\
   exists rows, analyze_timing trades = Ok rows) \/
  (forallb timing_wf trades = false /\
   exists k, analyze_timing trades = Raise (KeyError k)).
Proof.
  destruct (forallb timing_wf trades) eqn:E.
  - left. split; [reflexivity|]. destruct trades as [|t0 l] eqn:Et.
    + now exists [].
    + eexists. apply analyze_timing_wf; [discriminate | exact E].
  - right. split; [reflexivity|].
    destruct trades as [|t0 l] eqn:Et; [discriminate|]. rewrite <- Et in *.
    assert (Hunfold : analyze_timing trades =
      (sorted_trades <- sorted_by_timestamp trades ;;
       trader_timing <-
         foldM (timing_step (List.length sorted_trades / 4)
                            (List.length sorted_trades * 3 / 4))
               (enumerate sorted_trades) [] ;;
       mapM (timing_row (List.length sorted_trades)) trader_timing)).
    { now rewrite Et. }
    rewrite Hunfold. clear Hunfold Et.
    destruct (forallb (fun t => present (timestamp t)) trades) eqn:Ets.
    + rewrite (sorted_by_timestamp_wf _ Ets). cbn [bind].
      destruct (unread_field_exists trades timing_wf
                  (fun t => is_redemption t || present (user t))
                  (fun t => eq_refl) E Ets) as [t [Hin Ht]].
      apply In_enumerate in Hin. destruct Hin as [it [Hit Hsnd]].
      destruct (foldM_KeyError
                  (timing_step (List.length (sort_by_timestamp trades) / 4)
                     (List.length (sort_by_timestamp trades) * 3 / 4))
                  (fun it => is_redemption (snd it) || present (user (snd it)))
                  (enumerate (sort_by_timestamp trades)) []) as [k Hk].
      * intros d x Hx. eexists. now apply timing_step_wf.
      * intros d x. apply timing_step_not_wf.
      * exists it. split; [exact Hit|]. now rewrite Hsnd.
      * exists k. now rewrite Hk.
    + rewrite (mapM_timestamp_KeyError _ Ets). now eexists.
Qed.

Lemma analyze_position_changes_returns (trades : list Trade) :
  (forallb flips_wf trades = true /\
   exists rows, analyze_position_changes trades = Ok rows) \/
  (forallb flips_wf trades = false /\
   exists k, analyze_position_changes trades = Raise (KeyError k)).
Proof.
  destruct (forallb flips_wf trades) eqn:E.
  - left. split; [reflexivity|]. eexists.
    now apply analyze_position_changes_wf.
  - right. split; [reflexivity|].
    unfold analyze_position_changes, trader_histories.
    destruct (forallb (fun t => present (timestamp t)) trades) eqn:Ets.
    + rewrite (sorted_by_timestamp_wf _ Ets). cbn [bind].
      destruct (unread_field_exists trades flips_wf
                  (fun t => is_redemption t ||
                     (present (user t) && present (outcome t)
                      && present (amount t) && present (date t)
                      && present (prob_before t)))
                  (fun t => eq_refl) E Ets) as [t [Hin Ht]].
      destruct (foldM_KeyError history_step
                  (fun t => is_redemption t ||
                     (present (user t) && present (outcome t)
                      && present (amount t) && present (date t)
                      && present (prob_before t)))
                  (sort_by_timestamp trades) []) as [k Hk].
      * intros d x Hx. eexists. now apply history_step_wf.
      * intros d x. apply history_step_not_wf.
      * exists t. auto.
      * exists k. now rewrite Hk.
    + rewrite (mapM_timestamp_KeyError _ Ets). now eexists.
Qed.

(** C7, as the code has it: a record without [outcome] (or without [user])
    is not skipped.  The analyzers that read the field raise [KeyError],
    although they return on the collection without the record. *)
Lemma missing_field_not_skipped :
  let valid := [buy "alice" 100 "YES" 25 30 1] in
  (exists rows, estimate_pnl valid 0.5 = Ok rows) /\
  estimate_pnl (valid ++ [no_outcome]) 0.5 = Raise (KeyError "outcome") /\
  (exists rows, analyze_position_changes valid = Ok rows) /\
  analyze_position_changes (valid ++ [no_outcome])
  = Raise (KeyError "outcome") /\
  estimate_pnl (valid ++ [no_user]) 0.5 = Raise (KeyError "user") /\
  (exists rows, analyze_timing valid = Ok rows) /\
  analyze_timing (valid ++ [no_user]) = Raise (KeyError "user") /\
  analyze_market_impact (valid ++ [no_user]) = Raise (KeyError "user") /\
  classify_traders (valid ++ [no_user]) [] = Raise (KeyError "user").
Proof.
  cbv zeta. repeat split; try (eexists; vm_compute; reflexivity);
    vm_compute; reflexivity.
Qed.

Lemma returns_iff {A} (b : bool) (c : result A) :
  (b = true /\ exists r, c = Ok r) \/
  (b = false /\ exists k, c = Raise (KeyError k)) ->
  (b = true <-> exists r, c = Ok r) /\
  (b = false <-> exists k, c = Raise (KeyError k)).
Proof.
  intros [[-> [r ->]]|[-> [k ->]]]; split; split; intros H;
    try reflexivity; try discriminate; eauto;
    destruct H as [x H]; discriminate.
Qed.

(** C7, amended.  No analyzer skips a record for a missing field.  Each
    analyzer returns exactly when every record carries the fields that
    analyzer reads of it (all analyzers read nothing but [is_redemption]
    of a redemption; [analyze_timing] and [analyze_position_changes] also
    read the [timestamp] of every record); otherwise it raises
    [KeyError].  In particular a non-redemption record without [user]
    makes all five analyzers raise, and one without [outcome] makes
    [estimate_pnl] and [analyze_position_changes] raise. *)
Theorem missing_field_raises (trades : list Trade) (current_prob : Q)
  (pnl_data : list PnlRow.t) :
  ((forallb pnl_wf trades = true <->
    exists rows, estimate_pnl trades current_prob = Ok rows) /\
   (forallb pnl_wf trades = false <->
    exists k, estimate_pnl trades current_prob = Raise (KeyError k))) /\
  ((forallb timing_wf trades = true <->
    exists rows, analyze_timing trades = Ok rows) /\
   (forallb timing_wf trades = false <->
    exists k, analyze_timing trades = Raise (KeyError k))) /\
  ((forallb flips_wf trades = true <->
    exists rows, analyze_position_changes trades = Ok rows) /\
   (forallb flips_wf trades = false <->
    exists k, analyze_position_changes trades = Raise (KeyError k))) /\
  ((forallb impact_wf trades = true <->
    exists rows, analyze_market_impact trades = Ok rows) /\
   (forallb impact_wf trades = false <->
    exists k, analyze_market_impact trades = Raise (KeyError k))) /\
  ((forallb stats_wf trades = true <->
    exists rows, classify_traders trades pnl_data = Ok rows) /\
   (forallb stats_wf trades = false <->
    exists k, classify_traders trades pnl_data = Raise (KeyError k))) /\
  (forall t, In t trades -> is_redemption t = false -> user t = None ->
     forallb pnl_wf trades = false /\ forallb timing_wf trades = false /\
     forallb flips_wf trades = false /\ forallb impact_wf trades = false /\
     forallb stats_wf trades = false) /\
  (forall t, In t trades -> is_redemption t = false -> outcome t = None ->
     forallb pnl_wf trades = false /\ forallb flips_wf trades = false).
Proof.
  split; [apply returns_iff, estimate_pnl_returns|].
  split; [apply returns_iff, analyze_timing_returns|].
  split; [apply returns_iff, analyze_position_changes_returns|].
  split; [apply returns_iff, analyze_market_impact_returns|].
  split; [apply returns_iff, classify_traders_returns|].
  split.
  - intros t Hin Hr Hu.
    repeat split; apply forallb_false_exists; exists t;
      (split; [exact Hin|]);
      unfold pnl_wf, timing_wf, flips_wf, impact_wf, stats_wf;
      rewrite Hr, Hu; simpl;
      rewrite ?andb_false_r; reflexivity.
  - intros t Hin Hr Ho.
    repeat split; apply forallb_false_exists; exists t;
      (split; [exact Hin|]);
      unfold pnl_wf, flips_wf; rewrite Hr, Ho; simpl;
      rewrite ?andb_false_r; reflexivity.
Qed.

Lemma missing_field_raises_witness :
  exists k,
    estimate_pnl [buy "alice" 100 "YES" 25 30 1; no_outcome] 0.5
    = Raise (KeyError k).
Proof.
  apply (proj2 (proj1 (missing_field_raises
                         [buy "alice" 100 "YES" 25 30 1; no_outcome] 0.5 []))).
  reflexivity.
Defined.

(** ** Division by zero *)

(** C8, as the code has it: the guarded division of the classifier's
    [yes_pct] defaults to 50, not to 0, for a trader whose total cost
    is 0. *)
Lemma zero_cost_yes_pct_is_50 :
  exists pnl r,
    estimate_pnl zero_cost_trades 0.5 = Ok [pnl] /\
    PnlRow.total_cost pnl = 0 /\
    yes_pct_of (pnl_lookup_of [pnl]) "alice" = Ok 50 /\
    classify_traders zero_cost_trades [pnl] = Ok [r] /\
    ClassRow.yes_pct r = 50 /\
    ~ ClassRow.yes_pct r == 0.
Proof.
  do 2 eexists. split; [vm_compute; reflexivity|].
  split; [reflexivity|]. split; [reflexivity|].
  split; [vm_compute; reflexivity|].
  split; [reflexivity|]. intros H. discriminate H.
Qed.

Lemma not_ZeroDivisionError {A} (b : bool) (c : result A) :
  (b = true /\ exists r, c = Ok r) \/
  (b = false /\ exists k, c = Raise (KeyError k)) ->
  c <> Raise ZeroDivisionError.
Proof. intros [[_ [r ->]]|[_ [k ->]]]; discriminate. Qed.

(** C8, amended.  No analyzer ever raises a division-by-zero error, on
    any trade collection.  Every division whose divisor can be zero is
    guarded, and the guarded result defaults to [0]: the shares of a YES
    trade at [prob <= 0] and of a NO trade at [prob >= 1], the ROI of a
    trader with [total_cost <= 0], the average entry probability of a side
    without volume, the average impact of a trader without trades; except
    the classifier's [yes_pct], which defaults to [50] when the total cost
    is not positive.  [analyze_timing] divides by the number of trades and
    returns before that on the empty collection. *)
Theorem no_division_by_zero (trades : list Trade) (current_prob : Q)
  (pnl_data : list PnlRow.t) :
  (estimate_pnl trades current_prob <> Raise ZeroDivisionError /\
   analyze_timing trades <> Raise ZeroDivisionError /\
   analyze_position_changes trades <> Raise ZeroDivisionError /\
   analyze_market_impact trades <> Raise ZeroDivisionError /\
   classify_traders trades pnl_data <> Raise ZeroDivisionError /\
   run_analyses trades current_prob <> Raise ZeroDivisionError) /\
  (forall t, is_yes t = true -> prob_of t <= 0 -> shares_of t = 0) /\
  (forall t, is_yes t = false -> 1 <= prob_of t -> shares_of t = 0) /\
  (forall u pos,
     Pos.yes_cost pos + Pos.no_cost pos <= 0 ->
     exists r, pnl_row current_prob (u, pos) = Ok r /\ PnlRow.roi_pct r = 0) /\
  (forall side history,
     side_volume side history <= 0 -> avg_entry side history = Ok 0) /\
  (forall u data,
     Impact.trades data = 0%nat ->
     exists r, impact_row (u, data) = Ok r /\ ImpactRow.avg_impact_pct r = 0) /\
  (forall u,
     pnl_get (dict_get (pnl_lookup_of pnl_data) u) PnlRow.total_cost 1 <= 0 ->
     yes_pct_of (pnl_lookup_of pnl_data) u = Ok 50) /\
  analyze_timing [] = Ok [].
Proof.
  assert (Hpnl := estimate_pnl_returns trades current_prob).
  assert (Htim := analyze_timing_returns trades).
  assert (Hpos := analyze_position_changes_returns trades).
  assert (Himp := analyze_market_impact_returns trades).
  split; [|split; [|split; [|split; [|split; [|split; [|split]]]]]].
  - split; [eapply not_ZeroDivisionError, Hpnl|].
    split; [eapply not_ZeroDivisionError, Htim|].
    split; [eapply not_ZeroDivisionError, Hpos|].
    split; [eapply not_ZeroDivisionError, Himp|].
    split; [eapply not_ZeroDivisionError, classify_traders_returns|].
    unfold run_analyses.
    destruct Hpnl as [[_ [pnl ->]]|[_ [k ->]]]; [|discriminate].
    destruct Htim as [[_ [timing ->]]|[_ [k ->]]]; [|discriminate].
    destruct Himp as [[_ [impact ->]]|[_ [k ->]]]; [|discriminate].
    destruct Hpos as [[_ [positions ->]]|[_ [k ->]]]; [|discriminate].
    cbn [bind].
    destruct (classify_traders_returns trades pnl)
      as [[_ [cls ->]]|[_ [k ->]]]; discriminate.
  - intros t Hy Hp. unfold shares_of. rewrite Hy.
    apply Qlt_bool_false_iff in Hp. now rewrite Hp.
  - intros t Hy Hp. unfold shares_of. rewrite Hy.
    apply Qlt_bool_false_iff in Hp. now rewrite Hp.
  - intros u pos Hc. eexists. split; [apply pnl_row_Ok|].
    unfold pnl_row_of, roi_pct_of, total_cost_of. simpl.
    apply Qlt_bool_false_iff in Hc. now rewrite Hc.
  - intros side history Hv. unfold avg_entry.
    apply Qlt_bool_false_iff in Hv. now rewrite Hv.
  - intros u data Hn. eexists. split; [apply impact_row_Ok|].
    unfold impact_row_of. simpl. now rewrite Hn.
  - intros u Ht. unfold yes_pct_of. cbv zeta.
    apply Qlt_bool_false_iff in Ht. now rewrite Ht.
  - reflexivity.
Qed.

Lemma no_division_by_zero_witness :
  shares_of (buy "alice" 10 "YES" 0 1 1) = 0 /\
  estimate_pnl zero_cost_trades 0.5 <> Raise ZeroDivisionError.
Proof.
  destruct (no_division_by_zero zero_cost_trades 0.5 [])
    as [[Hpnl _] [Hyes _]].
  split; [|exact Hpnl].
  apply Hyes; [reflexivity | discriminate].
Defined.

(** ** Redemptions *)

Lemma foldM_non_redemption {S} (body : S -> Trade -> result S)
  (trades : list Trade) (acc : S) :
  (forall acc t, is_redemption t = true -> body acc t = Ok acc) ->
  foldM body (non_redemption trades) acc = foldM body trades acc.
Proof.
  intros Hskip. revert acc. induction trades as [|t l IH]; intros acc; simpl.
  - reflexivity.
  - destruct (is_redemption t) eqn:E; simpl.
    + rewrite (Hskip _ _ E). simpl. apply IH.
    + destruct (body acc t); simpl; [apply IH | reflexivity].
Qed.


Lemma sort_by_timestamp_non_redemption (trades : list Trade) :
  sort_by_timestamp (non_redemption trades) =
  non_redemption (sort_by_timestamp trades).
Proof.
  apply sort_by_filter.
  - intros x y. rewrite !Z.leb_le. lia.
  - intros x y z. rewrite !Z.leb_le. lia.
Qed.

(** The analyzers other than [analyze_timing] give the same result on a
    collection and on the collection without its redemptions
    ([analyze_position_changes] reads the timestamp of a redemption when
    it sorts, so that key has to be there). *)
Lemma redemptions_excluded_elsewhere (trades : list Trade) (cp : Q)
  (pnl_data : list PnlRow.t) :
  estimate_pnl (non_redemption trades) cp = estimate_pnl trades cp /\
  analyze_market_impact (non_redemption trades) = analyze_market_impact trades /\
  classify_traders (non_redemption trades) pnl_data
  = classify_traders trades pnl_data /\
  (forallb (fun t => present (timestamp t)) trades = true ->
   analyze_position_changes (non_redemption trades)
   = analyze_position_changes trades).
Proof.
  split; [|split; [|split]].
  - unfold estimate_pnl, pnl_positions. rewrite foldM_non_redemption;
      [reflexivity|]. intros d t H. unfold pnl_step. now rewrite H.
  - unfold analyze_market_impact. rewrite foldM_non_redemption;
      [reflexivity|]. intros d t H. unfold impact_step. now rewrite H.
  - unfold classify_traders, trader_stats_of. rewrite foldM_non_redemption;
      [reflexivity|]. intros d t H. unfold stats_step. now rewrite H.
  - intros Hts. unfold analyze_position_changes, trader_histories.
    rewrite (sorted_by_timestamp_wf _ Hts).
    rewrite sorted_by_timestamp_wf.
    + rewrite sort_by_timestamp_non_redemption. cbn [bind].
      rewrite foldM_non_redemption; [reflexivity|].
      intros d t H. unfold history_step. now rewrite H.
    + rewrite forallb_forall in *. intros t Ht. apply Hts.
      unfold non_redemption in Ht. now apply filter_In in Ht.
Qed.

(** C5 fails in [analyze_timing]: redemptions are skipped by the loop but
    counted in [total_trades], in the cutoffs and in the rank indices.
    With four redemptions before her four trades, alice is LATE (cutoffs
    2 and 6 of 8, indices 4 to 7, first trade at 50%); without the
    redemptions she is SPREAD (cutoffs 1 and 3 of 4, indices 0 to 3, first
    trade at 0%). *)
Theorem timing_counts_redemptions :
  analyze_timing redemption_trades
  = Ok [TimingRow.mk "alice" "LATE" (Some 50) 0 2 2] /\
  analyze_timing (non_redemption redemption_trades)
  = Ok [TimingRow.mk "alice" "SPREAD" (Some 0) 1 2 1] /\
  analyze_timing redemption_trades
  <> analyze_timing (non_redemption redemption_trades).
Proof.
  assert (H1 : analyze_timing redemption_trades
               = Ok [TimingRow.mk "alice" "LATE" (Some 50) 0 2 2])
    by (vm_compute; reflexivity).
  assert (H2 : analyze_timing (non_redemption redemption_trades)
               = Ok [TimingRow.mk "alice" "SPREAD" (Some 0) 1 2 1])
    by (vm_compute; reflexivity).
  split; [exact H1|]. split; [exact H2|].
  rewrite H1, H2. discriminate.
Qed.

(** The classification scenario, run: zoe's volume 50 is below the whale
    threshold 1000, she has 5 trades, [yes_pct = 50] and [roi_pct = 10]. *)
Lemma classification_scenario_run :
  exists stats rows,
    trader_stats_of retail_trades [zoe_pnl] = Ok stats /\
    whale_threshold_of (map Stats.volume (values stats)) = 1000 /\
    dict_get stats "zoe" = Some (Stats.mk (0 + 10 + 10 + 10 + 10 + 10) 5
                                          (25 / 50 * 100)) /\
    classify_traders retail_trades [zoe_pnl] = Ok rows /\
    In (ClassRow.mk "zoe" ["RETAIL"%string] 50 5 50 5 10) rows /\
    List.length rows = 12%nat.
Proof.
  do 2 eexists. split; [reflexivity|].
  split; [reflexivity|]. split; [reflexivity|].
  split; [vm_compute; reflexivity|].
  split; [|reflexivity]. do 11 right. left. reflexivity.
Qed.

(** * Further properties of the code *)

(** ** Rounding *)

Lemma round_half_even_bounds (q : Q) :
  (Qfloor q <= round_half_even q <= Qfloor q + 1)%Z.
Proof.
  unfold round_half_even.
  destruct (Qlt_bool _ _); [lia|].
  destruct (Qlt_bool _ _); [lia|].
  destruct (Z.even _); lia.
Qed.

Lemma round_half_even_int (q : Q) (n : Z) :
  q == inject_Z n -> round_half_even q = n.
Proof.
  intros H. unfold round_half_even.
  assert (Hf : Qfloor q = n) by (rewrite H; apply Qfloor_Z).
  rewrite Hf.
  assert (Hr : Qlt_bool (q - inject_Z n) (1 # 2) = true).
  { apply Qlt_bool_iff. rewrite H. lra. }
  now rewrite Hr.
Qed.

Lemma round_half_even_mono (q q' : Q) :
  q <= q' -> (round_half_even q <= round_half_even q')%Z.
Proof.
  intros Hle.
  pose proof (Qfloor_resp_le _ _ Hle) as Hf.
  pose proof (round_half_even_bounds q) as Hb.
  pose proof (round_half_even_bounds q') as Hb'.
  destruct (Z.eq_dec (Qfloor q) (Qfloor q')) as [E|NE]; [|lia].
  unfold round_half_even in *. rewrite <- E in *.
  destruct (Qlt_bool (q - inject_Z (Qfloor q)) (1 # 2)) eqn:E1; [lia|].
  apply Qlt_bool_false_iff in E1.
  destruct (Qlt_bool (q' - inject_Z (Qfloor q)) (1 # 2)) eqn:E1'.
  { apply Qlt_bool_iff in E1'. lra. }
  destruct (Qlt_bool (1 # 2) (q - inject_Z (Qfloor q))) eqn:E2.
  { apply Qlt_bool_iff in E2.
    assert (H : Qlt_bool (1 # 2) (q' - inject_Z (Qfloor q)) = true)
      by (apply Qlt_bool_iff; lra).
    rewrite H. lia. }
  destruct (Qlt_bool (1 # 2) (q' - inject_Z (Qfloor q))); [|lia].
  destruct (Z.even (Qfloor q)); lia.
Qed.

Lemma pyround_scale_pos (ndigits : nat) :
  0 < inject_Z (10 ^ Z.of_nat ndigits).
Proof.
  change 0 with (inject_Z 0). rewrite <- Zlt_Qlt.
  apply Z.pow_pos_nonneg; lia.
Qed.

Lemma pyround_mono (q q' : Q) (ndigits : nat) :
  q <= q' -> pyround q ndigits <= pyround q' ndigits.
Proof.
  intros Hle. unfold pyround. rewrite !Qred_correct.
  pose proof (pyround_scale_pos ndigits) as Hs.
  apply Qmult_le_compat_r.
  - rewrite <- Zle_Qle. apply round_half_even_mono.
    apply Qmult_le_compat_r; [exact Hle | lra].
  - apply Qinv_le_0_compat. lra.
Qed.

Lemma pyround_int (n : Z) (ndigits : nat) :
  pyround (inject_Z n) ndigits == inject_Z n.
Proof.
  unfold pyround. rewrite Qred_correct.
  pose proof (pyround_scale_pos ndigits) as Hs.
  rewrite (round_half_even_int _ (n * 10 ^ Z.of_nat ndigits)).
  - rewrite inject_Z_mult. field. lra.
  - now rewrite inject_Z_mult.
Qed.

Lemma pyround_nonneg (q : Q) (ndigits : nat) :
  0 <= q -> 0 <= pyround q ndigits.
Proof.
  intros H. rewrite <- (pyround_int 0 ndigits).
  now apply pyround_mono.
Qed.

Lemma pyround_le_int (q : Q) (n : Z) (ndigits : nat) :
  q <= inject_Z n -> pyround q ndigits <= inject_Z n.
Proof.
  intros H. rewrite <- (pyround_int n ndigits). now apply pyround_mono.
Qed.

(** ** The order of the rows *)

Lemma sorted_desc_sorted {A} (key : A -> Q) (l : list A) :
  StronglySorted (fun x y => key y <= key x) (sorted_desc key l).
Proof.
  eapply StronglySorted_weaken;
    [|apply sort_by_sorted with (leb := fun x y => Qle_bool (key y) (key x))].
  - intros x y H. now apply Qle_bool_iff.
  - intros x y. rewrite !Qle_bool_iff.
    destruct (Qlt_le_dec (key x) (key y)); [right; lra | now left].
  - intros x y z. rewrite !Qle_bool_iff. lra.
Qed.



Lemma filter_filter {A} (p q : A -> bool) (l : list A) :
  filter p (filter q l) = filter (fun x => q x && p x) l.
Proof.
  induction l as [|x l IH]; simpl; [reflexivity|].
  destruct (q x); simpl; [destruct (p x); now rewrite IH | exact IH].
Qed.

Lemma mem_keys_app (ks : list string) (k y : string) :
  negb (existsb (String.eqb y) (ks ++ [k])) =
  negb (String.eqb k y) && negb (existsb (String.eqb y) ks).
Proof.
  rewrite existsb_app. simpl. rewrite orb_false_r, negb_orb.
  rewrite (String.eqb_sym y k). apply andb_comm.
Qed.

Section KeyOrder.
Context {A V : Type}.
Variable dflt : V.
Variable key : A -> option string.
Variable upd : A -> V -> V.

Lemma keys_group_by_from (l : list A) (d : dict V) :
  keys (group_by dflt key upd l d) =
  keys d ++ filter (fun y => negb (existsb (String.eqb y) (keys d)))
                   (first_seen (somes (map key l))).
Proof.
  revert d. induction l as [|x l IH]; intros d.
  - simpl. now rewrite app_nil_r.
  - unfold group_by in *. simpl fold_left. rewrite IH. unfold group_step.
    simpl map. destruct (key x) as [k|]; simpl somes; [|reflexivity].
    unfold dd_update. rewrite keys_dict_set.
    simpl first_seen. simpl filter.
    destruct (in_dec string_dec k (keys d)) as [Hin|Hn].
    + assert (E : existsb (String.eqb k) (keys d) = true).
      { apply existsb_exists. exists k. split; [exact Hin|].
        apply String.eqb_refl. }
      rewrite E. simpl. f_equal. rewrite filter_filter.
      apply filter_ext. intros y.
      destruct (String.eqb k y) eqn:Ek; [|reflexivity].
      apply String.eqb_eq in Ek. subst y. now rewrite E.
    + assert (E : existsb (String.eqb k) (keys d) = false).
      { destruct (existsb (String.eqb k) (keys d)) eqn:E'; [|reflexivity].
        apply existsb_exists in E'. destruct E' as [z [Hz Ez]].
        apply String.eqb_eq in Ez. subst z. contradiction. }
      rewrite E. simpl. rewrite <- app_assoc. simpl. do 2 f_equal.
      rewrite filter_filter. apply filter_ext. intros y.
      apply mem_keys_app.
Qed.

(** The keys of the dictionary of a grouping loop are in the order of
    their first element. *)
Lemma keys_group_by (l : list A) :
  keys (group_by dflt key upd l []) = first_seen (somes (map key l)).
Proof.
  rewrite keys_group_by_from. simpl.
  generalize (first_seen (somes (map key l))). intros r.
  induction r as [|x r IH]; simpl; [reflexivity | now rewrite IH].
Qed.
End KeyOrder.



Lemma filter_map_comm {A B} (f : A -> B) (p : B -> bool) (l : list A) :
  filter p (map f l) = map f (filter (fun x => p (f x)) l).
Proof.
  induction l as [|x l IH]; simpl; [reflexivity|].
  destruct (p (f x)); simpl; now rewrite IH.
Qed.



(** X2. The rows of [analyze_market_impact], of
    [analyze_position_changes] and of [classify_traders] are in descending
    order of [total_impact_pct], of [flips] and of [volume]. *)
Theorem leaderboards_sorted (trades : list Trade) (pnl_data : list PnlRow.t) :
  (forallb impact_wf trades = true ->
   exists rows,
     analyze_market_impact trades = Ok rows /\
     StronglySorted
       (fun a b => ImpactRow.total_impact_pct b <= ImpactRow.total_impact_pct a)
       rows) /\
  (forallb flips_wf trades = true ->
   exists rows,
     analyze_position_changes trades = Ok rows /\
     StronglySorted (fun a b => (FlipRow.flips b <= FlipRow.flips a)%nat)
       rows) /\
  (forallb stats_wf trades = true ->
   exists rows,
     classify_traders trades pnl_data = Ok rows /\
     StronglySorted (fun a b => ClassRow.volume b <= ClassRow.volume a) rows).
Proof.
  split; [|split]; intros Hwf.
  - eexists. split; [now apply analyze_market_impact_wf|].
    apply sorted_desc_sorted.
  - eexists. split; [now apply analyze_position_changes_wf|].
    eapply StronglySorted_weaken; [|apply sorted_desc_sorted].
    intros a b H. simpl in H. rewrite <- Zle_Qle in H. lia.
  - destruct (classify_traders_wf trades pnl_data Hwf) as [s [_ [_ [_ H]]]].
    eexists. split; [exact H|]. apply sorted_desc_sorted.
Qed.

Lemma leaderboards_sorted_witness :
  exists rows,
    analyze_position_changes flip_trades = Ok rows /\
    StronglySorted (fun a b => (FlipRow.flips b <= FlipRow.flips a)%nat) rows.
Proof.
  exact (proj1 (proj2 (leaderboards_sorted flip_trades [])) eq_refl).
Defined.

(** ** Totals *)

Section DictSum.
Context {V : Type}.
Variable m : V -> Q.
Variable dflt : V.
Hypothesis m_dflt : m dflt == 0.


End DictSum.







Section DictCount.
Context {V : Type}.
Variable m : V -> nat.
Variable dflt : V.
Hypothesis m_dflt : m dflt = 0%nat.

Lemma dict_count_set (d : dict V) (k : string) (v : V) :
  (list_sum (map (fun e => m (snd e)) (dict_set d k v)) + m (dd_get dflt d k)
   = list_sum (map (fun e => m (snd e)) d) + m v)%nat.
Proof.
  induction d as [|[k' v'] d IH]; simpl.
  - unfold dd_get. simpl. lia.
  - unfold dd_get in *. simpl. destruct (String.eqb k' k); simpl; lia.
Qed.

Lemma dict_count_group_by {A} (key : A -> option string) (upd : A -> V -> V)
  (l : list A) (d : dict V) :
  (forall x v, m (upd x v) = S (m v)) ->
  (list_sum (map (fun e => m (snd e)) (group_by dflt key upd l d))
   = list_sum (map (fun e => m (snd e)) d)
     + List.length (filter (fun x => present (key x)) l))%nat.
Proof.
  intros Hupd. revert d. induction l as [|x l IH]; intros d.
  - simpl. lia.
  - unfold group_by in *. simpl fold_left. rewrite IH. unfold group_step.
    simpl filter. destruct (key x) as [k|]; [|reflexivity].
    cbn [present List.length]. unfold dd_update.
    pose proof (dict_count_set d k (upd x (dd_get dflt d k))) as H.
    rewrite Hupd in H. lia.
Qed.
End DictCount.

(** Of a trade that an analyzer accepts, the key is absent exactly for a
    redemption. *)
Lemma counted_non_redemption (wf : Trade -> bool) (trades : list Trade) :
  (forall t, wf t = true -> is_redemption t = false ->
             present (user t) = true) ->
  forallb wf trades = true ->
  filter (fun t => present (trader_key t)) trades = non_redemption trades.
Proof.
  intros Hu Hwf. unfold non_redemption. apply filter_ext_in. intros t Ht.
  rewrite forallb_forall in Hwf. specialize (Hwf t Ht).
  unfold trader_key. destruct (is_redemption t) eqn:E; [reflexivity|].
  now apply Hu.
Qed.

Lemma pnl_wf_user (t : Trade) :
  pnl_wf t = true -> is_redemption t = false -> present (user t) = true.
Proof.
  unfold pnl_wf. intros H E. rewrite E in H. simpl in H.
  now destruct (user t).
Qed.

Lemma pnl_trade_count_sum (trades : list Trade) (cp : Q)
  (rows : list PnlRow.t) :
  forallb pnl_wf trades = true ->
  estimate_pnl trades cp = Ok rows ->
  list_sum (map PnlRow.trade_count rows)
  = List.length (non_redemption trades).
Proof.
  intros Hwf Hrows.
  rewrite (estimate_pnl_wf _ _ Hwf) in Hrows. injection Hrows as <-.
  unfold sorted_desc.
  rewrite (Permutation_list_sum
             (Permutation_map _ (sort_by_perm _ _))).
  rewrite map_map.
  rewrite (map_ext _ (fun e => List.length (Pos.trades (snd e))))
    by (now intros [u pos]).
  rewrite (dict_count_group_by (fun p => List.length (Pos.trades p))
             Pos.default eq_refl).
  - simpl. f_equal. apply (counted_non_redemption pnl_wf); [|exact Hwf].
    apply pnl_wf_user.
  - intros t p. unfold pnl_upd, append_trade.
    destruct (is_yes t); simpl; rewrite length_app; simpl; lia.
Qed.

Lemma pnl_users_order (trades : list Trade) (cp : Q) (rows : list PnlRow.t) :
  forallb pnl_wf trades = true ->
  estimate_pnl trades cp = Ok rows ->
  Permutation (map PnlRow.user rows) (trader_order trades).
Proof.
  intros Hwf Hrows.
  rewrite (estimate_pnl_wf _ _ Hwf) in Hrows. injection Hrows as <-.
  unfold sorted_desc. rewrite sort_by_perm, map_map.
  rewrite (map_ext _ fst) by (intros e; apply pnl_row_of_user).
  unfold trader_order.
  rewrite <- (keys_group_by Pos.default trader_key pnl_upd).
  reflexivity.
Qed.

(** X3. The [trade_count] values of the rows of [estimate_pnl] add up to
    the number of non-redemption trades: every such trade is counted for
    exactly one trader. *)
Theorem pnl_trade_counts_add_up (trades : list Trade) (current_prob : Q)
  (Hwf : forallb pnl_wf trades = true) :
  exists rows,
    estimate_pnl trades current_prob = Ok rows /\
    (forall r, In r rows ->
       PnlRow.trade_count r = trade_count_of (PnlRow.user r) trades) /\
    list_sum (map PnlRow.trade_count rows)
    = List.length (non_redemption trades).
Proof.
  destruct (estimate_pnl_rows trades current_prob Hwf)
    as [rows [Hrows [_ Hin]]].
  exists rows. split; [exact Hrows|]. split.
  - intros r Hr. apply Hin in Hr. destruct Hr as [_ Hr].
    remember (PnlRow.user r) as u eqn:Eu. clear Eu. now subst r.
  - now apply (pnl_trade_count_sum trades current_prob).
Qed.

Lemma pnl_trade_counts_add_up_witness :
  exists rows,
    estimate_pnl flip_trades 0.5 = Ok rows /\
    list_sum (map PnlRow.trade_count rows) = 8%nat.
Proof.
  destruct (pnl_trade_counts_add_up flip_trades 0.5 eq_refl)
    as [rows [Hrows [_ Hsum]]].
  exists rows. split; [exact Hrows | exact Hsum].
Defined.








(** ** More on the Timing Analyzer *)


Lemma filter_enumerate_snd {A} (p : A -> bool) (l : list A) :
  map snd (filter (fun it => p (snd it)) (enumerate l)) = filter p l.
Proof.
  rewrite <- filter_map_comm. unfold enumerate.
  now rewrite map_snd_combine_seq.
Qed.

Lemma length_trader_indices (u : string) (trades : list Trade) :
  List.length (trader_indices u (sort_by_timestamp trades))
  = trade_count_of u trades.
Proof.
  unfold trader_indices, trade_count_of. rewrite length_map.
  rewrite <- (length_map snd), filter_enumerate_snd.
  apply Permutation_length, Permutation_filter, sort_by_timestamp_perm.
Qed.

Lemma count_if_partition (q1 q3 : nat) (l : list nat) :
  (q1 <= q3)%nat ->
  (count_if (fun i => i <? q1) l
   + count_if (fun i => (q1 <=? i) && (i <? q3)) l
   + count_if (fun i => q3 <=? i) l = List.length l)%nat.
Proof.
  intros Hq. unfold count_if. induction l as [|i l IH]; simpl; [reflexivity|].
  destruct (i <? q1) eqn:E1; destruct (q1 <=? i) eqn:E1';
    destruct (i <? q3) eqn:E3; destruct (q3 <=? i) eqn:E3'; simpl;
    rewrite ?Nat.ltb_lt, ?Nat.ltb_ge, ?Nat.leb_le, ?Nat.leb_gt in *; lia.
Qed.



Lemma timing_users_order (trades : list Trade) :
  map fst (timing_dict (sort_by_timestamp trades))
  = trader_order (sort_by_timestamp trades).
Proof.
  unfold timing_dict. fold (keys (group_by Timing.default
    (fun it : nat * Trade => trader_key (snd it))
    (fun it => timing_update
                 (List.length (sort_by_timestamp trades) / 4)
                 (List.length (sort_by_timestamp trades) * 3 / 4) (fst it))
    (enumerate (sort_by_timestamp trades)) [])).
  rewrite keys_group_by. unfold trader_order. do 2 f_equal.
  rewrite <- (map_map snd trader_key). unfold enumerate.
  now rewrite map_snd_combine_seq.
Qed.

(** X5. The rows of [analyze_timing] are not sorted: they come in the
    order of the traders' first non-redemption trade in the timestamp
    order.  In every row [early_trades + mid_trades + late_trades] is the
    trader's number of non-redemption trades: every trade falls in exactly
    one bucket. *)
Theorem timing_rows_order_and_buckets (trades : list Trade)
  (Hne : trades <> [])
  (Hwf : forallb timing_wf trades = true) :
  exists rows,
    analyze_timing trades = Ok rows /\
    map TimingRow.user rows = trader_order (sort_by_timestamp trades) /\
    forall r, In r rows ->
      (TimingRow.early_trades r + TimingRow.mid_trades r
       + TimingRow.late_trades r
       = trade_count_of (TimingRow.user r) trades)%nat.
Proof.
  eexists. split; [now apply analyze_timing_wf|]. split.
  - rewrite map_map.
    rewrite (map_ext _ fst) by (intros e; apply timing_row_of_user).
    apply timing_users_order.
  - intros r Hr. apply in_map_iff in Hr. destruct Hr as [[u data] [<- Hin]].
    apply In_group_by in Hin. destruct Hin as [_ Hd].
    change (data = timing_data u (sort_by_timestamp trades)) in Hd.
    subst data.
    cbn [timing_row_of TimingRow.early_trades TimingRow.mid_trades
         TimingRow.late_trades TimingRow.user].
    destruct (timing_counters (sort_by_timestamp trades)
                (List.length (sort_by_timestamp trades)) u eq_refl)
      as [He [Hm Hl]].
    rewrite He, Hm, Hl.
    rewrite count_if_partition by apply quartile_cutoffs_le.
    apply length_trader_indices.
Qed.

Lemma timing_rows_order_and_buckets_witness :
  exists rows,
    analyze_timing twelve_trades_spread = Ok rows /\
    map TimingRow.user rows = ["dave"; "carol"]%string.
Proof.
  assert (Hne : twelve_trades_spread <> []) by discriminate.
  destruct (timing_rows_order_and_buckets twelve_trades_spread Hne eq_refl)
    as [rows [Hrows [Horder _]]].
  exists rows. split; [exact Hrows|]. rewrite Horder. reflexivity.
Defined.




(** ** More on the Position-Flip Detector *)

Lemma walk_flips_adjacent (a : string) (l : list string) :
  walk_flips a l = adjacent_changes (a :: l).
Proof.
  revert a. induction l as [|o l IH]; intros a; [reflexivity|].
  cbn [walk_flips]. change (adjacent_changes (a :: o :: l))
    with ((if String.eqb a o then 0 else 1) + adjacent_changes (o :: l))%nat.
  rewrite (String.eqb_sym a o). destruct (String.eqb o a) eqn:E.
  - apply String.eqb_eq in E. subst o. now rewrite IH.
  - now rewrite IH.
Qed.

Lemma adjacent_changes_bound (l : list string) :
  (adjacent_changes l <= List.length l - 1)%nat.
Proof.
  induction l as [|a [|b l] IH]; [simpl; lia | simpl; lia|].
  change (adjacent_changes (a :: b :: l))
    with ((if String.eqb a b then 0 else 1) + adjacent_changes (b :: l))%nat.
  simpl List.length in *. destruct (String.eqb a b); lia.
Qed.

Lemma adjacent_changes_zero (a : string) (l : list string) :
  adjacent_changes (a :: l) = 0%nat <-> Forall (eq a) l.
Proof.
  revert a. induction l as [|b l IH]; intros a.
  - split; [constructor | reflexivity].
  - change (adjacent_changes (a :: b :: l))
      with ((if String.eqb a b then 0 else 1) + adjacent_changes (b :: l))%nat.
    destruct (String.eqb a b) eqn:E.
    + apply String.eqb_eq in E. subst b. rewrite Nat.add_0_l, IH. split.
      * intros H. now constructor.
      * intros H. now inversion H.
    + apply String.eqb_neq in E. split; [lia|].
      intros H. inversion H. contradiction.
Qed.

Lemma last_default {A} (l : list A) (a b : A) :
  l <> [] -> last l a = last l b.
Proof.
  induction l as [|x [|y l] IH]; intros H; [congruence | reflexivity|].
  change (last (x :: y :: l) a) with (last (y :: l) a).
  change (last (x :: y :: l) b) with (last (y :: l) b).
  apply IH. discriminate.
Qed.

Lemma last_map {A B} (f : A -> B) (l : list A) (d : A) :
  last (map f l) (f d) = f (last l d).
Proof.
  induction l as [|x [|y l] IH]; [reflexivity | reflexivity|].
  change (last (map f (x :: y :: l)) (f d)) with (last (map f (y :: l)) (f d)).
  now rewrite IH.
Qed.

Lemma flip_row_of_positions (u : string) (history : list Hist.t)
  (r : FlipRow.t) :
  flip_row_of (u, history) = Some r ->
  FlipRow.first_position r = hd EmptyString (map Hist.outcome history) /\
  FlipRow.final_position r = last (map Hist.outcome history) EmptyString /\
  FlipRow.avg_yes_entry_prob r = pyround (avg_entry_val "YES" history) 1 /\
  FlipRow.avg_no_entry_prob r = pyround (avg_entry_val "NO" history) 1.
Proof.
  destruct history as [|first [|second rest]]; try discriminate.
  unfold flip_row_of. intros [= <-].
  cbn [FlipRow.first_position FlipRow.final_position
       FlipRow.avg_yes_entry_prob FlipRow.avg_no_entry_prob].
  split; [reflexivity|]. split; [|split; reflexivity].
  rewrite (last_default (map Hist.outcome (first :: second :: rest))
             EmptyString (Hist.outcome first)) by discriminate.
  rewrite last_map.
  change (last (first :: second :: rest) first)
    with (last (second :: rest) first).
  reflexivity.
Qed.

(** The rows of [analyze_position_changes], one by one. *)
Lemma flip_rows (trades : list Trade) :
  forallb flips_wf trades = true ->
  exists rows,
    analyze_position_changes trades = Ok rows /\
    forall r, In r rows <->
      exists u,
        traders (sort_by_timestamp trades) u /\
        flip_row_of
          (u, map hist_entry (trades_of u (sort_by_timestamp trades)))
        = Some r.
Proof.
  intros Hwf. eexists. split; [now apply analyze_position_changes_wf|].
  intros r. rewrite In_sorted_desc, In_somes, in_map_iff. split.
  - intros [[u h] [Hf Hin]]. apply history_entries in Hin.
    destruct Hin as [Hu ->]. exists u. auto.
  - intros [u [Hu Hf]]. eexists. split; [exact Hf|].
    now apply history_entries.
Qed.

Lemma map_outcome_hist (l : list Trade) :
  map Hist.outcome (map hist_entry l) = map outcome_of l.
Proof. rewrite map_map. reflexivity. Qed.

(** X7. In every row of [analyze_position_changes], [flips] is the number
    of consecutive trades of the trader with different outcomes, hence at
    most [trade_count - 1], and [0] exactly when all outcomes are the
    first one; [first_position] and [final_position] are the outcomes of
    the trader's first and last trade in timestamp order; a flipper has at
    least 3 trades. *)
Theorem flips_are_adjacent_changes (trades : list Trade)
  (Hwf : forallb flips_wf trades = true) :
  exists rows,
    analyze_position_changes trades = Ok rows /\
    forall r, In r rows ->
      let outcomes :=
        map outcome_of
            (trades_of (FlipRow.user r) (sort_by_timestamp trades)) in
      FlipRow.flips r = adjacent_changes outcomes /\
      (FlipRow.flips r <= FlipRow.trade_count r - 1)%nat /\
      FlipRow.first_position r = hd EmptyString outcomes /\
      FlipRow.final_position r = last outcomes EmptyString /\
      (FlipRow.flips r = 0%nat <->
       Forall (eq (FlipRow.first_position r)) outcomes) /\
      (FlipRow.is_flipper r = true -> (3 <= FlipRow.trade_count r)%nat).
Proof.
  destruct (flip_rows trades Hwf) as [rows [Hrows Hin]].
  exists rows. split; [exact Hrows|].
  intros r Hr. apply Hin in Hr. destruct Hr as [u [_ Hf]].
  destruct (flip_row_of_Some _ _ _ Hf) as [H2 [Hu [Hc [Hfl Hfp]]]].
  destruct (flip_row_of_positions _ _ _ Hf) as [Hfirst [Hlast _]].
  rewrite map_outcome_hist in Hfl, Hfirst, Hlast.
  rewrite length_map in Hc, H2. cbv zeta. rewrite Hu.
  set (outcomes := map outcome_of (trades_of u (sort_by_timestamp trades)))
    in *.
  assert (Hlen : List.length outcomes
                 = List.length (trades_of u (sort_by_timestamp trades))).
  { unfold outcomes. apply length_map. }
  assert (Ha : FlipRow.flips r = adjacent_changes outcomes).
  { rewrite Hfl. destruct outcomes as [|a l]; [reflexivity|].
    apply walk_flips_adjacent. }
  pose proof (adjacent_changes_bound outcomes) as Hb.
  split; [exact Ha|]. split; [lia|]. split; [exact Hfirst|].
  split; [exact Hlast|]. split.
  - rewrite Ha, Hfirst. destruct outcomes as [|a l]; [simpl in Hlen; lia|].
    simpl hd. rewrite adjacent_changes_zero. split.
    + intros H. now constructor.
    + intros H. now inversion H.
  - rewrite Hfp. intros H. apply Nat.leb_le in H. lia.
Qed.

Lemma flips_are_adjacent_changes_witness :
  exists rows,
    analyze_position_changes flip_trades = Ok rows /\
    forall r, In r rows ->
      (FlipRow.flips r <= FlipRow.trade_count r - 1)%nat.
Proof.
  destruct (flips_are_adjacent_changes flip_trades eq_refl)
    as [rows [Hrows Hr]].
  exists rows. split; [exact Hrows|].
  intros r Hin. apply (Hr r Hin).
Defined.






(** ** More on the Market-Impact Analyzer *)









(** ** More on the Trader Classifier *)

Lemma trader_types_shape (th v : Q) (n : nat) (y roi : Q) :
  let ts := trader_types th v n y roi in
  ts = filter (fun l => has_label l ts) all_labels /\
  (1 <= List.length ts <= 4)%nat.
Proof.
  unfold trader_types.
  destruct (Qle_bool th v), (20 <=? n)%nat, (Qle_bool 80 y), (Qle_bool y 20),
    (Qlt_bool 50 roi), (Qlt_bool roi (-30));
    cbv zeta; split; try reflexivity; simpl; lia.
Qed.

Lemma filter_sublist_NoDup {A} (p : A -> bool) (l : list A) :
  NoDup l -> NoDup (filter p l).
Proof.
  induction 1 as [|x l Hx Hl IH]; simpl; [constructor|].
  destruct (p x); [|exact IH]. constructor; [|exact IH].
  intros H. apply filter_In in H. tauto.
Qed.

(** X10. The label list of every row of [classify_traders] is never
    empty, has at most 4 labels and no label twice, and lists its labels
    in the fixed order WHALE, ACTIVE, BULL, BEAR, WINNER, LOSER, RETAIL. *)
Theorem class_row_labels_shape (trades : list Trade)
  (pnl_data : list PnlRow.t)
  (Hwf : forallb stats_wf trades = true) :
  exists rows,
    classify_traders trades pnl_data = Ok rows /\
    forall r, In r rows ->
      let types := ClassRow.types r in
      types = filter (fun l => has_label l types) all_labels /\
      (1 <= List.length types <= 4)%nat /\
      NoDup types /\
      (forall l, In l types -> In l all_labels).
Proof.
  destruct (classify_traders_wf trades pnl_data Hwf)
    as [stats [_ [_ [_ Hrows]]]].
  eexists. split; [exact Hrows|].
  intros r Hr. apply In_sorted_desc, in_map_iff in Hr.
  destruct Hr as [[u s] [<- _]]. cbv zeta. cbn [class_row ClassRow.types].
  destruct (trader_types_shape
              (whale_threshold_of (map Stats.volume (values stats)))
              (Stats.volume s) (Stats.trades s) (Stats.yes_pct s)
              (pnl_get (dict_get (pnl_lookup_of pnl_data) u) PnlRow.roi_pct 0))
    as [Hshape Hlen].
  split; [exact Hshape|]. split; [exact Hlen|].
  rewrite Hshape. split.
  - apply filter_sublist_NoDup. unfold all_labels.
    repeat constructor; simpl; intuition discriminate.
  - intros l Hl. apply filter_In in Hl. tauto.
Qed.

Lemma class_row_labels_shape_witness :
  exists rows,
    classify_traders retail_trades [zoe_pnl] = Ok rows /\
    forall r, In r rows -> NoDup (ClassRow.types r).
Proof.
  destruct (class_row_labels_shape retail_trades [zoe_pnl] eq_refl)
    as [rows [Hrows Hr]].
  exists rows. split; [exact Hrows|].
  intros r Hin. apply (Hr r Hin).
Defined.

Lemma sorted_desc_nth_ge (s : list Q) (i k : nat) :
  StronglySorted (fun a b => b <= a) s ->
  (i <= k)%nat -> (k < List.length s)%nat -> nth k s 0 <= nth i s 0.
Proof.
  intros Hs. revert i k. induction Hs as [|a s Hs IH Ha]; intros i k Hik Hk.
  - simpl in Hk. lia.
  - destruct k as [|k'].
    + assert (i = 0%nat) by lia. subst i. apply Qle_refl.
    + simpl in Hk. destruct i as [|i']; simpl.
      * rewrite Forall_forall in Ha. apply Ha. apply nth_In. lia.
      * apply IH; lia.
Qed.

Lemma filter_length_prefix {A} (p : A -> bool) (s : list A) (d : A) (k : nat) :
  (k < List.length s)%nat ->
  (forall i, (i <= k)%nat -> p (nth i s d) = true) ->
  (k + 1 <= List.length (filter p s))%nat.
Proof.
  revert k. induction s as [|a s IH]; intros k Hk Hp; [simpl in Hk; lia|].
  assert (Ha : p a = true) by (apply (Hp 0%nat); lia).
  simpl. rewrite Ha. simpl.
  destruct k as [|k']; [lia|].
  assert ((k' + 1 <= List.length (filter p s))%nat); [|lia].
  apply IH; [simpl in Hk; lia|].
  intros i Hi. apply (Hp (S i)). lia.
Qed.

Lemma whale_threshold_count (volumes : list Q) :
  (Nat.min 11 (List.length volumes)
   <= List.length (filter (Qle_bool (whale_threshold_of volumes)) volumes))%nat.
Proof.
  destruct volumes as [|v0 vs]; [simpl; lia|].
  remember (v0 :: vs) as volumes eqn:Ev.
  assert (Hpos : (0 < List.length volumes)%nat) by (subst; simpl; lia).
  set (s := sorted_desc (fun v => v) volumes).
  set (k := Nat.min 10 (List.length volumes - 1)).
  assert (Hth : whale_threshold_of volumes = nth k s 0) by now subst volumes.
  assert (Hlen : List.length s = List.length volumes)
    by apply length_sort_by.
  assert (Hperm : Permutation s volumes) by apply sort_by_perm.
  rewrite <- (Permutation_length (Permutation_filter _ _ _ Hperm)).
  replace (Nat.min 11 (List.length volumes)) with (k + 1)%nat
    by (unfold k; lia).
  apply filter_length_prefix with (d := 0); [unfold k; lia|].
  intros i Hi. apply Qle_bool_iff. rewrite Hth.
  apply sorted_desc_nth_ge; [|exact Hi | unfold k; lia].
  apply (sorted_desc_sorted (fun v => v)).
Qed.

(** X11. At least [min(11, number of traders)] rows of
    [classify_traders] carry the label WHALE: the threshold is the volume
    of rank 11, so the eleven largest volumes, and every volume equal to
    the eleventh, reach it. *)
Theorem at_least_eleven_whales (trades : list Trade)
  (pnl_data : list PnlRow.t)
  (Hwf : forallb stats_wf trades = true) :
  exists rows,
    classify_traders trades pnl_data = Ok rows /\
    List.length rows = List.length (trader_order trades) /\
    (Nat.min 11 (List.length rows)
     <= List.length (filter is_whale rows))%nat.
Proof.
  unfold classify_traders. rewrite (trader_stats_of_wf _ _ Hwf).
  cbn [bind]. eexists. split; [reflexivity|].
  set (stats := map (with_yes_pct (pnl_lookup_of pnl_data))
                    (group_by Stats.default trader_key stats_upd trades [])).
  set (th := whale_threshold_of (map Stats.volume (values stats))).
  assert (Hn : List.length stats = List.length (trader_order trades)).
  { unfold stats, trader_order. rewrite length_map.
    rewrite <- (keys_group_by Stats.default trader_key stats_upd).
    unfold keys. now rewrite length_map. }
  unfold sorted_desc. rewrite length_sort_by, length_map.
  split; [exact Hn|].
  rewrite (Permutation_length
             (Permutation_filter is_whale _ _ (sort_by_perm _ _))).
  rewrite filter_map_comm, length_map.
  rewrite (filter_ext _ (fun e => Qle_bool th (Stats.volume (snd e)))).
  - pose proof (whale_threshold_count (map Stats.volume (values stats))) as H.
    fold th in H. unfold values in H. rewrite map_map in H.
    rewrite filter_map_comm, !length_map in H. exact H.
  - intros [u s]. unfold is_whale. cbn [class_row ClassRow.types snd].
    apply trader_types_labels.
Qed.

Lemma at_least_eleven_whales_witness :
  exists rows,
    classify_traders retail_trades [zoe_pnl] = Ok rows /\
    (11 <= List.length (filter is_whale rows))%nat.
Proof.
  destruct (at_least_eleven_whales retail_trades [zoe_pnl] eq_refl)
    as [rows [Hrows [Hlen Hcount]]].
  exists rows. split; [exact Hrows|].
  rewrite Hlen in Hcount. exact Hcount.
Defined.

(** ** The P&L rows joined by the classifier *)

Lemma pnl_lookup_fold_other (l : list PnlRow.t) (d : dict PnlRow.t)
  (u : string) :
  ~ In u (map PnlRow.user l) ->
  dict_get (fold_left (fun d p => dict_set d (PnlRow.user p) p) l d) u
  = dict_get d u.
Proof.
  revert d. induction l as [|p l IH]; intros d Hn; simpl; [reflexivity|].
  rewrite IH by (intros H; apply Hn; now right).
  apply dict_get_set_other. intros E. apply Hn. now left.
Qed.

(** A lookup of [{p['user']: p for p in pnl_data}] when no user occurs
    twice. *)
Lemma pnl_lookup_In (l : list PnlRow.t) (p : PnlRow.t) :
  NoDup (map PnlRow.user l) -> In p l ->
  dict_get (pnl_lookup_of l) (PnlRow.user p) = Some p.
Proof.
  unfold pnl_lookup_of. generalize (@nil (string * PnlRow.t)).
  induction l as [|q l IH]; intros d Hnd Hin; [destruct Hin|].
  simpl in Hnd. inversion Hnd as [|? ? Hq Hnd']; subst. simpl.
  destruct Hin as [->|Hin].
  - rewrite pnl_lookup_fold_other by exact Hq. apply dict_get_set_same.
  - now apply IH.
Qed.

Lemma pnl_wf_stats_wf (trades : list Trade) :
  forallb pnl_wf trades = true -> forallb stats_wf trades = true.
Proof.
  rewrite !forallb_forall. intros H t Ht. specialize (H t Ht).
  unfold pnl_wf, stats_wf in *. destruct (is_redemption t); [reflexivity|].
  simpl in *. destruct (user t), (amount t); simpl in *; congruence.
Qed.

Lemma classification_join_rows (trades : list Trade) (current_prob : Q)
  (Hwf : forallb pnl_wf trades = true) :
  exists pnl rows,
    estimate_pnl trades current_prob = Ok pnl /\
    classify_traders trades pnl = Ok rows /\
    Permutation (map ClassRow.user rows) (map PnlRow.user pnl) /\
    forall c, In c rows ->
      exists p,
        In p pnl /\ PnlRow.user p = ClassRow.user c /\
        ClassRow.estimated_pnl c = PnlRow.estimated_pnl p /\
        ClassRow.roi_pct c = PnlRow.roi_pct p /\
        ClassRow.yes_pct c =
          pyround (if Qlt_bool 0 (PnlRow.total_cost p)
                   then PnlRow.yes_cost p / PnlRow.total_cost p * 100
                   else 50) 1.
Proof.
  destruct (estimate_pnl_rows trades current_prob Hwf)
    as [pnl [Hpnl [Hnd Hin]]].
  assert (Hperm : Permutation (map PnlRow.user pnl) (trader_order trades))
    by now apply (pnl_users_order trades current_prob).
  exists pnl. unfold classify_traders.
  rewrite (trader_stats_of_wf _ _ (pnl_wf_stats_wf _ Hwf)). cbn [bind].
  eexists. split; [exact Hpnl|]. split; [reflexivity|]. split.
  - rewrite Hperm. unfold sorted_desc. rewrite sort_by_perm, !map_map.
    rewrite (map_ext _ fst) by (now intros [u s]).
    unfold trader_order.
    rewrite <- (keys_group_by Stats.default trader_key stats_upd).
    reflexivity.
  - intros c Hc. apply In_sorted_desc, in_map_iff in Hc.
    destruct Hc as [[u s] [<- Hs]]. apply stats_entries in Hs.
    destruct Hs as [Hu ->].
    set (p := pnl_row_of current_prob (u, position_of u trades)).
    assert (Hp : In p pnl) by (apply Hin; simpl; auto).
    assert (Hl : dict_get (pnl_lookup_of pnl) u = Some p).
    { apply (pnl_lookup_In pnl p Hnd Hp). }
    exists p. split; [exact Hp|]. split; [reflexivity|].
    cbn [class_row ClassRow.estimated_pnl ClassRow.roi_pct ClassRow.yes_pct
         ClassRow.user Stats.yes_pct].
    unfold yes_pct_val. rewrite Hl. cbn [pnl_get]. repeat split.
Qed.



(** ** The report *)

Lemma report_wf_all (trades : list Trade) :
  forallb report_wf trades = true <->
  forallb pnl_wf trades = true /\ forallb timing_wf trades = true /\
  forallb impact_wf trades = true /\ forallb flips_wf trades = true.
Proof.
  rewrite !forallb_forall. unfold report_wf. split.
  - intros H. repeat split; intros t Ht; specialize (H t Ht);
      rewrite !andb_true_iff in H; tauto.
  - intros [H1 [H2 [H3 H4]]] t Ht.
    rewrite (H1 t Ht), (H2 t Ht), (H3 t Ht), (H4 t Ht). reflexivity.
Qed.

(** The five analyses of [main] return together, or a [KeyError] stops
    them. *)
Lemma run_analyses_returns (trades : list Trade) (cp : Q) :
  (forallb report_wf trades = true /\
   exists pnl timing impact positions classifications,
     estimate_pnl trades cp = Ok pnl /\
     analyze_timing trades = Ok timing /\
     analyze_market_impact trades = Ok impact /\
     analyze_position_changes trades = Ok positions /\
     classify_traders trades pnl = Ok classifications /\
     run_analyses trades cp
     = Ok (pnl, timing, impact, positions, classifications)) \/
  (forallb report_wf trades = false /\
   exists k, run_analyses trades cp = Raise (KeyError k)).
Proof.
  unfold run_analyses.
  destruct (forallb report_wf trades) eqn:E.
  - left. split; [reflexivity|]. apply report_wf_all in E.
    destruct E as [H1 [H2 [H3 H4]]].
    destruct (estimate_pnl_returns trades cp) as [[_ [pnl Hp]]|[F _]];
      [|congruence].
    destruct (analyze_timing_returns trades) as [[_ [timing Ht]]|[F _]];
      [|congruence].
    destruct (analyze_market_impact_returns trades)
      as [[_ [impact Hi]]|[F _]]; [|congruence].
    destruct (analyze_position_changes_returns trades)
      as [[_ [positions Hf]]|[F _]]; [|congruence].
    destruct (classify_traders_returns trades pnl)
      as [[_ [cls Hc]]|[F _]];
      [|rewrite (pnl_wf_stats_wf _ H1) in F; discriminate].
    exists pnl, timing, impact, positions, cls.
    rewrite Hp, Ht, Hi, Hf. cbn [bind]. rewrite Hc. repeat split.
  - right. split; [reflexivity|].
    destruct (estimate_pnl_returns trades cp) as [[W1 [pnl ->]]|[_ [k ->]]];
      [|now exists k].
    destruct (analyze_timing_returns trades) as [[W2 [timing ->]]|[_ [k ->]]];
      [|now exists k].
    destruct (analyze_market_impact_returns trades)
      as [[W3 [impact ->]]|[_ [k ->]]]; [|now exists k].
    destruct (analyze_position_changes_returns trades)
      as [[W4 [positions ->]]|[_ [k ->]]]; [|now exists k].
    exfalso. assert (H : forallb report_wf trades = true)
      by (apply report_wf_all; auto).
    congruence.
Qed.

(** X13. [main] returns exactly when the document has [trades] and a
    [summary] with a [market_title], every trade carries the fields that
    all five analyses read, and the output is not the timing of an empty
    collection.  All five analyses run whatever [--output] selects, so a
    record that only one of them cannot read stops every output.  What
    stops [main] is a [KeyError] or the slice of the dictionary that
    [analyze_timing] returns, never a division by zero. *)
Theorem main_returns_iff (data : Data.t) (args : Args.t) :
  ((exists out, main data args = Returned out) <->
   exists trades s title,
     Data.trades data = Some trades /\
     Data.summary data = Some s /\
     Summary.market_title s = Some title /\
     forallb report_wf trades = true /\
     ~ (Args.output args = OutputTiming /\ trades = [])) /\
  (forall f, main data args = Aborted f ->
     f = SliceOfDict \/ exists k, f = Raised (KeyError k)).
Proof.
  unfold main, main_inputs.
  destruct (Data.trades data) as [trades|]; cbn [getitem bind].
  2:{ split; [split|].
      - intros [out H]. discriminate H.
      - intros [t [s [ti [H _]]]]. discriminate H.
      - intros f [= <-]. right. now eexists. }
  destruct (Data.summary data) as [s|].
  2:{ destruct (Args.current_prob args); cbn [getitem bind];
        (split; [split|];
         [intros [out H]; discriminate H
         |intros [t [s [ti [_ [H _]]]]]; discriminate H
         |intros f [= <-]; right; now eexists]). }
  assert (Hcp : exists cp,
    match Args.current_prob args with
    | Some p => Ok p
    | None => s0 <- getitem (Some s) "summary" ;;
              pydiv (field_or 50 (Summary.current_probability s0)) 100
    end = Ok cp).
  { destruct (Args.current_prob args); [now eexists|].
    cbn [getitem bind]. rewrite pydiv_100. now eexists. }
  destruct Hcp as [cp ->]. cbn [getitem bind].
  destruct (Summary.market_title s) as [title|] eqn:Et; cbn [getitem bind].
  2:{ split; [split|].
      - intros [out H]. discriminate H.
      - intros [t [s' [ti [_ [[= <-] [H _]]]]]]. congruence.
      - intros f [= <-]. right. now eexists. }
  destruct (run_analyses_returns trades cp)
    as [[Hwf [pnl [timing [impact [positions [cls [_ [_ [_ [_ [_ ->]]]]]]]]]]]
       |[Hwf [k ->]]]; cbn [bind].
  - assert (Hex : Args.output args <> OutputTiming \/ trades <> [] ->
              exists trades' s' title',
                Some trades = Some trades' /\ Some s = Some s' /\
                Summary.market_title s' = Some title' /\
                forallb report_wf trades' = true /\
                ~ (Args.output args = OutputTiming /\ trades' = [])).
    { intros Hor. exists trades, s, title. repeat split; auto.
      intros [H1 H2]. destruct Hor; contradiction. }
    destruct (Args.output args) eqn:Eo.
    1,2,4,5: (split; [split|];
       [intros _; apply Hex; left; discriminate
       |intros _; now eexists
       |intros f H; discriminate H]).
    destruct trades as [|t0 l].
    + split; [split|].
      * intros [out H]. discriminate H.
      * intros [t [s' [ti [[= <-] [_ [_ [_ H]]]]]]]. exfalso. apply H. auto.
      * intros f [= <-]. now left.
    + split; [split|].
      * intros _. apply Hex. right. discriminate.
      * intros _. now eexists.
      * intros f H. discriminate H.
  - split; [split|].
    + intros [out H]. discriminate H.
    + intros [t [s' [ti [[= <-] [_ [_ [H _]]]]]]]. congruence.
    + intros f [= <-]. right. now eexists.
Qed.

Lemma main_returns_iff_witness :
  (exists rows,
     estimate_pnl [buy "alice" 100 "YES" 25 30 1; redeem_no_timestamp] 0.5
     = Ok rows) /\
  ~ (exists out,
       main (market "m" [buy "alice" 100 "YES" 25 30 1; redeem_no_timestamp])
            (Args.mk (Some 0.5) OutputPnl 20) = Returned out).
Proof.
  split; [eexists; vm_compute; reflexivity|].
  intros H.
  apply (proj1 (main_returns_iff _ _)) in H.
  destruct H as [trades [s [title [[= <-] [_ [_ [H _]]]]]]].
  discriminate H.
Defined.

(** *** Slices *)

Lemma slice_to_prefix {A} (n : Z) (l : list A) :
  exists rest, l = slice_to n l ++ rest.
Proof.
  unfold slice_to. destruct (0 <=? n)%Z; eexists; symmetry;
    apply firstn_skipn.
Qed.

Lemma slice_to_length {A} (n : Z) (l : list A) :
  ((0 <= n)%Z ->
   List.length (slice_to n l) = Nat.min (Z.to_nat n) (List.length l)) /\
  ((n < 0)%Z ->
   List.length (slice_to n l) = (List.length l - Z.to_nat (- n))%nat).
Proof.
  unfold slice_to. split; intros H.
  - apply Z.leb_le in H. rewrite H. apply length_firstn.
  - apply Z.leb_gt in H. rewrite H. rewrite length_firstn.
    apply Z.leb_gt in H. lia.
Qed.

Lemma slice_to_In {A} (n : Z) (l : list A) (x : A) :
  In x (slice_to n l) -> In x l.
Proof.
  destruct (slice_to_prefix n l) as [rest H]. intros Hx.
  rewrite H. apply in_or_app. now left.
Qed.

Lemma StronglySorted_app_l {A} (R : A -> A -> Prop) (l1 l2 : list A) :
  StronglySorted R (l1 ++ l2) -> StronglySorted R l1.
Proof.
  induction l1 as [|x l1 IH]; intros H; [constructor|].
  simpl in H. inversion H as [|? ? Hs Hx]; subst.
  constructor; [now apply IH|].
  apply Forall_forall. intros y Hy. rewrite Forall_forall in Hx.
  apply Hx, in_or_app. now left.
Qed.

Lemma slice_to_sorted {A} (R : A -> A -> Prop) (n : Z) (l : list A) :
  StronglySorted R l -> StronglySorted R (slice_to n l).
Proof.
  destruct (slice_to_prefix n l) as [rest H]. intros Hs.
  rewrite H in Hs. now apply StronglySorted_app_l in Hs.
Qed.

Lemma sorted_asc_sorted {A} (key : A -> Q) (l : list A) :
  StronglySorted (fun x y => key x <= key y) (sorted_asc key l).
Proof.
  eapply StronglySorted_weaken;
    [|apply sort_by_sorted with (leb := fun x y => Qle_bool (key x) (key y))].
  - intros x y H. now apply Qle_bool_iff.
  - intros x y. rewrite !Qle_bool_iff.
    destruct (Qlt_le_dec (key x) (key y)); [left; lra | now right].
  - intros x y z. rewrite !Qle_bool_iff. lra.
Qed.

(** [main] on a document that all analyses can read. *)
Lemma main_run (data : Data.t) (args : Args.t) (trades : list Trade)
  (s : Summary.t) (title : string) :
  Data.trades data = Some trades ->
  Data.summary data = Some s ->
  Summary.market_title s = Some title ->
  forallb report_wf trades = true ->
  exists pnl timing impact positions classifications,
    estimate_pnl trades (reference_probability args s) = Ok pnl /\
    analyze_timing trades = Ok timing /\
    analyze_market_impact trades = Ok impact /\
    analyze_position_changes trades = Ok positions /\
    classify_traders trades pnl = Ok classifications /\
    main data args =
    match Args.output args with
    | OutputAll =>
        Returned (OutAll (Report.mk
          (ReportSummary.mk title (reference_probability args s)
             (List.length pnl) (List.length (non_redemption trades)))
          (slice_to (Args.top args) pnl)
          (slice_to (Args.top args) (sorted_asc PnlRow.estimated_pnl pnl))
          (slice_to (Args.top args) impact)
          (slice_to (Args.top args) (filter FlipRow.is_flipper positions))
          (slice_to (Args.top args) classifications)))
    | OutputPnl => Returned (OutPnl (slice_to (Args.top args) pnl))
    | OutputTiming =>
        match trades with
        | [] => Aborted SliceOfDict
        | _ => Returned (OutTiming (slice_to (Args.top args) timing))
        end
    | OutputImpact => Returned (OutImpact (slice_to (Args.top args) impact))
    | OutputClassify =>
        Returned (OutClassify (slice_to (Args.top args) classifications))
    end.
Proof.
  intros Ht Hs Hti Hwf.
  destruct (run_analyses_returns trades (reference_probability args s))
    as [[_ [pnl [timing [impact [positions [cls
          [H1 [H2 [H3 [H4 [H5 Hrun]]]]]]]]]]]|[F _]]; [|congruence].
  exists pnl, timing, impact, positions, cls.
  repeat (split; [assumption|]).
  unfold main, main_inputs. rewrite Ht, Hs.
  unfold reference_probability in *.
  destruct (Args.current_prob args) as [p|]; cbn [getitem bind];
    rewrite ?pydiv_100; cbn [bind]; rewrite Hti; cbn [getitem bind];
    rewrite Hrun; cbn [bind]; reflexivity.
Qed.

(** X14. The full report of [main]: [total_traders] is the number of
    distinct traders and [total_trades] the number of non-redemption
    trades, which is the sum of the [trade_count] of all P&L rows;
    [pnl_leaderboard] is a prefix of the rows of [estimate_pnl];
    [biggest_losers] is in ascending order of [estimated_pnl];
    [position_flippers] holds flippers only; with a non-negative [top] no
    list is longer than [top].  The timing rows are not part of the
    report. *)
Theorem full_report (data : Data.t) (args : Args.t) (trades : list Trade)
  (s : Summary.t) (title : string)
  (Htrades : Data.trades data = Some trades)
  (Hsummary : Data.summary data = Some s)
  (Htitle : Summary.market_title s = Some title)
  (Hwf : forallb report_wf trades = true)
  (Hall : Args.output args = OutputAll) :
  exists report pnl,
    main data args = Returned (OutAll report) /\
    estimate_pnl trades (reference_probability args s) = Ok pnl /\
    ReportSummary.market (Report.summary report) = title /\
    ReportSummary.current_prob (Report.summary report)
    = reference_probability args s /\
    ReportSummary.total_traders (Report.summary report)
    = List.length (trader_order trades) /\
    ReportSummary.total_trades (Report.summary report)
    = List.length (non_redemption trades) /\
    ReportSummary.total_trades (Report.summary report)
    = list_sum (map PnlRow.trade_count pnl) /\
    (exists rest, pnl = Report.pnl_leaderboard report ++ rest) /\
    StronglySorted
      (fun a b => PnlRow.estimated_pnl a <= PnlRow.estimated_pnl b)
      (Report.biggest_losers report) /\
    (forall r, In r (Report.biggest_losers report) -> In r pnl) /\
    (forall r, In r (Report.position_flippers report) ->
       FlipRow.is_flipper r = true /\ (2 <= FlipRow.flips r)%nat) /\
    ((0 <= Args.top args)%Z ->
     (List.length (Report.pnl_leaderboard report) <= Z.to_nat (Args.top args)
      /\ List.length (Report.biggest_losers report) <= Z.to_nat (Args.top args)
      /\ List.length (Report.market_movers report) <= Z.to_nat (Args.top args)
      /\ List.length (Report.position_flippers report)
         <= Z.to_nat (Args.top args)
      /\ List.length (Report.trader_classifications report)
         <= Z.to_nat (Args.top args))%nat).
Proof.
  destruct (main_run data args trades s title Htrades Hsummary Htitle Hwf)
    as [pnl [timing [impact [positions [cls [H1 [_ [_ [H4 [_ Hmain]]]]]]]]]].
  rewrite Hall in Hmain.
  apply report_wf_all in Hwf. destruct Hwf as [Wp [_ [_ Wf]]].
  eexists. exists pnl. split; [exact Hmain|]. split; [exact H1|].
  cbn [Report.summary ReportSummary.market ReportSummary.current_prob
       ReportSummary.total_traders ReportSummary.total_trades
       Report.pnl_leaderboard Report.biggest_losers Report.market_movers
       Report.position_flippers Report.trader_classifications].
  split; [reflexivity|]. split; [reflexivity|]. split.
  { rewrite <- (Permutation_length
                  (pnl_users_order trades (reference_probability args s)
                     pnl Wp H1)).
    now rewrite length_map. }
  split; [reflexivity|]. split.
  { symmetry.
    exact (pnl_trade_count_sum trades (reference_probability args s) pnl
             Wp H1). }
  split; [apply slice_to_prefix|]. split.
  { apply slice_to_sorted, sorted_asc_sorted. }
  split.
  { intros r Hr. apply slice_to_In in Hr. now apply In_sort_by in Hr. }
  split.
  { intros r Hr. apply slice_to_In, filter_In in Hr. destruct Hr as [Hr Hf].
    split; [exact Hf|].
    destruct (flip_rows trades Wf) as [rows [Hrows Hin]].
    rewrite H4 in Hrows. injection Hrows as <-.
    apply Hin in Hr. destruct Hr as [u [_ Hrow]].
    apply flip_row_of_Some in Hrow. destruct Hrow as [_ [_ [_ [_ Hfp]]]].
    rewrite Hfp in Hf. now apply Nat.leb_le in Hf. }
  intros Htop.
  repeat split;
    rewrite (proj1 (slice_to_length _ _) Htop); apply Nat.le_min_l.
Qed.

Lemma full_report_witness :
  exists report,
    main (market "m" flip_trades) (Args.mk None OutputAll 2)
    = Returned (OutAll report) /\
    ReportSummary.total_traders (Report.summary report) = 3%nat /\
    ReportSummary.total_trades (Report.summary report) = 8%nat.
Proof.
  destruct (full_report (market "m" flip_trades) (Args.mk None OutputAll 2)
              flip_trades (Summary.mk (Some "m"%string) (Some 50)) "m"
              eq_refl eq_refl eq_refl eq_refl eq_refl)
    as [report [pnl [Hmain [_ [_ [_ [Htr [Htt _]]]]]]]].
  exists report. split; [exact Hmain|]. split; [exact Htr | exact Htt].
Defined.

Lemma slice_to_nil {A} (n : Z) : slice_to n (@nil A) = [].
Proof. unfold slice_to. destruct (0 <=? n)%Z; apply firstn_nil. Qed.

(** X15. On a document without trades every analyzer returns no rows and
    [main] prints empty lists and a report with zero totals, for every
    [--top] and reference probability; but [--output timing] stops with
    an exception, because [analyze_timing] returns a dictionary for no
    trades and [main] slices it. *)
Theorem empty_collection (args : Args.t) (s : Summary.t) (title : string)
  (Htitle : Summary.market_title s = Some title) :
  let data := Data.mk (Some []) (Some s) in
  let cp := reference_probability args s in
  estimate_pnl [] cp = Ok [] /\
  analyze_timing [] = Ok [] /\
  analyze_market_impact [] = Ok [] /\
  analyze_position_changes [] = Ok [] /\
  classify_traders [] [] = Ok [] /\
  main data args =
  match Args.output args with
  | OutputAll =>
      Returned (OutAll (Report.mk (ReportSummary.mk title cp 0 0)
                          [] [] [] [] []))
  | OutputPnl => Returned (OutPnl [])
  | OutputTiming => Aborted SliceOfDict
  | OutputImpact => Returned (OutImpact [])
  | OutputClassify => Returned (OutClassify [])
  end.
Proof.
  cbv zeta. repeat (split; [reflexivity|]).
  destruct (main_run (Data.mk (Some []) (Some s)) args [] s title
              eq_refl eq_refl Htitle eq_refl)
    as [pnl [timing [impact [positions [cls
          [H1 [H2 [H3 [H4 [H5 Hmain]]]]]]]]]].
  injection H1 as <-. injection H2 as <-. injection H3 as <-.
  injection H4 as <-. injection H5 as <-.
  rewrite Hmain. destruct (Args.output args); cbn [filter sorted_asc sort_by
    fold_right List.length non_redemption]; rewrite ?slice_to_nil;
    reflexivity.
Qed.

Lemma empty_collection_witness :
  main (market "m" []) (Args.mk None OutputTiming 20) = Aborted SliceOfDict /\
  main (market "m" []) (Args.mk None OutputPnl 20) = Returned (OutPnl []).
Proof.
  split.
  - exact (proj2 (proj2 (proj2 (proj2 (proj2
      (empty_collection (Args.mk None OutputTiming 20)
         (Summary.mk (Some "m"%string) (Some 50)) "m" eq_refl)))))).
  - exact (proj2 (proj2 (proj2 (proj2 (proj2
      (empty_collection (Args.mk None OutputPnl 20)
         (Summary.mk (Some "m"%string) (Some 50)) "m" eq_refl)))))).
Defined.

(** X16. With [--output pnl], [impact] or [classify] (and [timing], for a
    non-empty collection) [main] prints a prefix of the rows of that
    analysis: the first [top] rows, all rows when there are fewer; [top]
    is not validated, and a negative [top] leaves out the last [-top]
    rows instead. *)
Theorem single_output_prefix (data : Data.t) (args : Args.t)
  (trades : list Trade) (s : Summary.t) (title : string)
  (Htrades : Data.trades data = Some trades)
  (Hsummary : Data.summary data = Some s)
  (Htitle : Summary.market_title s = Some title)
  (Hwf : forallb report_wf trades = true) :
  exists pnl timing impact classifications,
    estimate_pnl trades (reference_probability args s) = Ok pnl /\
    analyze_timing trades = Ok timing /\
    analyze_market_impact trades = Ok impact /\
    classify_traders trades pnl = Ok classifications /\
    (Args.output args = OutputPnl ->
     main data args = Returned (OutPnl (slice_to (Args.top args) pnl))) /\
    (Args.output args = OutputTiming -> trades <> [] ->
     main data args = Returned (OutTiming (slice_to (Args.top args) timing)))
    /\
    (Args.output args = OutputImpact ->
     main data args = Returned (OutImpact (slice_to (Args.top args) impact)))
    /\
    (Args.output args = OutputClassify ->
     main data args
     = Returned (OutClassify (slice_to (Args.top args) classifications))) /\
    (forall (A : Type) (rows : list A),
       (exists rest, rows = slice_to (Args.top args) rows ++ rest) /\
       ((0 <= Args.top args)%Z ->
        List.length (slice_to (Args.top args) rows)
        = Nat.min (Z.to_nat (Args.top args)) (List.length rows)) /\
       ((Args.top args < 0)%Z ->
        List.length (slice_to (Args.top args) rows)
        = (List.length rows - Z.to_nat (- Args.top args))%nat)).
Proof.
  destruct (main_run data args trades s title Htrades Hsummary Htitle Hwf)
    as [pnl [timing [impact [positions [cls
          [H1 [H2 [H3 [_ [H5 Hmain]]]]]]]]]].
  exists pnl, timing, impact, cls.
  repeat (split; [assumption|]).
  split; [intros Ho; now rewrite Hmain, Ho|].
  split.
  { intros Ho Hne. rewrite Hmain, Ho. destruct trades; [congruence|].
    reflexivity. }
  split; [intros Ho; now rewrite Hmain, Ho|].
  split; [intros Ho; now rewrite Hmain, Ho|].
  intros A rows. split; [apply slice_to_prefix | apply slice_to_length].
Qed.

Lemma single_output_prefix_witness :
  exists rows,
    main (market "m" flip_trades) (Args.mk None OutputPnl (-1))
    = Returned (OutPnl rows) /\
    List.length rows = 2%nat.
Proof.
  destruct (single_output_prefix (market "m" flip_trades)
              (Args.mk None OutputPnl (-1)) flip_trades
              (Summary.mk (Some "m"%string) (Some 50)) "m"
              eq_refl eq_refl eq_refl eq_refl)
    as [pnl [timing [impact [cls [Hpnl [_ [_ [_ [Hmain [_ [_ [_ Hslice]]]]]]]]]]]].
  exists (slice_to (-1) pnl). split; [exact (Hmain eq_refl)|].
  destruct (Hslice _ pnl) as [_ [_ Hneg]].
  cbn [Args.top] in Hneg. rewrite Hneg by lia.
  vm_compute in Hpnl. injection Hpnl as <-. reflexivity.
Defined.

(** X17. With amounts [>= 0], the [yes_pct] of every classification row
    that [main] computes from the rows of [estimate_pnl] lies between 0
    and 100. *)
Theorem classification_yes_pct_range (trades : list Trade) (current_prob : Q)
  (Hwf : forallb pnl_wf trades = true)
  (Hamount : forall t a, In t trades -> amount t = Some a -> 0 <= a) :
  exists pnl rows,
    estimate_pnl trades current_prob = Ok pnl /\
    classify_traders trades pnl = Ok rows /\
    forall c, In c rows -> 0 <= ClassRow.yes_pct c <= 100.
Proof.
  destruct (classification_join_rows trades current_prob Hwf)
    as [pnl [rows [Hpnl [Hrows [_ Hjoin]]]]].
  exists pnl, rows. split; [exact Hpnl|]. split; [exact Hrows|].
  intros c Hc. destruct (Hjoin c Hc) as [p [Hp [Hu [_ [_ Hy]]]]].
  destruct (estimate_pnl_rows trades current_prob Hwf)
    as [pnl' [Hpnl' [_ Hin]]].
  rewrite Hpnl in Hpnl'. injection Hpnl' as <-.
  apply Hin in Hp. destruct Hp as [_ Hp].
  set (u := PnlRow.user p) in *.
  assert (Hyc : 0 <= Pos.yes_cost (position_of u trades)).
  { apply (side_sum_prefix_le amount_of is_yes u trades []).
    rewrite app_nil_r. intros t Ht. now apply (amount_of_nonneg trades). }
  assert (Hnc : 0 <= Pos.no_cost (position_of u trades)).
  { apply (side_sum_prefix_le amount_of (fun t => negb (is_yes t)) u trades []).
    rewrite app_nil_r. intros t Ht. now apply (amount_of_nonneg trades). }
  assert (Hy0 : 0 <= PnlRow.yes_cost p).
  { rewrite Hp. cbn [pnl_row_of PnlRow.yes_cost]. now apply pyround_nonneg. }
  assert (Hyt : PnlRow.yes_cost p <= PnlRow.total_cost p).
  { rewrite Hp. cbn [pnl_row_of PnlRow.yes_cost PnlRow.total_cost].
    apply pyround_mono. unfold total_cost_of. lra. }
  assert (Hq : 0 <= (if Qlt_bool 0 (PnlRow.total_cost p)
                     then PnlRow.yes_cost p / PnlRow.total_cost p * 100
                     else 50) <= 100).
  { destruct (Qlt_bool 0 (PnlRow.total_cost p)) eqn:E; [|split; lra].
    apply Qlt_bool_iff in E. split.
    - apply Qmult_le_0_compat; [|lra].
      apply Qle_shift_div_l; [exact E | lra].
    - setoid_replace 100 with (1 * 100) at 2 by reflexivity.
      apply Qmult_le_compat_r; [|lra].
      apply Qle_shift_div_r; [exact E | lra]. }
  rewrite Hy. split;
    [apply pyround_nonneg, Hq | apply (pyround_le_int _ 100), Hq].
Qed.

Lemma classification_yes_pct_range_witness :
  exists pnl rows,
    estimate_pnl impact_trades_pct 0.5 = Ok pnl /\
    classify_traders impact_trades_pct pnl = Ok rows /\
    forall c, In c rows -> 0 <= ClassRow.yes_pct c <= 100.
Proof.
  assert (Hamount : forall t a, In t impact_trades_pct ->
                                amount t = Some a -> 0 <= a).
  { intros t a [<-|[<-|[]]] [= <-]; discriminate. }
  exact (classification_yes_pct_range impact_trades_pct 0.5 eq_refl Hamount).
Defined.

(** ** Redemptions, once more *)

Lemma non_redemption_insert (before after : list Trade) (r : Trade) :
  is_redemption r = true ->
  non_redemption (before ++ r :: after) = non_redemption (before ++ after).
Proof.
  intros H. unfold non_redemption. rewrite !filter_app. simpl.
  now rewrite H.
Qed.

(** X18. A redemption record is skipped whatever else it holds: adding or
    removing one, anywhere in the collection, changes nothing in the
    results of [estimate_pnl], [analyze_market_impact] and
    [classify_traders], nor in the result of [analyze_position_changes]
    when every record has a timestamp to sort by. *)
Theorem redemption_record_ignored (before after : list Trade) (r : Trade)
  (current_prob : Q) (pnl_data : list PnlRow.t)
  (Hr : is_redemption r = true) :
  estimate_pnl (before ++ r :: after) current_prob
  = estimate_pnl (before ++ after) current_prob /\
  analyze_market_impact (before ++ r :: after)
  = analyze_market_impact (before ++ after) /\
  classify_traders (before ++ r :: after) pnl_data
  = classify_traders (before ++ after) pnl_data /\
  (forallb (fun t => present (timestamp t)) (before ++ r :: after) = true ->
   analyze_position_changes (before ++ r :: after)
   = analyze_position_changes (before ++ after)).
Proof.
  destruct (redemptions_excluded_elsewhere (before ++ r :: after)
              current_prob pnl_data) as [P1 [I1 [C1 F1]]].
  destruct (redemptions_excluded_elsewhere (before ++ after)
              current_prob pnl_data) as [P2 [I2 [C2 F2]]].
  rewrite (non_redemption_insert _ _ _ Hr) in P1, I1, C1, F1.
  split; [congruence|]. split; [congruence|]. split; [congruence|].
  intros Hts. rewrite <- (F1 Hts). apply F2.
  rewrite forallb_app in *. simpl in Hts.
  rewrite !andb_true_iff in Hts. apply andb_true_iff. tauto.
Qed.

Lemma redemption_record_ignored_witness :
  analyze_position_changes
    ([buy "alice" 10 "YES" 50 51 1] ++ redeem "bob" 2
     :: [buy "alice" 10 "NO" 51 50 3])
  = analyze_position_changes
      ([buy "alice" 10 "YES" 50 51 1] ++ [buy "alice" 10 "NO" 51 50 3]).
Proof.
  apply (redemption_record_ignored [buy "alice" 10 "YES" 50 51 1]
           [buy "alice" 10 "NO" 51 50 3] (redeem "bob" 2) 0.5 [] eq_refl).
  reflexivity.
Defined.

(** ** The sign of the estimate *)






(** * The siblings in [scripts/generate_viz.py] *)

Lemma viz_pnl_step_wf (d : dict VizPos.t) (t : Trade) :
  pnl_wf t = true ->
  viz_pnl_step d t = Ok (group_step VizPos.default trader_key viz_pos_upd d t).
Proof.
  unfold pnl_wf, viz_pnl_step, group_step, trader_key, viz_pos_upd.
  destruct (is_redemption t) eqn:Er; [reflexivity|]. simpl.
  destruct (user t) as [u|] eqn:Eu; [|discriminate].
  destruct (amount t) as [amt|] eqn:Ea; [|discriminate].
  destruct (prob_before t) as [pb|] eqn:Ep; [|discriminate].
  destruct (outcome t) as [oc|] eqn:Eo; [|discriminate].
  intros _. simpl.
  unfold shares_of, is_yes, prob_of, amount_of. rewrite Eo, Ep, Ea. simpl.
  destruct (String.eqb oc "YES").
  - destruct (Qlt_bool 0 (pb / 100)) eqn:E; simpl; [|reflexivity].
    apply Qlt_bool_iff in E. rewrite pydiv_nonzero; [reflexivity|].
    intros H. rewrite H in E. now apply Qlt_irrefl in E.
  - destruct (Qlt_bool (pb / 100) 1) eqn:E; simpl; [|reflexivity].
    apply Qlt_bool_iff in E. rewrite pydiv_nonzero; [reflexivity|].
    intros H. lra.
Qed.











(** ** The two [estimate_pnl] fail together *)

Lemma foldM_same_raise {A S S'} (f : S -> A -> result S)
  (g : S' -> A -> result S') (l : list A) :
  (forall x s s',
     (exists a b, f s x = Ok a /\ g s' x = Ok b) \/
     (exists e, f s x = Raise e /\ g s' x = Raise e)) ->
  forall s s',
    (exists a b, foldM f l s = Ok a /\ foldM g l s' = Ok b) \/
    (exists e, foldM f l s = Raise e /\ foldM g l s' = Raise e).
Proof.
  intros H. induction l as [|x l IH]; intros s s'; simpl.
  - left. eauto.
  - destruct (H x s s') as [[a [b [-> ->]]]|[e [-> ->]]]; simpl.
    + apply IH.
    + right. eauto.
Qed.

Lemma pnl_steps_same_raise (t : Trade) (d : dict Pos.t) (d' : dict VizPos.t) :
  (exists a b, pnl_step d t = Ok a /\ viz_pnl_step d' t = Ok b) \/
  (exists e, pnl_step d t = Raise e /\ viz_pnl_step d' t = Raise e).
Proof.
  destruct (pnl_wf t) eqn:E.
  - left. rewrite (pnl_step_wf _ _ E), (viz_pnl_step_wf _ _ E). eauto.
  - right. revert E. unfold pnl_wf, pnl_step, viz_pnl_step.
    destruct (is_redemption t); [discriminate|].
    destruct (user t), (amount t), (prob_before t), (outcome t); simpl;
      try discriminate; intros _; eexists; split; reflexivity.
Qed.

Lemma viz_results_total (cp : Q) (l : dict VizPos.t) (acc : dict VizRow.t) :
  exists r, foldM (viz_pnl_result cp) l acc = Ok r.
Proof.
  revert acc. induction l as [|[u pos] l IH]; intros acc; simpl.
  - eauto.
  - unfold viz_pnl_result at 1.
    destruct (Qlt_bool 0 (VizPos.yes_cost pos + VizPos.no_cost pos)) eqn:E.
    + apply Qlt_bool_iff in E. rewrite pydiv_nonzero.
      * simpl. apply IH.
      * intros H. rewrite H in E. now apply Qlt_irrefl in E.
    + simpl. apply IH.
Qed.

Lemma pnl_rows_total (cp : Q) (l : dict Pos.t) :
  exists r, mapM (pnl_row cp) l = Ok r.
Proof.
  eexists. apply (mapM_Ok_map _ (pnl_row_of cp)).
  intros e _. apply pnl_row_Ok.
Qed.

(** X21. The [estimate_pnl] of the visualization and the one of the
    analysis fail on the same collections of trades, and with the same
    exception: the [KeyError] of the first field that is missing from a
    non-redemption trade.  Neither of them raises anything else; a zero
    divisor is never reached. *)
Theorem viz_pnl_same_failure (trades : list Trade) (current_prob : Q)
  (e : exn) :
  (viz_estimate_pnl trades current_prob = Raise e <->
   estimate_pnl trades current_prob = Raise e) /\
  (viz_estimate_pnl trades current_prob = Raise e ->
   forallb pnl_wf trades = false /\ exists k, e = KeyError k).
Proof.
  assert (Hsame : viz_estimate_pnl trades current_prob = Raise e <->
                  estimate_pnl trades current_prob = Raise e).
  { unfold viz_estimate_pnl, estimate_pnl, pnl_positions.
    destruct (foldM_same_raise pnl_step viz_pnl_step trades
                (fun x s s' => pnl_steps_same_raise x s s') [] [])
      as [[a [b [-> ->]]]|[e' [-> ->]]]; cbn [bind].
    - destruct (viz_results_total current_prob b []) as [r ->].
      destruct (pnl_rows_total current_prob a) as [r' ->]. cbn [bind].
      split; discriminate.
    - split; intros [= ->]; reflexivity. }
  split; [exact Hsame|].
  intros Hviz. apply Hsame in Hviz.
  destruct (estimate_pnl_returns trades current_prob)
    as [[_ [rows Hrows]]|[Hwf [k Hk]]].
  - rewrite Hrows in Hviz. discriminate Hviz.
  - split; [exact Hwf|]. exists k. congruence.
Qed.

(** ** The badges of the visualization *)

Lemma viz_classify_as_types (volume : Q) (trades : nat) (yes_pct roi : Q)
  (whale_threshold : Q) :
  viz_classify_trader volume trades yes_pct roi whale_threshold =
  trader_types whale_threshold volume
    (if (15 <=? trades)%nat then 20 else trades) yes_pct roi.
Proof.
  unfold viz_classify_trader, trader_types.
  destruct (15 <=? trades)%nat eqn:E.
  - reflexivity.
  - apply Nat.leb_gt in E.
    assert (E' : (20 <=? trades)%nat = false) by (apply Nat.leb_gt; lia).
    rewrite E'. reflexivity.
Qed.

Lemma viz_threshold_ge (volumes : list Q) :
  whale_threshold_of volumes <= viz_whale_threshold_of volumes.
Proof.
  unfold whale_threshold_of, viz_whale_threshold_of.
  destruct volumes as [|v0 vs]; [apply Qle_refl|].
  apply sorted_desc_nth_ge.
  - apply (sorted_desc_sorted (fun v => v)).
  - lia.
  - unfold sorted_desc. rewrite length_sort_by. cbn [List.length]. lia.
Qed.

(** X22. The badge rule of the visualization, [classify_trader], is the
    label rule of [classify_traders] with the ACTIVE bound lowered from
    20 trades to 15: below 15 and from 20 trades on the two give the same
    list, and from 15 to 19 trades the visualization gives what the
    analysis gives a trader of 20 trades.  Its whale threshold is the
    tenth largest volume where the analysis takes the eleventh, so on one
    and the same list of volumes it is at least as large, and a WHALE of
    the visualization is a WHALE of the analysis. *)
Theorem viz_badges_vs_labels (volumes : list Q) (volume : Q) (trades : nat)
  (yes_pct roi : Q) :
  let viz := viz_classify_trader volume trades yes_pct roi
               (viz_whale_threshold_of volumes) in
  let types := trader_types (whale_threshold_of volumes) volume trades
                 yes_pct roi in
  whale_threshold_of volumes <= viz_whale_threshold_of volumes /\
  (forall th, ((trades < 15)%nat \/ (20 <= trades)%nat) ->
     viz_classify_trader volume trades yes_pct roi th =
     trader_types th volume trades yes_pct roi) /\
  (forall th, (15 <= trades < 20)%nat ->
     viz_classify_trader volume trades yes_pct roi th =
     trader_types th volume 20 yes_pct roi /\
     In "ACTIVE"%string (viz_classify_trader volume trades yes_pct roi th) /\
     ~ In "ACTIVE"%string (trader_types th volume trades yes_pct roi)) /\
  (In "WHALE"%string viz -> In "WHALE"%string types).
Proof.
  intros viz types.
  assert (Hth := viz_threshold_ge volumes).
  split; [exact Hth|]. split; [|split].
  - intros th Hn. rewrite viz_classify_as_types.
    destruct (15 <=? trades)%nat eqn:E; [|reflexivity].
    apply Nat.leb_le in E. destruct Hn as [Hn|Hn]; [lia|].
    unfold trader_types.
    assert (E' : (20 <=? trades)%nat = true) by (apply Nat.leb_le; lia).
    rewrite E'. reflexivity.
  - intros th [Hlo Hhi]. rewrite viz_classify_as_types.
    assert (E : (15 <=? trades)%nat = true) by (now apply Nat.leb_le).
    rewrite E. split; [reflexivity|]. split.
    + destruct (trader_types_rules th volume 20 yes_pct roi)
        as [_ [Ha _]].
      apply Ha. lia.
    + intros Hin.
      destruct (trader_types_rules th volume trades yes_pct roi)
        as [_ [Ha _]].
      apply Ha in Hin. lia.
  - subst viz types. rewrite viz_classify_as_types. intros Hin.
    destruct (trader_types_rules (viz_whale_threshold_of volumes) volume
                (if (15 <=? trades)%nat then 20%nat else trades)
                yes_pct roi) as [Hw _].
    apply Hw in Hin.
    destruct (trader_types_rules (whale_threshold_of volumes) volume
                trades yes_pct roi) as [Hw' _].
    apply Hw'.
    apply Qle_trans with (viz_whale_threshold_of volumes); assumption.
Qed.

Lemma viz_badges_vs_labels_witness :
  viz_classify_trader 10 17 50 0 100 = ["ACTIVE"%string] /\
  trader_types 100 10 17 50 0 = ["RETAIL"%string] /\
  viz_classify_trader 10 3 50 0 100 = trader_types 100 10 3 50 0.
Proof.
  destruct (viz_badges_vs_labels [] 10 17 50 0) as [_ [_ [H _]]].
  destruct (viz_badges_vs_labels [] 10 3 50 0) as [_ [H3 _]].
  split; [|split].
  - rewrite (proj1 (H 100 ltac:(lia))). reflexivity.
  - reflexivity.
  - apply H3. left. lia.
Defined.

(** ** The market impact of the visualization *)








